(** * Notebook-to-HTML conversion service: paths, filesystem and workflow

    A shallow embedding of [NotebookToHTMLConverter] from
    [src/ipynb_to_html.py].  The conversion service is orchestration code
    over [pathlib], the filesystem and three external collaborators
    (nbformat, nbconvert, BeautifulSoup); the model keeps that shape:

    - [Path] follows [pathlib.PurePosixPath] (a root flag and the list of
      name components), with [suffix], [stem], [with_suffix], [parent],
      [/] and [relative_to] written as pathlib computes them;
    - the filesystem is a finite map from paths to nodes; paths denote
      nodes as they are spelled (no symbolic links, no [..] resolution, no
      permissions), and the errors of [open], [mkdir] are the POSIX ones;
    - Python exceptions are an explicit outcome, [print] appends to a
      captured standard output, and both are threaded by a small state and
      error monad;
    - the external libraries are an interface ([Collaborators]) of
      deterministic functions; the kernel's own effects on the filesystem
      are outside the model. *)

From Stdlib Require Import Ascii String.
From stdpp Require Import base option list strings gmap pretty.

Local Open Scope string_scope.

(** ** Strings as Python uses them here *)

Module Str.

(** [c.lower()] on one byte: ASCII capitals map to small letters, every
    other byte stays.  [str.lower] is Unicode aware, but no character
    outside ASCII lower-cases to a letter of [".ipynb"], so for the
    comparison made by the converter the byte-wise map is exact. *)
Definition lower_ascii (c : ascii) : ascii :=
  let n := nat_of_ascii c in
  if (65 <=? n)%nat && (n <=? 90)%nat then ascii_of_nat (n + 32) else c.

Fixpoint lower (s : string) : string :=
  match s with
  | EmptyString => EmptyString
  | String c s' => String (lower_ascii c) (lower s')
  end.

(** [s.rfind('.')]: index of the last dot, [None] for Python's [-1]. *)
Fixpoint rfind_dot (s : string) : option nat :=
  match s with
  | EmptyString => None
  | String c s' =>
      match rfind_dot s' with
      | Some i => Some (S i)
      | None => if Ascii.eqb c "." then Some 0%nat else None
      end
  end.

(** [s[:n]] and [s[n:]]. *)
Fixpoint take (n : nat) (s : string) : string :=
  match n, s with
  | S n', String c s' => String c (take n' s')
  | _, _ => EmptyString
  end.

Fixpoint drop (n : nat) (s : string) : string :=
  match n, s with
  | S n', String _ s' => drop n' s'
  | _, _ => s
  end.

(** [s.endswith(t)]. *)
Definition endswith (s t : string) : bool :=
  String.eqb (drop (String.length s - String.length t) s) t
  && (String.length t <=? String.length s)%nat.

(** [s.startswith(t)]. *)
Definition startswith (s t : string) : bool := String.prefix t s.

(** [s.split('/')]. *)
Fixpoint split_slash (s : string) : list string :=
  match s with
  | EmptyString => [EmptyString]
  | String c s' =>
      if Ascii.eqb c "/" then EmptyString :: split_slash s'
      else match split_slash s' with
           | [] => [String c EmptyString]
           | x :: xs => String c x :: xs
           end
  end.

(** ['/'.join(l)]. *)
Fixpoint join_slash (l : list string) : string :=
  match l with
  | [] => EmptyString
  | [x] => x
  | x :: xs => x ++ "/" ++ join_slash xs
  end.

End Str.

(** ** [pathlib.PurePosixPath] *)

Record Path := mkPath { rooted : bool; parts : list string }.

Global Instance Path_eq_dec : EqDecision Path.
Proof. solve_decision. Defined.

Global Instance Path_countable : Countable Path.
Proof.
  refine (inj_countable' (fun p => (rooted p, parts p))
                         (fun q => mkPath q.1 q.2) _).
  intros []; reflexivity.
Defined.

Module PurePath.

(** [Path(s)]: a leading slash gives the root; empty components and
    single dots are dropped.  (POSIX lets exactly two leading slashes
    stand for a root of their own; the model folds it into ["/"].) *)
Definition of_str (s : string) : Path :=
  mkPath (Str.startswith s "/")
         (filter (fun x => x ≠ "" ∧ x ≠ ".") (Str.split_slash s)).

(** [str(p)]. *)
Definition to_str (p : Path) : string :=
  match parts p with
  | [] => if rooted p then "/" else "."
  | l => (if rooted p then "/" else "") ++ Str.join_slash l
  end.

(** [p.name]: the final component, [''] when there is none. *)
Definition name (p : Path) : string := List.last (parts p) "".

(** The split point of [suffix] and [stem]:
    [i = name.rfind('.')] when [0 < i < len(name) - 1]. *)
Definition suffix_index (nm : string) : option nat :=
  match Str.rfind_dot nm with
  | Some i =>
      if (0 <? i)%nat && (i <? String.length nm - 1)%nat then Some i else None
  | None => None
  end.

Definition suffix (p : Path) : string :=
  match suffix_index (name p) with
  | Some i => Str.drop i (name p)
  | None => ""
  end.

Definition stem (p : Path) : string :=
  match suffix_index (name p) with
  | Some i => Str.take i (name p)
  | None => name p
  end.

(** [p.parent]: the path without its final component; a path with no
    component is its own parent. *)
Definition parent (p : Path) : Path :=
  mkPath (rooted p) (removelast (parts p)).

(** [p / q]: an absolute right operand replaces the left one. *)
Definition join (p q : Path) : Path :=
  if rooted q then q else mkPath (rooted p) (parts p ++ parts q).

(** [p / s] for a string [s]. *)
Definition join_str (p : Path) (s : string) : Path := join p (of_str s).

End PurePath.

Notation "p // q" := (PurePath.join p q) (at level 40, left associativity).

(** ** Exceptions, the world and the monad of the service *)

(** The classes of [Exception] the service raises itself or receives from
    the operating system; [OtherError] stands for any other subclass of
    [Exception] raised by a collaborator. *)
Inductive ExcClass :=
| FileNotFoundError
| ValueError
| NotADirectoryError
| FileExistsError
| IsADirectoryError
| OtherError (cls : string).

Global Instance ExcClass_eq_dec : EqDecision ExcClass.
Proof. solve_decision. Defined.

(** An exception object: its class and [str(e)]. *)
Record Exception := Exc { exc_class : ExcClass; exc_str : string }.

Global Instance Exception_eq_dec : EqDecision Exception.
Proof. solve_decision. Defined.

(** A directory entry: a regular file with its bytes, or a directory. *)
Inductive node :=
| File (data : string)
| Dir.

Global Instance node_eq_dec : EqDecision node.
Proof. solve_decision. Defined.

(** What a call can observe and change: the filesystem and the lines
    printed so far (oldest first). *)
Record World := mkWorld { fs : gmap Path node; stdout : list string }.

Inductive outcome (A : Type) :=
| Ok (a : A)
| Raise (e : Exception).
Arguments Ok {A} a.
Arguments Raise {A} e.

Definition M (A : Type) : Type := World → outcome A * World.

Global Instance M_ret : MRet M := λ A a w, (Ok a, w).

Global Instance M_bind : MBind M := λ A B k m w,
  match m w with
  | (Ok a, w') => k a w'
  | (Raise e, w') => (Raise e, w')
  end.

(** [raise e]. *)
Definition raise {A} (e : Exception) : M A := λ w, (Raise e, w).

(** [try: m  except Exception as e: h e]. *)
Definition try_except {A} (m : M A) (h : Exception → M A) : M A := λ w,
  match m w with
  | (Ok a, w') => (Ok a, w')
  | (Raise e, w') => h e w'
  end.

(** A collaborator's result, returned or raised. *)
Definition lift {A} (r : Exception + A) : M A :=
  match r with
  | inl e => raise e
  | inr a => mret a
  end.

(** [print(line)]. *)
Definition print (line : string) : M unit := λ w,
  (Ok tt, mkWorld (fs w) (stdout w ++ [line])).

Definition get_fs : M (gmap Path node) := λ w, (Ok (fs w), w).

Definition put_fs (m : gmap Path node) : M unit := λ w,
  (Ok tt, mkWorld m (stdout w)).

(** ** Operating-system errors *)

Module OSError.

(** [OSError(errno, strerror, filename)] as Python prints it. *)
Definition os_error (cls : ExcClass) (errno : string) (strerror : string)
    (filename : string) : Exception :=
  Exc cls ("[Errno " ++ errno ++ "] " ++ strerror ++ ": '" ++ filename ++ "'").

Definition ENOENT (f : string) : Exception :=
  os_error FileNotFoundError "2" "No such file or directory" f.
Definition EEXIST (f : string) : Exception :=
  os_error FileExistsError "17" "File exists" f.
Definition ENOTDIR (f : string) : Exception :=
  os_error NotADirectoryError "20" "Not a directory" f.
Definition EISDIR (f : string) : Exception :=
  os_error IsADirectoryError "21" "Is a directory" f.

End OSError.

(** ** [pathlib.Path]: the operations that touch the filesystem *)

Module PathOps.
Import PurePath OSError.

(** [p.with_suffix(sfx)] for a valid suffix such as ['.html']: the old
    suffix is cut from the name and the new one appended; a path
    without a name is refused. *)
Definition with_suffix (p : Path) (sfx : string) : M Path :=
  let nm := name p in
  if decide (nm = "") then
    raise (Exc ValueError ("PosixPath('" ++ to_str p ++ "') has an empty name"))
  else
    let old_suffix := suffix p in
    let nm' :=
      if decide (old_suffix = "") then nm ++ sfx
      else Str.take (String.length nm - String.length old_suffix) nm ++ sfx in
    mret (mkPath (rooted p) (removelast (parts p) ++ [nm'])).

(** [p.relative_to(other)]. *)
Definition relative_to (p other : Path) : M Path :=
  let n := length (parts other) in
  if decide (rooted p = rooted other ∧ take n (parts p) = parts other) then
    mret (mkPath false (drop n (parts p)))
  else
    raise (Exc ValueError ("'" ++ to_str p ++ "' is not in the subpath of '"
                           ++ to_str other ++ "'")).

(** [p / name] for a single name that holds no separator. *)
Definition join_name (p : Path) (nm : string) : Path :=
  mkPath (rooted p) (parts p ++ [nm]).

(** [p.exists()] and [p.is_dir()]. *)
Definition exists_ (p : Path) : M bool :=
  m ← get_fs; mret (bool_decide (is_Some (m !! p))).

Definition is_dir (p : Path) : M bool :=
  m ← get_fs; mret (bool_decide (m !! p = Some Dir)).

(** How the system resolves a path that leads to no entry.  The lookup
    goes through the path from its start and stops at the first
    component that is missing or is no directory; in a tree, where every
    entry lies in a directory that exists, that is the entry nearest
    above the path.  [below_file] finds it walking up from
    [mkPath r (rev rev_parts)] and tells whether it is a regular
    file. *)
Fixpoint below_file (m : gmap Path node) (r : bool) (rev_parts : list string)
    : bool :=
  match m !! mkPath r (rev rev_parts) with
  | Some (File _) => true
  | Some Dir => false
  | None =>
      match rev_parts with
      | [] => false
      | _ :: up => below_file m r up
      end
  end.

(** The error of a system call on [filename] that finds no entry at
    [d]: [ENOTDIR] below a regular file, [ENOENT] otherwise. *)
Definition no_entry (m : gmap Path node) (d : Path) (filename : string)
    : Exception :=
  if below_file m (rooted d) (rev (parts d)) then ENOTDIR filename
  else ENOENT filename.

(** [open(p, 'r').read()]: the bytes of a regular file. *)
Definition open_read (p : Path) : M string :=
  m ← get_fs;
  match m !! p with
  | None => raise (no_entry m p (to_str p))
  | Some Dir => raise (EISDIR (to_str p))
  | Some (File data) => mret data
  end.

(** [open(p, 'w').write(data)]: the directory holding [p] must exist,
    and [p] must not be a directory; the file is created or replaced.
    Without that directory the error is the one of the lookup. *)
Definition open_write (p : Path) (data : string) : M unit :=
  m ← get_fs;
  match m !! parent p with
  | None => raise (no_entry m (parent p) (to_str p))
  | Some (File _) => raise (ENOTDIR (to_str p))
  | Some Dir =>
      match m !! p with
      | Some Dir => raise (EISDIR (to_str p))
      | _ => put_fs (<[p := File data]> m)
      end
  end.

(** [os.mkdir(p)]: a path that exists is refused; a new one needs the
    directory that holds it, and fails at once below a regular file. *)
Definition os_mkdir (p : Path) : M unit :=
  m ← get_fs;
  match m !! p with
  | Some _ => raise (EEXIST (to_str p))
  | None =>
      match m !! parent p with
      | None => raise (no_entry m (parent p) (to_str p))
      | Some (File _) => raise (ENOTDIR (to_str p))
      | Some Dir => put_fs (<[p := Dir]> m)
      end
  end.

(** The [except OSError] arm of [Path.mkdir]: the error is dropped only
    when [exist_ok] is set and the path is a directory. *)
Definition mkdir_oserror (p : Path) (exist_ok : bool) (e : Exception) : M unit :=
  d ← is_dir p;
  if negb exist_ok || negb d then raise e else mret tt.

(** [p.mkdir(parents=False, exist_ok=exist_ok)]. *)
Definition mkdir_flat (p : Path) (exist_ok : bool) : M unit :=
  try_except (os_mkdir p) (λ e,
    if decide (exc_class e = FileNotFoundError) then raise e
    else mkdir_oserror p exist_ok e).

(** [p.mkdir(parents=True, exist_ok=exist_ok)], by recursion on the
    components of [p] taken from the last one: when [os.mkdir] finds no
    parent, the parent is made first (with [exist_ok=True]) and the
    path is made again without [parents]. *)
Fixpoint mkdir_parents (r : bool) (rev_parts : list string) (exist_ok : bool)
    : M unit :=
  let self := mkPath r (rev rev_parts) in
  try_except (os_mkdir self) (λ e,
    if decide (exc_class e = FileNotFoundError) then
      match rev_parts with
      | [] => raise e
      | _ :: up => mkdir_parents r up true;; mkdir_flat self exist_ok
      end
    else mkdir_oserror self exist_ok e).

Definition mkdir (p : Path) (parents exist_ok : bool) : M unit :=
  if parents then mkdir_parents (rooted p) (rev (parts p)) exist_ok
  else mkdir_flat p exist_ok.

(** [os.scandir(d)]: the entries of the directory [d].  Their order is
    the system's; here it is the order of the map. *)
Definition scandir (m : gmap Path node) (d : Path) : list Path :=
  filter (λ p, parent p = d ∧ parts p ≠ []) (map_to_list m).*1.

(** The walk of ["**"]: [d] itself and then, for each directory among
    the entries of [d], the walk of that directory.  [depth] bounds the
    nesting of the walk. *)
Fixpoint iterate_directories (depth : nat) (m : gmap Path node) (d : Path)
    : list Path :=
  d :: match depth with
       | O => []
       | S depth' =>
           scandir m d ≫= λ c,
             if bool_decide (m !! c = Some Dir)
             then iterate_directories depth' m c
             else []
       end.

(** The entries of [d] that match ["*.ipynb"]. *)
Definition select_ipynb (m : gmap Path node) (d : Path) : list Path :=
  filter (λ p, Str.endswith (name p) ".ipynb" = true) (scandir m d).

(** The length of the longest path of the map: no walk goes deeper. *)
Definition nesting (m : gmap Path node) : nat :=
  foldr Nat.max 0%nat ((λ p, length (parts p)) <$> (map_to_list m).*1).

(** [list(d.glob("**/*.ipynb" if recursive else "*.ipynb"))]: the
    matches of a directory come before those of the directories below
    it. *)
Definition glob_list (m : gmap Path node) (d : Path) (recursive : bool)
    : list Path :=
  if recursive then iterate_directories (nesting m) m d ≫= select_ipynb m
  else select_ipynb m d.

(** The paths that the pattern matches, told by the names that follow
    [d] in the path: ["*.ipynb"] takes the entries of [d] whose name
    ends in [.ipynb]; ["**/*.ipynb"] also walks every directory below
    [d].  [rest] is what follows [d] in the candidate path. *)
Fixpoint glob_walk (m : gmap Path node) (d : Path) (rest : list string)
    (recursive : bool) : bool :=
  match rest with
  | [] => false
  | [nm] => Str.endswith nm ".ipynb"
  | x :: rest' =>
      recursive && bool_decide (m !! join_name d x = Some Dir)
      && glob_walk m (join_name d x) rest' recursive
  end.

Definition glob_match (m : gmap Path node) (d : Path) (recursive : bool)
    (p : Path) : bool :=
  bool_decide (rooted p = rooted d)
  && bool_decide (take (length (parts d)) (parts p) = parts d)
  && glob_walk m d (drop (length (parts d)) (parts p)) recursive.

Definition glob_ipynb (d : Path) (recursive : bool) : M (list Path) :=
  m ← get_fs; mret (glob_list m d recursive).

End PathOps.

(** ** The external collaborators *)

(** The settings of [HTMLExporter] that the constructor writes. *)
Record Exporter := mkExporter {
  template_name : string;
  exporter_embed_images : bool;
  exclude_input : bool
}.

(** The libraries the service calls, as a black-box interface.
    - [nbformat_read] is [nbformat.read(f, as_version=4)] on the bytes of
      the file (decoding included): a notebook, or the exception raised;
    - [ep_preprocess] is [ExecutePreprocessor(timeout=600,
      kernel_name='python3').preprocess(nb, {'metadata': {'path': cwd}})]:
      the run changes the notebook in place, and may raise after that;
    - [from_notebook_node] is [HTMLExporter.from_notebook_node]: the body
      and [resources.get('outputs')] as the list of its items in
      iteration order (empty when the key is absent or the dict empty);
    - the [soup_] operations are the BeautifulSoup calls of
      [_enhance_html_output]. *)
Class Collaborators := {
  Notebook : Type;
  nbformat_read : string → Exception + Notebook;
  ep_preprocess : string → Notebook → Notebook * option Exception;
  from_notebook_node :
    Exporter → Notebook → Exception + (string * list (string * string));
  Soup : Type;
  soup_parse : string → Soup;
  soup_has_head : Soup → bool;
  soup_head_insert0 : Soup → Soup → Soup;
  soup_str : Soup → string
}.

(** ** [NotebookToHTMLConverter] *)

(** The attributes set by [__init__]. *)
Record Converter := mkConverter {
  embed_images : bool;
  include_input : bool;
  execute_notebook : bool;
  template : string
}.

(** An argument that is either a [str] or a [Path]. *)
Inductive PathArg :=
| AsStr (s : string)
| AsPath (p : Path).

(** The stylesheet of [_enhance_html_output], as the source spells it. *)
Definition custom_css : string := "
        <style>
        .container {
            max-width: 1200px;
            margin: 0 auto;
            padding: 20px;
        }
        .output_png, .output_jpeg, .output_svg {
            max-width: 100%;
            height: auto;
            display: block;
            margin: 10px auto;
            border: 1px solid #ddd;
            border-radius: 4px;
            box-shadow: 0 2px 4px rgba(0,0,0,0.1);
        }
        .dataframe {
            border-collapse: collapse;
            margin: 1em 0;
            font-size: 0.9em;
            min-width: 400px;
            border-radius: 5px 5px 0 0;
            overflow: hidden;
            box-shadow: 0 0 20px rgba(0, 0, 0, 0.15);
        }
        .dataframe thead tr {
            background-color: #009879;
            color: #ffffff;
            text-align: left;
        }
        .dataframe th,
        .dataframe td {
            padding: 12px 15px;
            border-bottom: 1px solid #dddddd;
        }
        .dataframe tbody tr {
            border-bottom: 1px solid #dddddd;
        }
        .dataframe tbody tr:nth-of-type(even) {
            background-color: #f3f3f3;
        }
        .code_cell {
            margin: 1em 0;
        }
        .input_area {
            background-color: #f8f9fa;
            border-left: 4px solid #007bff;
            padding: 10px;
            margin: 5px 0;
        }
        .output_area {
            background-color: #fff;
            border-left: 4px solid #28a745;
            padding: 10px;
            margin: 5px 0;
        }
        </style>
        ".

Module NotebookToHTMLConverter.
Import PurePath PathOps.

Section WithCollaborators.
Context `{Collaborators}.

(** [__init__]: the exporter is configured from the flags; a flag that
    is off leaves the exporter's default ([False]). *)
Definition html_exporter (self : Converter) : Exporter :=
  mkExporter (template self)
             (if embed_images self then true else false)
             (if negb (include_input self) then true else false).

Definition _execute_notebook (self : Converter) (notebook_path : Path)
    : M Notebook :=
  print ("Executing notebook: " ++ to_str notebook_path);;
  content ← open_read notebook_path;
  notebook ← lift (nbformat_read content);
  let '(notebook, failure) :=
    ep_preprocess (to_str (parent notebook_path)) notebook in
  try_except
    (match failure with
     | None => mret notebook
     | Some e => raise e
     end)
    (λ e,
      print ("Warning: Failed to execute notebook: " ++ exc_str e);;
      print "Proceeding with existing outputs...";;
      mret notebook).

Definition _enhance_html_output (self : Converter) (html_content : string)
    (notebook_path : Path) : string :=
  let soup := soup_parse html_content in
  let soup :=
    if soup_has_head soup then soup_head_insert0 soup (soup_parse custom_css)
    else soup in
  soup_str soup.

(** Lines 158-159: strings become paths; an empty output string is
    falsy and stays a string ([inr tt]). *)
Definition input_of (a : PathArg) : Path :=
  match a with
  | AsStr s => of_str s
  | AsPath p => p
  end.

Definition output_of (a : option PathArg) : option (Path + unit) :=
  match a with
  | None => None
  | Some (AsPath p) => Some (inl p)
  | Some (AsStr s) => if decide (s = "") then Some (inr tt) else Some (inl (of_str s))
  end.

(** The side-car directory [output_path.parent / f"{output_path.stem}_files"]. *)
Definition files_dir (output_path : Path) : Path :=
  join_name (parent output_path) (stem output_path ++ "_files").

(** [for filename, data in resources['outputs'].items(): ...]. *)
Fixpoint write_outputs (output_dir : Path) (items : list (string * string))
    : M unit :=
  match items with
  | [] => mret tt
  | (filename, data) :: items' =>
      let resource_path := join_str output_dir filename in
      open_write resource_path data;;
      write_outputs output_dir items'
  end.

(** Lines 175-179: load and optionally execute the notebook. *)
Definition load_notebook (self : Converter) (input_path : Path)
    : M Notebook :=
  if execute_notebook self then _execute_notebook self input_path
  else content ← open_read input_path; lift (nbformat_read content).

(** The body of the [try] block of [convert_single_file]. *)
Definition convert_body (self : Converter) (input_path : Path)
    (output_path : Path + unit) : M Path :=
  notebook ← load_notebook self input_path;
  '(body, outputs) ← lift (from_notebook_node (html_exporter self) notebook);
  let enhanced_html := _enhance_html_output self body input_path in
  match output_path with
  | inr _ => raise (OSError.ENOENT "")
  | inl output_path =>
      open_write output_path enhanced_html;;
      (match outputs with
       | [] => mret tt
       | _ =>
           let output_dir := files_dir output_path in
           mkdir output_dir false true;;
           write_outputs output_dir outputs
       end);;
      print ("✓ Converted successfully: " ++ to_str output_path);;
      mret output_path
  end.

(** [except Exception as e:] of [convert_single_file]: print, re-raise. *)
Definition report_error (input_path : Path) (e : Exception) : M Path :=
  print ("✗ Error converting " ++ to_str input_path ++ ": " ++ exc_str e);;
  raise e.

Definition convert_single_file (self : Converter) (input_path : PathArg)
    (output_path : option PathArg) : M Path :=
  let input_path := input_of input_path in
  let output_path := output_of output_path in
  ex ← exists_ input_path;
  if negb ex then
    raise (Exc FileNotFoundError ("Input file not found: " ++ to_str input_path))
  else if negb (String.eqb (Str.lower (suffix input_path)) ".ipynb") then
    raise (Exc ValueError
             ("Input file must be a .ipynb file: " ++ to_str input_path))
  else
    print ("Converting: " ++ to_str input_path);;
    output_path ←
      (match output_path with
       | None => p ← with_suffix input_path ".html"; mret (inl p)
       | Some o => mret o
       end);
    try_except (convert_body self input_path output_path)
      (report_error input_path).

(** One turn of the loop of [convert_directory]: the [try] block and
    its handler; [converted_files] is the list being built. *)
Definition convert_one (self : Converter) (input_dir output_dir : Path)
    (notebook_file : Path) : M Path :=
  relative_path ← relative_to notebook_file input_dir;
  html_name ← with_suffix relative_path ".html";
  let output_file := output_dir // html_name in
  mkdir (parent output_file) true true;;
  convert_single_file self (AsPath notebook_file) (Some (AsPath output_file)).

(** [except Exception as e:] of the loop: print, [continue]. *)
Definition skip_failed (notebook_file : Path) (converted_files : list Path)
    (e : Exception) : M (list Path) :=
  print ("Failed to convert " ++ to_str notebook_file ++ ": " ++ exc_str e);;
  mret converted_files.

Fixpoint convert_loop (self : Converter) (input_dir output_dir : Path)
    (notebook_files : list Path) (converted_files : list Path)
    : M (list Path) :=
  match notebook_files with
  | [] => mret converted_files
  | notebook_file :: rest =>
      converted_files ←
        try_except
          (converted_file ← convert_one self input_dir output_dir notebook_file;
           mret (converted_files ++ [converted_file])%list)
          (skip_failed notebook_file converted_files);
      convert_loop self input_dir output_dir rest converted_files
  end.

(** Lines 224-227: the directory the outputs go under. *)
Definition resolve_output_dir (input_dir : Path) (output_dir : option Path)
    : M Path :=
  match output_dir with
  | None => mret input_dir
  | Some o => mkdir o true true;; mret o
  end.

(** Lines 229-254: enumerate, announce, convert. *)
Definition convert_found (self : Converter) (input_dir output_dir : Path)
    (recursive : bool) : M (list Path) :=
  notebook_files ← glob_ipynb input_dir recursive;
  match notebook_files with
  | [] =>
      print ("No .ipynb files found in " ++ to_str input_dir);;
      mret []
  | _ =>
      print ("Found " ++ pretty (length notebook_files)
             ++ " notebook(s) to convert");;
      convert_loop self input_dir output_dir notebook_files []
  end.

Definition convert_directory (self : Converter) (input_dir : Path)
    (output_dir : option Path) (recursive : bool) : M (list Path) :=
  ex ← exists_ input_dir;
  d ← is_dir input_dir;
  if negb ex || negb d then
    raise (Exc NotADirectoryError
             ("Input directory not found: " ++ to_str input_dir))
  else
    output_dir ← resolve_output_dir input_dir output_dir;
    convert_found self input_dir output_dir recursive.

End WithCollaborators.
End NotebookToHTMLConverter.

(** ** The command line: [main] *)

(** The namespace that [parser.parse_args()] returns. *)
Record Args := mkArgs {
  arg_input : string;
  arg_output : option string;
  arg_recursive : bool;
  arg_execute : bool;
  arg_no_input : bool;
  arg_no_embed_images : bool;
  arg_template : string
}.

Module CLI.
Import PurePath PathOps NotebookToHTMLConverter.

(** A line feed, for the ["\n"] of the format strings. *)
Definition nl : string := String (ascii_of_nat 10) EmptyString.

(** [p.is_file()]. *)
Definition is_file (p : Path) : M bool :=
  m ← get_fs;
  mret match m !! p with
       | Some (File _) => true
       | _ => false
       end.

Section WithCollaborators.
Context `{Collaborators}.

(** The converter that [main] builds from the flags. *)
Definition converter_of (args : Args) : Converter :=
  mkConverter (negb (arg_no_embed_images args)) (negb (arg_no_input args))
              (arg_execute args) (arg_template args).

(** [Path(args.output) if args.output else None]. *)
Definition output_path_of (args : Args) : option Path :=
  match arg_output args with
  | None => None
  | Some s => if decide (s = "") then None else Some (of_str s)
  end.

(** The [try] block of [main].  Its value is what [sys.exit] is asked
    for: [SystemExit] is no [Exception], so it passes the handler. *)
Definition main_try (args : Args) : M (option nat) :=
  let input_path := of_str (arg_input args) in
  let output_path := output_path_of args in
  let converter := converter_of args in
  f ← is_file input_path;
  if f : bool then
    (convert_single_file converter (AsPath input_path)
       (AsPath <$> output_path);;
     mret None : M (option nat))
  else
    d ← is_dir input_path;
    if d : bool then
      (converted_files ←
         convert_directory converter input_path output_path
                           (arg_recursive args);
       print (nl ++ "✓ Successfully converted "
              ++ pretty (length converted_files) ++ " notebook(s)");;
       mret None : M (option nat))
    else
      (print ("Error: Input path not found: " ++ to_str input_path);;
       mret (Some 1%nat) : M (option nat)).

(** [except Exception as e: print(f"Error: {e}"); sys.exit(1)]. *)
Definition main_except (e : Exception) : M (option nat) :=
  print ("Error: " ++ exc_str e);;
  mret (Some 1%nat).

(** [main()] after the arguments are parsed: the exit status of the
    process and the world it leaves. *)
Definition main (args : Args) (w : World) : nat * World :=
  match try_except (main_try args) main_except w with
  | (Ok None, w') => (0%nat, w')
  | (Ok (Some status), w') => (status, w')
  | (Raise _, w') => (1%nat, w')
  end.

End WithCollaborators.
End CLI.

(** ** The Tk front-end: [convert_files] *)

(** The values of the settings variables when the worker starts. *)
Record Settings := mkSettings {
  set_embed_images : bool;
  set_include_input : bool;
  set_execute_notebook : bool;
  set_template : string;
  set_output_directory : string
}.

(** The locals of the worker and the messages it has queued. *)
Record Progress := mkProgress {
  converted_files : list Path;
  errors : list string;
  queued : list string
}.

Module TkWorker.
Import PurePath PathOps NotebookToHTMLConverter.

(** [self.queue_message(message)]. *)
Definition queue_message (pr : Progress) (message : string) : Progress :=
  mkProgress (converted_files pr) (errors pr) (queued pr ++ [message]).

Section WithCollaborators.
Context `{Collaborators}.

(** Where one file goes: into the output directory under its stem, the
    directory being made on the way, or next to the original. *)
Definition html_file_for (output_path : option Path) (file_path : Path)
    : M (option PathArg) :=
  match output_path with
  | Some o =>
      let html_file := join_str o (stem file_path ++ ".html") in
      mkdir (parent html_file) true true;;
      mret (Some (AsPath html_file))
  | None => mret None
  end.

(** The [try] block of the loop and its handler. *)
Definition convert_selected (converter : Converter) (output_path : option Path)
    (file_path : Path) (pr : Progress) : M Progress :=
  let pr := queue_message pr ("Converting: " ++ name file_path) in
  try_except
    (html_file ← html_file_for output_path file_path;
     result_path ← convert_single_file converter (AsPath file_path) html_file;
     let pr := mkProgress (converted_files pr ++ [result_path]) (errors pr)
                          (queued pr) in
     mret (queue_message pr ("✓ Converted: " ++ name result_path)))
    (λ e,
      let error_msg :=
        "✗ Error converting " ++ name file_path ++ ": " ++ exc_str e in
      let pr := mkProgress (converted_files pr) (errors pr ++ [error_msg])
                           (queued pr) in
      mret (queue_message pr error_msg)).

Fixpoint convert_each (converter : Converter) (output_path : option Path)
    (selected_files : list Path) (pr : Progress) : M Progress :=
  match selected_files with
  | [] => mret pr
  | file_path :: rest =>
      pr ← convert_selected converter output_path file_path pr;
      convert_each converter output_path rest pr
  end.

(** The summary that closes the run. *)
Definition summary (output_path : option Path) (pr : Progress) : string :=
  CLI.nl ++ "=== Conversion Complete ===" ++ CLI.nl
  ++ "Successfully converted: " ++ pretty (length (converted_files pr))
  ++ " files" ++ CLI.nl
  ++ (match errors pr with
      | [] => ""
      | _ => "Errors: " ++ pretty (length (errors pr)) ++ " files" ++ CLI.nl
      end)
  ++ "Output location: "
  ++ (match output_path with
      | Some o => to_str o
      | None => "Next to original files"
      end)
  ++ CLI.nl.

(** [Path(output_dir) if output_dir else None]. *)
Definition output_path_of (settings : Settings) : option Path :=
  let output_dir := set_output_directory settings in
  if decide (output_dir = "") then None else Some (of_str output_dir).

Definition converter_of (settings : Settings) : Converter :=
  mkConverter (set_embed_images settings) (set_include_input settings)
              (set_execute_notebook settings) (set_template settings).

(** [convert_files], run to its end on the worker thread; [queue] holds
    the messages queued before.  The two lists start empty.  The
    [finally] block comes after the [try] block or its handler,
    whichever ran (the handler does not raise). *)
Definition convert_files (settings : Settings) (selected_files : list Path)
    (queue : list string) : M Progress :=
  pr ←
    try_except
      (let converter := converter_of settings in
       let output_path := output_path_of settings in
       pr ← convert_each converter output_path selected_files
              (mkProgress [] [] queue);
       mret (queue_message pr (summary output_path pr)))
      (λ e,
        mret (queue_message (mkProgress [] [] queue)
                ("Conversion failed: " ++ exc_str e)));
  mret (queue_message pr "ENABLE_BUTTON").

End WithCollaborators.
End TkWorker.

(** ** What a call leaves behind

    The terms in which the properties are stated: the filesystem and the
    lines a conversion leaves, the requests that can be served, and the
    course of a batch. *)

Module Effects.
Import PurePath PathOps NotebookToHTMLConverter.

Section WithCollaborators.
Context `{Collaborators}.

(** A file name in the plain sense: one component, no directory part. *)
Definition plain_name (s : string) : bool :=
  match of_str s with
  | mkPath false [_] => true
  | _ => false
  end.

(** One resource stored under directory [d]. *)
Definition store (d : Path) (m : gmap Path node) (it : string * string)
    : gmap Path node :=
  <[join_str d it.1 := File it.2]> m.

(** A resource that can be written into [d]: a plain file name that is
    not taken by a directory. *)
Definition writable_in (d : Path) (m : gmap Path node)
    (it : string * string) : Prop :=
  plain_name it.1 = true ∧ m !! join_str d it.1 ≠ Some Dir.

(** The notebook that is rendered: as read, or as the kernel left it. *)
Definition loaded (self : Converter) (p : Path) (nb : Notebook) : Notebook :=
  if execute_notebook self then (ep_preprocess (to_str (parent p)) nb).1
  else nb.

(** What [_execute_notebook] prints. *)
Definition execution_lines (self : Converter) (p : Path) (nb : Notebook)
    : list string :=
  if execute_notebook self then
    ("Executing notebook: " ++ to_str p)
    :: match (ep_preprocess (to_str (parent p)) nb).2 with
       | None => []
       | Some e =>
           ["Warning: Failed to execute notebook: " ++ exc_str e;
            "Proceeding with existing outputs..."]
       end
  else [].

(** The filesystem after a conversion to [q]: the HTML file, and for a
    non-empty resource mapping the side-car directory with its files. *)
Definition written (q : Path) (html : string)
    (items : list (string * string)) (m : gmap Path node) : gmap Path node :=
  match items with
  | [] => <[q := File html]> m
  | _ =>
      foldl (store (files_dir q))
            (<[files_dir q := Dir]> (<[q := File html]> m)) items
  end.

(** A request that can be served: the notebook is a regular file that
    parses and renders to [body] and [items]; the directory of the
    output [q] exists and [q] is no directory; the side-car name is not
    taken by a file and the resources are plain names that can be
    written. *)
Record convertible (self : Converter) (p q : Path) (w : World)
    (src : string) (nb : Notebook) (body : string)
    (items : list (string * string)) : Prop := {
  cv_file : fs w !! p = Some (File src);
  cv_read : nbformat_read src = inr nb;
  cv_render :
    from_notebook_node (html_exporter self) (loaded self p nb)
    = inr (body, items);
  cv_parent : fs w !! parent q = Some Dir;
  cv_target : fs w !! q ≠ Some Dir;
  cv_side_car : ∀ data, fs w !! files_dir q ≠ Some (File data);
  cv_items : Forall (writable_in (files_dir q) (fs w)) items
}.

(** The entry at [r] after the resources are stored under [d], from the
    entry [o] before: the last resource written to [r] wins. *)
Definition last_write (d r : Path) (items : list (string * string))
    (o : option node) : option node :=
  foldl (λ o it, if decide (join_str d it.1 = r) then Some (File it.2) else o)
        o items.

(** The output path that line 171 computes for a notebook name. *)
Definition html_sibling (p : Path) (base : string) : Path :=
  mkPath (rooted p) (removelast (parts p) ++ [base ++ ".html"]).

(** The world once ["Converting: ..."] is printed. *)
Definition announced (p : Path) (w : World) : World :=
  mkWorld (fs w) (stdout w ++ ["Converting: " ++ to_str p]).

(** The output path the [try] block works with. *)
Definition resolved_output (input : PathArg) (output : option PathArg)
    : Path + unit :=
  match output_of output with
  | None => inl (html_sibling (input_of input) (stem (input_of input)))
  | Some o => o
  end.

(** The lines a successful call prints. *)
Definition success_lines (self : Converter) (p q : Path) (nb : Notebook)
    : list string :=
  ["Converting: " ++ to_str p] ++ execution_lines self p nb
  ++ ["✓ Converted successfully: " ++ to_str q].

(** A path that [mkdir(parents=True, exist_ok=True)] can make, by its
    components from the last: it is a directory, or it is absent and
    the path above it can be made. *)
Inductive makeable (m : gmap Path node) (r : bool) : list string → Prop :=
| makeable_dir rp :
    m !! mkPath r (rev rp) = Some Dir → makeable m r rp
| makeable_new c rp :
    m !! mkPath r (rev (c :: rp)) = None →
    makeable m r rp → makeable m r (c :: rp).

(** A filesystem that only gained directories. *)
Definition grown (m m' : gmap Path node) : Prop :=
  ∀ x, m' !! x = m !! x ∨ (m !! x = None ∧ m' !! x = Some Dir).

(** A run of the loop over the enumerated files, told file by file:
    a file whose turn returns adds its HTML path to the results; a file
    whose turn raises is reported on one line and skipped. *)
Inductive batch_run (self : Converter) (input_dir output_dir : Path)
    : list Path → World → list Path → list (Path * Exception) → World → Prop :=
| batch_done w :
    batch_run self input_dir output_dir [] w [] [] w
| batch_converted f rest w html w1 oks bad w2 :
    convert_one self input_dir output_dir f w = (Ok html, w1) →
    batch_run self input_dir output_dir rest w1 oks bad w2 →
    batch_run self input_dir output_dir (f :: rest) w (html :: oks) bad w2
| batch_failed f rest w e w1 oks bad w2 :
    convert_one self input_dir output_dir f w = (Raise e, w1) →
    batch_run self input_dir output_dir rest
      (mkWorld (fs w1)
         (stdout w1
          ++ ["Failed to convert " ++ to_str f ++ ": " ++ exc_str e]))
      oks bad w2 →
    batch_run self input_dir output_dir (f :: rest) w oks ((f, e) :: bad) w2.

(** The world once the enumeration has been announced. *)
Definition announce_batch (input_dir : Path) (files : list Path) (w : World)
    : World :=
  mkWorld (fs w)
    (stdout w
     ++ [match files with
         | [] => "No .ipynb files found in " ++ to_str input_dir
         | _ => "Found " ++ pretty (length files) ++ " notebook(s) to convert"
         end]).

(** The output path of a notebook found [ds] levels below [input_dir],
    re-rooted under [root]. *)
Definition mirrored (root : Path) (ds : list string) (base : string) : Path :=
  mkPath (rooted root) (parts root ++ ds ++ [base ++ ".html"]).

End WithCollaborators.
End Effects.

(** ** How the calls treat what is already there *)

Module Conduct.
Import PurePath PathOps NotebookToHTMLConverter Effects.

(** [m'] keeps what [m] holds: a directory is still a directory, a
    regular file is still a regular file (its bytes may differ). *)
Definition keeps (m m' : gmap Path node) : Prop :=
  ∀ p, match m !! p with
       | Some Dir => m' !! p = Some Dir
       | Some (File _) => ∃ data, m' !! p = Some (File data)
       | None => True
       end.

(** A computation that keeps the filesystem, whatever its outcome. *)
Definition careful {A} (c : M A) : Prop :=
  ∀ w, keeps (fs w) (fs (c w).2).

(** A computation that leaves the filesystem alone. *)
Definition read_only {A} (c : M A) : Prop :=
  ∀ w, fs (c w).2 = fs w.

(** The last line printed. *)
Definition last_line (w : World) : option string := last (stdout w).

(** A computation that prints nothing. *)
Definition silent {A} (c : M A) : Prop :=
  ∀ w, stdout (c w).2 = stdout w.

(** A computation that prints only lines that satisfy [P]. *)
Definition prints_only (P : string → Prop) {A} (c : M A) : Prop :=
  ∀ w, ∃ ls, stdout (c w).2 = (stdout w ++ ls)%list ∧ Forall P ls.

(** The line with which the batch loop reports a skipped file. *)
Definition failure_line (line : string) : bool :=
  Str.startswith line "Failed to convert ".

(** Any other line. *)
Definition ordinary (line : string) : Prop := failure_line line = false.

(** Where the Tk worker puts the HTML of a selected file. *)
Definition tk_target (output_path : option Path) (f : Path) : Path :=
  match output_path with
  | Some o => join_str o (stem f ++ ".html")
  | None => html_sibling f (stem f)
  end.

End Conduct.

(** ** A concrete world for the examples *)

Module Sample.
Import PurePath PathOps.

(** Stand-ins for the libraries: a notebook is its JSON text, a file
    that does not open with a brace is not JSON, a notebook holding
    ["boom"] at its end fails in the kernel after one cell has run, and
    images are extracted to [output_0_0.png] unless embedded. *)
Definition not_json : Exception :=
  Exc (OtherError "NotJSONError") "Notebook does not appear to be JSON".

Definition cell_error : Exception :=
  Exc (OtherError "CellExecutionError") "An error occurred while executing".

Global Instance libs : Collaborators := {|
  Notebook := string;
  nbformat_read := λ s, if Str.startswith s "{" then inr s else inl not_json;
  ep_preprocess := λ cwd nb,
    if Str.endswith nb "boom}" then (nb ++ "[1]", Some cell_error)
    else (nb ++ "[run]", None);
  from_notebook_node := λ ex nb,
    inr ("<html><head></head>" ++ nb ++ "</html>",
         if exporter_embed_images ex then []
         else [("output_0_0.png", "PNG")]);
  Soup := string;
  soup_parse := λ s, s;
  soup_has_head := λ s, Str.startswith s "<html><head>";
  soup_head_insert0 := λ s css, "<style/>" ++ s;
  soup_str := λ s, s
|}.

Definition rel (l : list string) : Path := mkPath false l.

Definition tree : gmap Path node :=
  list_to_map
    [ (rel [], Dir);
      (rel ["nb"], Dir);
      (rel ["nb"; "a.ipynb"], File "{a}");
      (rel ["nb"; "bad.ipynb"], File "not a notebook");
      (rel ["nb"; "UP.IPYNB"], File "{up}");
      (rel ["nb"; "notes.txt"], File "text");
      (rel ["nb"; "sub"], Dir);
      (rel ["nb"; "sub"; "c.ipynb"], File "{c boom}") ].

Definition world : World := mkWorld tree [].

Definition plain : Converter := mkConverter true true false "classic".
Definition side_car : Converter := mkConverter false true false "classic".
Definition executing : Converter := mkConverter true true true "lab".

End Sample.

(** Further requests in the sample world. *)

Module MoreSample.
Import Sample.

(** The sample tree with the side-car name of [nb/a.html] taken by a
    regular file. *)
Definition taken_world : World :=
  mkWorld (<[rel ["nb"; "a_files"] := File "not a directory"]> tree) [].

(** The sample tree with a directory named like a notebook. *)
Definition dir_world : World :=
  mkWorld (<[rel ["nb"; "archive.ipynb"] := Dir]> tree) [].

Definition cli (input : string) (output : option string) (recursive : bool)
    : Args :=
  mkArgs input output recursive false false false "classic".

Definition tk_settings (output_directory : string) : Settings :=
  mkSettings true true false "classic" output_directory.

End MoreSample.

(** * Properties of the conversion service *)

(** Unfolds the monad so that a run is a plain [match] on the world. *)
(** Opens the outermost bind of a run. *)
Ltac bind_step := unfold mbind at 1, M_bind; cbn beta.

Ltac run_monad :=
  unfold lift in *;
  unfold mbind, M_bind, mret, M_ret, raise, try_except, print,
         get_fs, put_fs in *;
  cbn beta iota in *.

(** ** Names and suffixes *)

Module NameFacts.
Import PurePath.

Lemma length_app (s t : string) :
  String.length (s ++ t) = (String.length s + String.length t)%nat.
Proof. induction s as [| c s IH]; simpl; [reflexivity | now f_equal]. Qed.

Lemma drop_app (s t : string) : Str.drop (String.length s) (s ++ t) = t.
Proof. induction s as [| c s IH]; simpl; [now destruct t | exact IH]. Qed.

Lemma take_app (s t : string) : Str.take (String.length s) (s ++ t) = s.
Proof. induction s as [| c s IH]; simpl; [now destruct t | now f_equal]. Qed.

Lemma rfind_dot_app (s t : string) :
  Str.rfind_dot t = Some 0%nat →
  Str.rfind_dot (s ++ t) = Some (String.length s).
Proof.
  intros Ht. induction s as [| c s IH]; simpl; [exact Ht | now rewrite IH].
Qed.

(** Only the dot lower-cases to the dot. *)
Lemma lower_ascii_dot (c : ascii) : Str.lower_ascii c = "."%char → c = "."%char.
Proof.
  destruct c as [[] [] [] [] [] [] [] []]; vm_compute; intros Hc;
    first [reflexivity | discriminate Hc].
Qed.

Lemma lower_ascii_letter (c x : ascii) :
  Str.lower_ascii c = x → x ≠ "."%char → Ascii.eqb c "." = false.
Proof.
  intros Hc Hx. destruct (Ascii.eqb_spec c "."%char) as [-> | Hne];
    [| reflexivity].
  exfalso. apply Hx. rewrite <- Hc. reflexivity.
Qed.

(** A name ending in any spelling of [.ipynb], after a non-empty base,
    has that ending as its [suffix] and the base as its [stem]. *)
Lemma suffix_index_ipynb (base ext : string) :
  base ≠ "" → Str.lower ext = ".ipynb" →
  suffix_index (base ++ ext) = Some (String.length base).
Proof.
  intros Hbase Hext.
  assert (Hlen : String.length ext = 6%nat).
  { apply (f_equal String.length) in Hext. cbn in Hext.
    rewrite <- Hext. clear. induction ext; cbn; congruence. }
  assert (Hdot : Str.rfind_dot ext = Some 0%nat).
  { destruct ext as [| c0 [| c1 [| c2 [| c3 [| c4 [| c5 [| c6 e]]]]]]];
      try discriminate Hlen.
    cbn in Hext. injection Hext as H0 H1 H2 H3 H4 H5.
    apply lower_ascii_dot in H0. subst c0. cbn.
    rewrite (lower_ascii_letter c5 _ H5) by discriminate.
    rewrite (lower_ascii_letter c4 _ H4) by discriminate.
    rewrite (lower_ascii_letter c3 _ H3) by discriminate.
    rewrite (lower_ascii_letter c2 _ H2) by discriminate.
    rewrite (lower_ascii_letter c1 _ H1) by discriminate.
    reflexivity. }
  unfold suffix_index. rewrite (rfind_dot_app base ext Hdot).
  rewrite length_app, Hlen.
  destruct base as [| b base]; [congruence |]. cbn [String.length].
  replace (0 <? S (String.length base))%nat with true
    by (symmetry; apply Nat.ltb_lt; lia).
  replace (S (String.length base) <? S (String.length base) + 6 - 1)%nat
    with true by (symmetry; apply Nat.ltb_lt; lia).
  reflexivity.
Qed.

Lemma suffix_ipynb (p : Path) (base ext : string) :
  name p = base ++ ext → base ≠ "" → Str.lower ext = ".ipynb" →
  suffix p = ext ∧ stem p = base.
Proof.
  intros Hname Hbase Hext. unfold suffix, stem.
  rewrite Hname, (suffix_index_ipynb base ext Hbase Hext).
  split; [apply drop_app | apply take_app].
Qed.

Lemma length_drop (i : nat) (s : string) :
  String.length (Str.drop i s) = (String.length s - i)%nat.
Proof.
  revert s. induction i as [| i IH]; intros [| c s]; simpl;
    first [reflexivity | apply IH].
Qed.

(** [name[:-len(suffix)]] is the stem. *)
Lemma cut_suffix (p : Path) :
  suffix p ≠ "" →
  Str.take (String.length (name p) - String.length (suffix p)) (name p)
  = stem p.
Proof.
  unfold suffix, stem, suffix_index.
  destruct (Str.rfind_dot (name p)) as [i |]; [| congruence].
  destruct (0 <? i)%nat eqn:H0; [| cbn; congruence].
  destruct (i <? String.length (name p) - 1)%nat eqn:H1; [| cbn; congruence].
  cbn. intros _. rewrite length_drop.
  apply Nat.ltb_lt in H1. f_equal. lia.
Qed.

Lemma app_cons (c : ascii) (s t : string) :
  String c s ++ t = String c (s ++ t).
Proof. reflexivity. Qed.

Lemma take_drop (i : nat) (s : string) : Str.take i s ++ Str.drop i s = s.
Proof.
  revert s. induction i as [| i IH]; intros [| c s]; simpl;
    first [reflexivity | now rewrite app_cons, IH].
Qed.

Lemma rfind_dot_char (s : string) (i : nat) :
  Str.rfind_dot s = Some i → ∃ t, Str.drop i s = String "." t.
Proof.
  revert i. induction s as [| c s IH]; intros i; simpl; [discriminate |].
  destruct (Str.rfind_dot s) as [j |].
  - intros [= <-]. simpl. now apply IH.
  - destruct (Ascii.eqb_spec c "."%char) as [-> | _]; [| discriminate].
    intros [= <-]. now exists s.
Qed.

Lemma app_inv_head (s a b : string) : s ++ a = s ++ b → a = b.
Proof.
  induction s as [| c s IH]; [easy |].
  rewrite !app_cons. intros [= Heq]. auto.
Qed.

Lemma app_empty_r (s : string) : s ++ "" = s.
Proof.
  induction s as [| c s IH]; [reflexivity | now rewrite app_cons, IH].
Qed.

(** The name is the stem followed by the suffix, and a suffix that is
    not empty opens with a dot. *)
Lemma name_split (p : Path) : name p = stem p ++ suffix p.
Proof.
  unfold stem, suffix. destruct (suffix_index (name p)) as [i |].
  - now rewrite take_drop.
  - now rewrite app_empty_r.
Qed.

Lemma suffix_shape (p : Path) : suffix p = "" ∨ ∃ t, suffix p = String "." t.
Proof.
  unfold suffix, suffix_index.
  destruct (Str.rfind_dot (name p)) as [i |] eqn:Hi; [| now left].
  destruct ((0 <? i)%nat && (i <? String.length (name p) - 1)%nat);
    [| now left].
  right. now apply rfind_dot_char.
Qed.

Lemma stem_no_suffix (p : Path) : suffix p = "" → stem p = name p.
Proof.
  unfold suffix, stem.
  destruct (suffix_index (name p)) as [i |] eqn:Hi; [| reflexivity].
  intros Hdrop. exfalso.
  unfold suffix_index in Hi.
  destruct (Str.rfind_dot (name p)) as [j |]; [| discriminate].
  destruct (0 <? j)%nat; [| discriminate].
  destruct (j <? String.length (name p) - 1)%nat eqn:H1; [| discriminate].
  injection Hi as ->. apply Nat.ltb_lt in H1.
  apply (f_equal String.length) in Hdrop. rewrite length_drop in Hdrop.
  cbn in Hdrop. lia.
Qed.

End NameFacts.

Module Facts.
Import PurePath PathOps NotebookToHTMLConverter Effects.

Section WithCollaborators.
Context `{Collaborators}.

Lemma exists_run p w :
  exists_ p w = (Ok (bool_decide (is_Some (fs w !! p))), w).
Proof. reflexivity. Qed.

Lemma is_dir_run p w :
  is_dir p w = (Ok (bool_decide (fs w !! p = Some Dir)), w).
Proof. reflexivity. Qed.

(** *** Paths *)

Lemma parent_join_name (d : Path) (c : string) : parent (join_name d c) = d.
Proof.
  destruct d as [r l]. unfold parent, join_name. cbn.
  now rewrite removelast_last.
Qed.

Lemma join_name_parts_length (d : Path) (c : string) :
  length (parts (join_name d c)) = S (length (parts d)).
Proof. cbn. rewrite length_app. cbn. lia. Qed.

Lemma join_name_neq (d : Path) (c : string) : join_name d c ≠ d.
Proof.
  intros Heq. apply (f_equal (λ p, length (parts p))) in Heq.
  rewrite join_name_parts_length in Heq. lia.
Qed.

Lemma parent_parts_length (p : Path) :
  parts p ≠ [] → length (parts p) = S (length (parts (parent p))).
Proof.
  intros Hne. destruct (exists_last Hne) as [l [c Hl]].
  unfold parent. cbn. rewrite Hl, removelast_last, length_app. cbn. lia.
Qed.

Lemma parent_self (p : Path) : parts p = [] → parent p = p.
Proof. destruct p as [r l]. cbn. intros ->. reflexivity. Qed.

Lemma join_str_plain (d : Path) (s : string) :
  plain_name s = true → ∃ c, join_str d s = join_name d c.
Proof.
  unfold plain_name, join_str, join.
  destruct (of_str s) as [[] [| c [| c' l]]]; try discriminate.
  intros _. exists c. reflexivity.
Qed.

Lemma parent_join_str (d : Path) (s : string) :
  plain_name s = true → parent (join_str d s) = d.
Proof.
  intros Hs. destruct (join_str_plain d s Hs) as [c ->].
  apply parent_join_name.
Qed.

Lemma join_str_neq (d : Path) (s : string) :
  plain_name s = true → join_str d s ≠ d.
Proof.
  intros Hs. destruct (join_str_plain d s Hs) as [c ->].
  apply join_name_neq.
Qed.

Lemma parent_files_dir (q : Path) : parent (files_dir q) = parent q.
Proof. apply parent_join_name. Qed.

Lemma name_last (p : Path) :
  parts p ≠ [] → parts p = (removelast (parts p) ++ [name p])%list.
Proof. intros Hne. unfold name. now apply app_removelast_last. Qed.

(** The side-car directory is never the HTML file itself: a name does
    not end in ["_files"] after its own stem. *)
Lemma files_dir_neq (q : Path) : parts q ≠ [] → files_dir q ≠ q.
Proof.
  intros Hne Heq. apply (f_equal parts) in Heq.
  unfold files_dir, join_name, parent in Heq. cbn in Heq.
  pose proof (eq_trans Heq (name_last q Hne)) as Hlast.
  apply app_inj_tail in Hlast as [_ Hname].
  pose proof (eq_trans Hname (NameFacts.name_split q)) as Heq'.
  apply NameFacts.app_inv_head in Heq'. clear Heq. rename Heq' into Heq.
  destruct (NameFacts.suffix_shape q) as [Hs | [t Hs]];
    rewrite Hs in Heq; discriminate Heq.
Qed.

(** *** Single steps on the filesystem *)

Lemma open_read_file (p : Path) (src : string) (w : World) :
  fs w !! p = Some (File src) → open_read p w = (Ok src, w).
Proof. intros Hp. unfold open_read. run_monad. now rewrite Hp. Qed.

Lemma open_write_ok (p : Path) (data : string) (w : World) :
  fs w !! parent p = Some Dir → fs w !! p ≠ Some Dir →
  open_write p data w
  = (Ok tt, mkWorld (<[p := File data]> (fs w)) (stdout w)).
Proof.
  intros Hpar Hp. unfold open_write. run_monad. rewrite Hpar.
  destruct (fs w !! p) as [[d |] |]; try reflexivity. congruence.
Qed.

Lemma open_write_no_parent (p : Path) (data : string) (w : World) :
  fs w !! parent p = None →
  open_write p data w = (Raise (no_entry (fs w) (parent p) (to_str p)), w).
Proof. intros Hpar. unfold open_write. run_monad. now rewrite Hpar. Qed.

Lemma mkdir_flat_new (p : Path) (ok : bool) (w : World) :
  fs w !! parent p = Some Dir → fs w !! p = None →
  mkdir_flat p ok w = (Ok tt, mkWorld (<[p := Dir]> (fs w)) (stdout w)).
Proof.
  intros Hpar Hp. unfold mkdir_flat, os_mkdir. run_monad.
  now rewrite Hp, Hpar.
Qed.

Lemma mkdir_flat_exists (p : Path) (w : World) :
  fs w !! parent p = Some Dir → fs w !! p = Some Dir →
  mkdir_flat p true w = (Ok tt, w).
Proof.
  intros Hpar Hp. unfold mkdir_flat, os_mkdir, mkdir_oserror, is_dir.
  run_monad. rewrite Hp. cbn.
  case_decide; [discriminate |]. cbn beta.
  now rewrite bool_decide_eq_true_2.
Qed.

(** *** Writing the side-car resources *)

Lemma writable_in_store (d : Path) (m : gmap Path node)
    (it it' : string * string) :
  writable_in d m it' → writable_in d (store d m it) it'.
Proof.
  intros [Hplain Hnd]. split; [exact Hplain |]. unfold store.
  destruct (decide (join_str d it.1 = join_str d it'.1)) as [-> | Hne].
  - rewrite lookup_insert_eq. discriminate.
  - now rewrite lookup_insert_ne.
Qed.

Lemma write_outputs_ok (d : Path) (items : list (string * string))
    (w : World) :
  fs w !! d = Some Dir →
  Forall (writable_in d (fs w)) items →
  write_outputs d items w
  = (Ok tt, mkWorld (foldl (store d) (fs w) items) (stdout w)).
Proof.
  revert w. induction items as [| [filename data] items IH];
    intros w Hd Hall.
  - destruct w. reflexivity.
  - apply Forall_cons in Hall as [[Hplain Hnd] Hall]. cbn in Hplain, Hnd.
    cbn [write_outputs foldl]. unfold mbind, M_bind.
    rewrite open_write_ok;
      [| now rewrite parent_join_str | exact Hnd].
    rewrite IH; [reflexivity | |].
    + cbn. rewrite lookup_insert_ne; [exact Hd |].
      now apply join_str_neq.
    + cbn. eapply Forall_impl; [exact Hall |].
      intros it' Hit'. now apply (writable_in_store d (fs w) (filename, data)).
Qed.

Lemma writable_in_insert_file (d r : Path) (data : string)
    (m : gmap Path node) (it : string * string) :
  writable_in d m it → writable_in d (<[r := File data]> m) it.
Proof.
  intros [Hplain Hnd]. split; [exact Hplain |].
  destruct (decide (r = join_str d it.1)) as [-> | Hne].
  - rewrite lookup_insert_eq. discriminate.
  - now rewrite lookup_insert_ne.
Qed.

Lemma writable_in_insert_dir (d : Path) (m : gmap Path node)
    (it : string * string) :
  writable_in d m it → writable_in d (<[d := Dir]> m) it.
Proof.
  intros [Hplain Hnd]. split; [exact Hplain |].
  rewrite lookup_insert_ne; [exact Hnd |].
  intros Heq. now apply (join_str_neq d it.1).
Qed.

(** Lines 193-199: the side-car directory is made unless it is there,
    and every resource is written into it. *)
Lemma side_car_run (q : Path) (items : list (string * string)) (w : World) :
  fs w !! parent q = Some Dir →
  (∀ data, fs w !! files_dir q ≠ Some (File data)) →
  Forall (writable_in (files_dir q) (fs w)) items →
  (mkdir (files_dir q) false true;; write_outputs (files_dir q) items) w
  = (Ok tt,
     mkWorld (foldl (store (files_dir q)) (<[files_dir q := Dir]> (fs w)) items)
             (stdout w)).
Proof.
  intros Hpar Hside Hitems. unfold mkdir, mbind, M_bind.
  destruct (fs w !! files_dir q) as [[data |] |] eqn:Hd.
  - now destruct (Hside data).
  - rewrite mkdir_flat_exists; [| now rewrite parent_files_dir | exact Hd].
    rewrite write_outputs_ok; [| exact Hd | exact Hitems].
    now rewrite (insert_id (fs w) _ _ Hd).
  - rewrite mkdir_flat_new; [| now rewrite parent_files_dir | exact Hd].
    rewrite write_outputs_ok; [reflexivity | |].
    + cbn. apply lookup_insert_eq.
    + cbn. eapply Forall_impl; [exact Hitems |].
      intros it. apply writable_in_insert_dir.
Qed.

(** *** A conversion that goes through *)

Lemma load_run (self : Converter) (p : Path) (src : string) (nb : Notebook)
    (w : World) :
  fs w !! p = Some (File src) →
  nbformat_read src = inr nb →
  load_notebook self p w
  = (Ok (loaded self p nb),
     mkWorld (fs w) (stdout w ++ execution_lines self p nb)).
Proof.
  intros Hfile Hread.
  unfold load_notebook, loaded, execution_lines, _execute_notebook.
  destruct (execute_notebook self).
  - unfold mbind at 1, M_bind. cbn [print].
    unfold mbind at 1, M_bind. rewrite (open_read_file p src) by exact Hfile.
    unfold mbind at 1, M_bind. rewrite Hread. cbn [lift].
    unfold mret at 1, M_ret.
    destruct (ep_preprocess (to_str (parent p)) nb) as [nb' [e |]];
      run_monad; cbn; now rewrite <- ?app_assoc.
  - unfold mbind, M_bind. rewrite (open_read_file p src) by exact Hfile.
    rewrite Hread. cbn. rewrite app_nil_r. now destruct w.
Qed.

Lemma convertible_parts self p q w src nb body items :
  convertible self p q w src nb body items → parts q ≠ [].
Proof.
  intros [_ _ _ Hpar Htarget _ _] Hnil. apply Htarget.
  rewrite <- (parent_self q Hnil) at 1. exact Hpar.
Qed.

Lemma convert_body_ok self p q w src nb body items :
  convertible self p q w src nb body items →
  convert_body self p (inl q) w
  = (Ok q,
     mkWorld (written q (_enhance_html_output self body p) items (fs w))
             (stdout w ++ execution_lines self p nb
              ++ ["✓ Converted successfully: " ++ to_str q])).
Proof.
  intros Hc. pose proof (convertible_parts _ _ _ _ _ _ _ _ Hc) as Hparts.
  destruct Hc as [Hfile Hread Hrender Hpar Htarget Hside Hitems].
  unfold convert_body.
  bind_step. rewrite (load_run self p src nb w Hfile Hread).
  bind_step. rewrite Hrender. cbn [lift].
  unfold mret at 1, M_ret.
  bind_step.
  rewrite open_write_ok; [| exact Hpar | exact Htarget].
  cbn [fs stdout].
  assert (Hqpar : parent q ≠ q) by (intros Heq; congruence).
  unfold written. destruct items as [| it items].
  - run_monad. cbn. now rewrite <- app_assoc.
  - bind_step.
    rewrite side_car_run.
    + run_monad. cbn. now rewrite <- app_assoc.
    + cbn. rewrite lookup_insert_ne by congruence. exact Hpar.
    + cbn. intros data.
      rewrite lookup_insert_ne by (apply not_eq_sym, files_dir_neq, Hparts).
      apply Hside.
    + cbn. eapply Forall_impl; [exact Hitems |].
      intros it'. apply writable_in_insert_file.
Qed.

(** *** What a conversion leaves on disk *)

Lemma lookup_stored (d r : Path) (items : list (string * string))
    (m : gmap Path node) :
  foldl (store d) m items !! r = last_write d r items (m !! r).
Proof.
  unfold last_write. revert m.
  induction items as [| it items IH]; intros m; [reflexivity |].
  cbn [foldl]. rewrite IH. f_equal. unfold store.
  destruct (decide (join_str d it.1 = r)) as [-> | Hne].
  - apply lookup_insert_eq.
  - now apply lookup_insert_ne.
Qed.

Lemma last_write_miss (d r : Path) (items : list (string * string))
    (o : option node) :
  Forall (λ it, join_str d it.1 ≠ r) items → last_write d r items o = o.
Proof.
  unfold last_write. revert o.
  induction items as [| it items IH]; intros o Hall; [reflexivity |].
  apply Forall_cons in Hall as [Hne Hall]. cbn [foldl].
  destruct (decide (join_str d it.1 = r)); [contradiction | now apply IH].
Qed.

Lemma last_write_cases (d r : Path) (items : list (string * string)) :
  (∀ o, last_write d r items o = o)
  ∨ (∃ data, ∀ o, last_write d r items o = Some (File data)).
Proof.
  unfold last_write. induction items as [| it items IH]; [now left |].
  cbn [foldl]. destruct IH as [Hsame | [data Hdata]].
  - destruct (decide (join_str d it.1 = r)).
    + right. exists it.2. intros o. apply Hsame.
    + left. intros o. apply Hsame.
  - right. exists data. intros o. apply Hdata.
Qed.

Lemma last_write_hit (d : Path) (items : list (string * string))
    (filename data : string) (o : option node) :
  NoDup (map (λ it, join_str d it.1) items) →
  (filename, data) ∈ items →
  last_write d (join_str d filename) items o = Some (File data).
Proof.
  revert o. induction items as [| it items IH]; intros o Hnd Hin.
  - now apply elem_of_nil in Hin.
  - cbn [map] in Hnd. apply NoDup_cons in Hnd as [Hfresh Hnd].
    apply elem_of_cons in Hin as [<- | Hin].
    + unfold last_write. cbn [foldl fst snd].
      destruct (decide (join_str d filename = join_str d filename));
        [| congruence].
      apply last_write_miss. apply Forall_forall. intros it' Hit' Heq.
      apply Hfresh. cbn [fst]. rewrite <- Heq.
      apply (list_elem_of_fmap_2 (λ it, join_str d it.1)). exact Hit'.
    + unfold last_write. cbn [foldl]. now apply IH.
Qed.

Lemma lookup_written (q r : Path) (html : string)
    (items : list (string * string)) (m : gmap Path node) :
  written q html items m !! r
  = match items with
    | [] => <[q := File html]> m !! r
    | _ =>
        last_write (files_dir q) r items
          (<[files_dir q := Dir]> (<[q := File html]> m) !! r)
    end.
Proof. unfold written. destruct items; [reflexivity | apply lookup_stored]. Qed.

(** A resource path lies one level below the side-car directory. *)
Lemma target_miss (d r : Path) (items : list (string * string))
    (m : gmap Path node) :
  Forall (writable_in d m) items → parent r ≠ d →
  Forall (λ it, join_str d it.1 ≠ r) items.
Proof.
  intros Hall Hr. eapply Forall_impl; [exact Hall |].
  intros it [Hplain _] Heq. apply Hr. rewrite <- Heq.
  now apply parent_join_str.
Qed.

Lemma parent_neq_files_dir (q : Path) : parent q ≠ files_dir q.
Proof.
  intros Heq. apply (f_equal (λ p, length (parts p))) in Heq.
  unfold files_dir in Heq. rewrite join_name_parts_length in Heq. lia.
Qed.

(** Outside the HTML file and the side-car directory nothing changes. *)
Lemma written_frame (q r : Path) (html : string)
    (items : list (string * string)) (m : gmap Path node) :
  Forall (writable_in (files_dir q) m) items →
  r ≠ q →
  items = [] ∨ (r ≠ files_dir q ∧ parent r ≠ files_dir q) →
  written q html items m !! r = m !! r.
Proof.
  intros Hall Hq Hr. rewrite lookup_written.
  destruct items as [| it items].
  - now rewrite lookup_insert_ne.
  - destruct Hr as [Hr | [Hd Hpar]]; [discriminate |].
    rewrite last_write_miss by (eapply target_miss; eauto).
    rewrite lookup_insert_ne by congruence.
    now rewrite lookup_insert_ne.
Qed.

(** The HTML file holds the enhanced document. *)
Lemma written_html (q : Path) (html : string)
    (items : list (string * string)) (m : gmap Path node) :
  Forall (writable_in (files_dir q) m) items →
  parts q ≠ [] →
  written q html items m !! q = Some (File html).
Proof.
  intros Hall Hparts. rewrite lookup_written.
  destruct items as [| it items]; [apply lookup_insert_eq |].
  rewrite last_write_miss
    by (eapply target_miss; [exact Hall | apply parent_neq_files_dir]).
  rewrite lookup_insert_ne by (apply files_dir_neq, Hparts).
  apply lookup_insert_eq.
Qed.

(** The side-car directory is a directory once resources are written. *)
Lemma written_files_dir (q : Path) (html : string)
    (items : list (string * string)) (m : gmap Path node) :
  Forall (writable_in (files_dir q) m) items →
  items ≠ [] →
  written q html items m !! files_dir q = Some Dir.
Proof.
  intros Hall Hne. rewrite lookup_written.
  destruct items as [| it items]; [congruence |].
  rewrite last_write_miss; [apply lookup_insert_eq |].
  eapply Forall_impl; [exact Hall |].
  intros it' [Hplain _]. now apply join_str_neq.
Qed.

(** Directories stay directories. *)
Lemma written_dir (q r : Path) (html : string)
    (items : list (string * string)) (m : gmap Path node) :
  Forall (writable_in (files_dir q) m) items →
  m !! q ≠ Some Dir →
  m !! r = Some Dir →
  written q html items m !! r = Some Dir.
Proof.
  intros Hall Hq Hr. rewrite lookup_written.
  assert (Hrq : q ≠ r) by congruence.
  destruct items as [| it items]; [now rewrite lookup_insert_ne |].
  rewrite last_write_miss.
  - destruct (decide (files_dir q = r)) as [<- | Hne].
    + apply lookup_insert_eq.
    + now rewrite !lookup_insert_ne.
  - eapply Forall_impl; [exact Hall |].
    intros it' [_ Hnd] Heq. now rewrite Heq in Hnd.
Qed.

(** Apart from the side-car directory, nothing becomes a directory. *)
Lemma written_not_dir (q r : Path) (html : string)
    (items : list (string * string)) (m : gmap Path node) :
  m !! r ≠ Some Dir → r ≠ files_dir q →
  written q html items m !! r ≠ Some Dir.
Proof.
  intros Hr Hd. rewrite lookup_written.
  assert (Hbase : <[q := File html]> m !! r ≠ Some Dir).
  { destruct (decide (q = r)) as [-> | Hne].
    - rewrite lookup_insert_eq. discriminate.
    - now rewrite lookup_insert_ne. }
  destruct items as [| it items]; [exact Hbase |].
  destruct (last_write_cases (files_dir q) r (it :: items))
    as [Hsame | [data Hdata]].
  - rewrite Hsame. now rewrite lookup_insert_ne.
  - rewrite Hdata. discriminate.
Qed.

(** Writing the same conversion twice changes nothing the second time. *)
Lemma written_idempotent (q : Path) (html : string)
    (items : list (string * string)) (m : gmap Path node) :
  written q html items (written q html items m) = written q html items m.
Proof.
  apply map_eq. intros r.
  rewrite (lookup_written q r html items (written q html items m)).
  destruct items as [| it items].
  - unfold written. now rewrite insert_insert_eq.
  - destruct (last_write_cases (files_dir q) r (it :: items))
      as [Hsame | [data Hdata]].
    + rewrite Hsame, lookup_written, Hsame.
      destruct (decide (files_dir q = r)) as [<- | Hd].
      { now rewrite !lookup_insert_eq. }
      rewrite !(lookup_insert_ne _ (files_dir q)) by exact Hd.
      destruct (decide (q = r)) as [<- | Hq].
      { now rewrite !lookup_insert_eq. }
      rewrite !(lookup_insert_ne _ q) by exact Hq.
      rewrite lookup_written, Hsame.
      now rewrite !lookup_insert_ne.
    + now rewrite lookup_written, !Hdata.
Qed.

(** [with_suffix] keeps the directory and swaps the suffix of the name. *)
Lemma with_suffix_run (p : Path) (sfx : string) (w : World) :
  name p ≠ "" →
  with_suffix p sfx w
  = (Ok (mkPath (rooted p) (removelast (parts p) ++ [stem p ++ sfx])), w).
Proof.
  intros Hname. unfold with_suffix.
  destruct (decide (name p = "")) as [| _]; [contradiction |].
  destruct (decide (suffix p = "")) as [Hs | Hs].
  - rewrite (NameFacts.stem_no_suffix p Hs). reflexivity.
  - rewrite (NameFacts.cut_suffix p Hs). reflexivity.
Qed.

(** Past the two guards, the call is the [try] block with its handler. *)
Lemma convert_single_file_accepted (self : Converter) (input : PathArg)
    (output : option PathArg) (w : World) :
  is_Some (fs w !! input_of input) →
  Str.lower (suffix (input_of input)) = ".ipynb" →
  convert_single_file self input output w
  = try_except
      (convert_body self (input_of input)
         (match output_of output with
          | None => inl (html_sibling (input_of input) (stem (input_of input)))
          | Some o => o
          end))
      (report_error (input_of input))
      (announced (input_of input) w).
Proof.
  intros Hsome Hsfx. unfold convert_single_file.
  unfold mbind at 1, M_bind. rewrite exists_run.
  rewrite bool_decide_eq_true_2 by exact Hsome. cbn [negb].
  rewrite Hsfx. cbn [String.eqb Ascii.eqb Bool.eqb negb].
  unfold mbind at 1, M_bind. cbn [print].
  fold (announced (input_of input) w).
  destruct (output_of output) as [o |].
  - reflexivity.
  - unfold mbind at 1 2, M_bind.
    rewrite with_suffix_run; [reflexivity |].
    intros Hname. unfold suffix in Hsfx. rewrite Hname in Hsfx.
    discriminate Hsfx.
Qed.

(** The two guards of [convert_single_file] (lines 161-165). *)
Lemma convert_single_file_missing (self : Converter) (input : PathArg)
    (output : option PathArg) (w : World) :
  fs w !! input_of input = None →
  convert_single_file self input output w
  = (Raise (Exc FileNotFoundError
              ("Input file not found: " ++ to_str (input_of input))), w).
Proof.
  intros Hnone. unfold convert_single_file.
  unfold mbind at 1, M_bind. rewrite exists_run, Hnone.
  rewrite bool_decide_eq_false_2 by (intros [x Hx]; discriminate).
  reflexivity.
Qed.

Lemma convert_single_file_bad_suffix (self : Converter) (input : PathArg)
    (output : option PathArg) (w : World) :
  is_Some (fs w !! input_of input) →
  Str.lower (suffix (input_of input)) ≠ ".ipynb" →
  convert_single_file self input output w
  = (Raise (Exc ValueError
              ("Input file must be a .ipynb file: "
               ++ to_str (input_of input))), w).
Proof.
  intros Hsome Hsfx. unfold convert_single_file.
  unfold mbind at 1, M_bind. rewrite exists_run.
  rewrite bool_decide_eq_true_2 by exact Hsome.
  cbn [negb].
  destruct (String.eqb_spec (Str.lower (suffix (input_of input))) ".ipynb")
    as [Heq | Hne]; [contradiction |].
  reflexivity.
Qed.

(** A request that can be served is served: the call returns the output
    path and leaves the filesystem [written]. *)
Lemma convert_single_file_ok self input output q w src nb body items :
  Str.lower (suffix (input_of input)) = ".ipynb" →
  resolved_output input output = inl q →
  convertible self (input_of input) q w src nb body items →
  convert_single_file self input output w
  = (Ok q,
     mkWorld (written q (_enhance_html_output self body (input_of input))
                      items (fs w))
             (stdout w ++ success_lines self (input_of input) q nb)).
Proof.
  intros Hsfx Hout Hc.
  rewrite convert_single_file_accepted;
    [| rewrite (cv_file _ _ _ _ _ _ _ _ Hc); eauto | exact Hsfx].
  fold (resolved_output input output). rewrite Hout.
  unfold try_except.
  rewrite (convert_body_ok self (input_of input) q _ src nb body items).
  - unfold success_lines. cbn. now rewrite <- app_assoc.
  - destruct Hc. now constructor.
Qed.

(** Loading the notebook reads; it never writes. *)
Lemma load_notebook_fs (self : Converter) (p : Path) (w : World) :
  fs (load_notebook self p w).2 = fs w.
Proof.
  unfold load_notebook, _execute_notebook, open_read.
  destruct (execute_notebook self); run_monad; cbn.
  - destruct (fs w !! p) as [[src |] |]; try reflexivity.
    destruct (nbformat_read src) as [e | nb]; [reflexivity |].
    destruct (ep_preprocess (to_str (parent p)) nb) as [nb' [e |]];
      reflexivity.
  - destruct (fs w !! p) as [[src |] |]; try reflexivity.
    destruct (nbformat_read src) as [e | nb]; reflexivity.
Qed.

(** A request that was served can be served again, as long as the
    notebook file is still the one that was read. *)
Lemma convertible_after self p q w src nb body items html m :
  convertible self p q w src nb body items →
  m = written q html items (fs w) →
  m !! p = Some (File src) →
  convertible self p q (mkWorld m (stdout w)) src nb body items.
Proof.
  intros Hc -> Hfile.
  pose proof (convertible_parts _ _ _ _ _ _ _ _ Hc) as Hparts.
  destruct Hc as [_ Hread Hrender Hpar Htarget Hside Hitems].
  constructor; cbn [fs]; try assumption.
  - now apply written_dir.
  - apply written_not_dir; [exact Htarget |].
    apply not_eq_sym, files_dir_neq, Hparts.
  - intros data. destruct items as [| it items].
    + unfold written.
      rewrite lookup_insert_ne by (apply not_eq_sym, files_dir_neq, Hparts).
      apply Hside.
    + rewrite written_files_dir by (exact Hitems || discriminate).
      discriminate.
  - apply Forall_forall. intros it Hit.
    rewrite Forall_forall in Hitems. destruct (Hitems it Hit) as [Hplain Hnd].
    split; [exact Hplain |].
    apply written_not_dir; [exact Hnd | now apply join_str_neq].
Qed.

(** With no directory to hold [q], the call raises and writes nothing. *)
Lemma convert_without_parent_fails self input output q w :
  output_of output = Some (inl q) →
  fs w !! parent q = None →
  ∃ e w', convert_single_file self input output w = (Raise e, w')
          ∧ fs w' = fs w.
Proof.
  intros Hout Hpar.
  destruct (fs w !! input_of input) as [n |] eqn:Hin.
  2: { rewrite convert_single_file_missing by exact Hin. eauto. }
  destruct (decide (Str.lower (suffix (input_of input)) = ".ipynb"))
    as [Hsfx | Hsfx].
  2: { rewrite convert_single_file_bad_suffix by (rewrite ?Hin; eauto).
       eauto. }
  rewrite convert_single_file_accepted by (rewrite ?Hin; eauto).
  rewrite Hout. unfold try_except, convert_body. bind_step.
  pose proof (load_notebook_fs self (input_of input)
                (announced (input_of input) w)) as Hfs.
  destruct (load_notebook self (input_of input)
              (announced (input_of input) w)) as [[nb | e] w1].
  2: { unfold report_error. run_monad. cbn. eexists _, _. split; eauto. }
  cbn in Hfs. bind_step.
  destruct (from_notebook_node (html_exporter self) nb) as [e | [body items]].
  { unfold report_error. run_monad. cbn. eexists _, _. split; eauto. }
  cbn [lift]. unfold mret at 1, M_ret. bind_step.
  rewrite open_write_no_parent by (now rewrite Hfs).
  unfold report_error. run_monad. cbn. eexists _, _. split; eauto.
Qed.

Lemma convert_without_parent_error self input output q w src nb body items :
  output_of output = Some (inl q) →
  fs w !! parent q = None →
  fs w !! input_of input = Some (File src) →
  Str.lower (suffix (input_of input)) = ".ipynb" →
  nbformat_read src = inr nb →
  from_notebook_node (html_exporter self) (loaded self (input_of input) nb)
  = inr (body, items) →
  (convert_single_file self input output w).1
  = Raise (no_entry (fs w) (parent q) (to_str q)).
Proof.
  intros Hout Hpar Hfile Hsfx Hread Hrender.
  rewrite convert_single_file_accepted by (rewrite ?Hfile; eauto).
  rewrite Hout. unfold try_except, convert_body. bind_step.
  rewrite (load_run self _ src nb) by assumption.
  bind_step. rewrite Hrender. cbn [lift]. unfold mret at 1, M_ret.
  bind_step. rewrite open_write_no_parent by exact Hpar.
  reflexivity.
Qed.

(** *** Making directories *)

Lemma grown_refl (m : gmap Path node) : grown m m.
Proof. intros x. now left. Qed.

Lemma grown_insert (m m' : gmap Path node) (p : Path) :
  grown m m' → m !! p = None → grown m (<[p := Dir]> m').
Proof.
  intros Hg Hp x. destruct (decide (p = x)) as [<- | Hne].
  - right. split; [exact Hp | apply lookup_insert_eq].
  - rewrite lookup_insert_ne by exact Hne. apply Hg.
Qed.

Lemma parent_rev_cons (r : bool) (c : string) (rp : list string) :
  parent (mkPath r (rev (c :: rp))) = mkPath r (rev rp).
Proof. unfold parent. cbn. now rewrite removelast_last. Qed.

Lemma mkdir_flat_present (p : Path) (w : World) :
  fs w !! p = Some Dir → mkdir_flat p true w = (Ok tt, w).
Proof.
  intros Hp. unfold mkdir_flat, os_mkdir, mkdir_oserror, is_dir.
  run_monad. rewrite Hp. cbn.
  case_decide; [discriminate |]. cbn beta.
  now rewrite bool_decide_eq_true_2.
Qed.

Lemma mkdir_parents_present (r : bool) (rp : list string) (w : World) :
  fs w !! mkPath r (rev rp) = Some Dir →
  mkdir_parents r rp true w = (Ok tt, w).
Proof.
  intros Hp. destruct rp as [| c rp];
    unfold mkdir_parents, os_mkdir, mkdir_oserror, is_dir;
    run_monad; rewrite Hp; cbn;
    (case_decide; [discriminate |]); cbn beta;
    now rewrite bool_decide_eq_true_2.
Qed.

(** A path that can be made does not lie below a regular file. *)
Lemma makeable_not_below_file (m : gmap Path node) (r : bool)
    (rp : list string) :
  makeable m r rp → below_file m r rp = false.
Proof.
  induction 1 as [rp Hd | c rp Hnone Hup IH].
  - destruct rp; cbn [below_file]; now rewrite Hd.
  - cbn [below_file]. now rewrite Hnone.
Qed.

Lemma mkdir_parents_ok (r : bool) (rp : list string) (w : World) :
  makeable (fs w) r rp →
  ∃ m', mkdir_parents r rp true w = (Ok tt, mkWorld m' (stdout w))
        ∧ m' !! mkPath r (rev rp) = Some Dir
        ∧ grown (fs w) m'.
Proof.
  intros Hmk. revert w Hmk. induction rp as [| c rp IH]; intros w Hmk.
  - inversion Hmk as [rp' Hd |]; subst.
    exists (fs w). rewrite mkdir_parents_present by exact Hd.
    destruct w. split; [reflexivity |]. split; [exact Hd | apply grown_refl].
  - inversion Hmk as [rp' Hd | c' rp' Hnone Hup]; subst.
    { exists (fs w). rewrite mkdir_parents_present by exact Hd.
      destruct w. split; [reflexivity |].
      split; [exact Hd | apply grown_refl]. }
    destruct (IH w Hup) as (m1 & Hrun1 & Hdir1 & Hg1).
    cbn [mkdir_parents]. unfold try_except, os_mkdir. run_monad.
    rewrite Hnone, (parent_rev_cons r c rp).
    destruct (fs w !! mkPath r (rev rp)) as [[data |] |] eqn:Hpar.
    + exfalso. inversion Hup as [rp' Hd | c' rp' Hn _]; subst; congruence.
    + exists (<[mkPath r (rev (c :: rp)) := Dir]> (fs w)).
      split; [reflexivity |]. split; [apply lookup_insert_eq |].
      apply grown_insert; [apply grown_refl | exact Hnone].
    + unfold no_entry. cbn [rooted parts].
      rewrite rev_involutive, (makeable_not_below_file _ _ _ Hup).
      cbn. case_decide; [| congruence]. cbn beta.
      fold mkdir_parents. rewrite Hrun1.
      destruct (Hg1 (mkPath r (rev (c :: rp)))) as [Hsame | [_ Hnew]].
      * exists (<[mkPath r (rev (c :: rp)) := Dir]> m1).
        rewrite mkdir_flat_new;
          [| unfold parent; cbn; rewrite removelast_last; exact Hdir1
           | exact (eq_trans Hsame Hnone)].
        split; [reflexivity |]. split; [apply lookup_insert_eq |].
        now apply grown_insert.
      * exists m1. rewrite mkdir_flat_present by exact Hnew.
        split; [reflexivity |]. split; [exact Hnew | exact Hg1].
Qed.

(** Below a directory, a chain of names can be made when none of them
    is taken by a regular file. *)
Lemma makeable_below (m : gmap Path node) (r : bool) (l ds : list string) :
  m !! mkPath r l = Some Dir →
  (∀ k data, m !! mkPath r (l ++ take k ds) ≠ Some (File data)) →
  makeable m r (rev (l ++ ds)).
Proof.
  intros Hroot. induction ds as [| c ds IH] using rev_ind; intros Hfree.
  - apply makeable_dir. now rewrite rev_involutive, app_nil_r.
  - destruct (m !! mkPath r (l ++ ds ++ [c])) as [[data |] |] eqn:Hself.
    + exfalso. apply (Hfree (length (ds ++ [c])) data).
      now rewrite firstn_all.
    + apply makeable_dir. now rewrite rev_involutive.
    + rewrite app_assoc, rev_app_distr. cbn [rev app].
      apply makeable_new.
      * cbn [rev]. rewrite rev_involutive, <- app_assoc. exact Hself.
      * apply IH. intros k data.
        destruct (decide (k ≤ length ds)%nat) as [Hk | Hk].
        -- specialize (Hfree k data).
           now rewrite take_app_le in Hfree by exact Hk.
        -- specialize (Hfree (length ds) data).
           rewrite take_app_le in Hfree by lia.
           rewrite take_ge by lia. now rewrite firstn_all in Hfree.
Qed.

Lemma os_mkdir_returns (q : Path) (w w' : World) :
  os_mkdir q w = (Ok tt, w') → fs w' !! q = Some Dir.
Proof.
  unfold os_mkdir. run_monad.
  destruct (fs w !! q) as [n |]; [discriminate |].
  destruct (fs w !! parent q) as [[data |] |]; try discriminate.
  intros [= <-]. apply lookup_insert_eq.
Qed.

Lemma mkdir_oserror_returns (q : Path) (e : Exception) (w w' : World) :
  mkdir_oserror q true e w = (Ok tt, w') → fs w' !! q = Some Dir.
Proof.
  unfold mkdir_oserror, is_dir. run_monad. cbn [negb orb].
  destruct (bool_decide (fs w !! q = Some Dir)) eqn:Hd; cbn [negb];
    [| discriminate].
  intros [= <-]. now apply bool_decide_eq_true_1 in Hd.
Qed.

Lemma mkdir_flat_returns (q : Path) (w w' : World) :
  mkdir_flat q true w = (Ok tt, w') → fs w' !! q = Some Dir.
Proof.
  unfold mkdir_flat, try_except.
  destruct (os_mkdir q w) as [[[] | e] w1] eqn:Hos.
  - intros [= <-]. now apply os_mkdir_returns in Hos.
  - case_decide; [discriminate |]. apply mkdir_oserror_returns.
Qed.

Lemma mkdir_parents_unfold (r : bool) (rp : list string) (ok : bool) :
  mkdir_parents r rp ok
  = try_except (os_mkdir (mkPath r (rev rp))) (λ e,
      if decide (exc_class e = FileNotFoundError) then
        match rp with
        | [] => raise e
        | _ :: up =>
            mkdir_parents r up true;; mkdir_flat (mkPath r (rev rp)) ok
        end
      else mkdir_oserror (mkPath r (rev rp)) ok e).
Proof. destruct rp; reflexivity. Qed.

(** Whenever [mkdir(parents=True, exist_ok=True)] returns, the path is
    a directory. *)
Lemma mkdir_returns_dir (p : Path) (w w' : World) :
  mkdir p true true w = (Ok tt, w') → fs w' !! p = Some Dir.
Proof.
  unfold mkdir. destruct p as [r l]. cbn [rooted parts].
  rewrite <- (rev_involutive l) at 2. generalize (rev l) as rp. clear l.
  intros rp. rewrite mkdir_parents_unfold. unfold try_except.
  destruct (os_mkdir (mkPath r (rev rp)) w) as [[[] | e] w1] eqn:Hos.
  - intros [= <-]. now apply os_mkdir_returns in Hos.
  - case_decide; [| apply mkdir_oserror_returns].
    destruct rp as [| c rp]; [discriminate |].
    unfold mbind, M_bind.
    destruct (mkdir_parents r rp true w1) as [[[] | e'] w2];
      [| discriminate].
    apply mkdir_flat_returns.
Qed.

(** *** When the directory cannot be made *)

Lemma path_rev_rev (p : Path) : mkPath (rooted p) (rev (rev (parts p))) = p.
Proof. destruct p. cbn. now rewrite rev_involutive. Qed.

Lemma rev_parent (p : Path) : rev (parts (parent p)) = tail (rev (parts p)).
Proof.
  unfold parent. cbn [parts]. generalize (parts p). intros l.
  destruct l as [| c l _] using rev_ind; [reflexivity |].
  now rewrite removelast_last, rev_app_distr.
Qed.

Lemma parent_rev (r : bool) (rp : list string) :
  parent (mkPath r (rev rp)) = mkPath r (rev (tail rp)).
Proof. destruct rp as [| c rp]; [reflexivity | apply parent_rev_cons]. Qed.

Lemma below_file_unfold (m : gmap Path node) (r : bool) (rp : list string) :
  below_file m r rp
  = match m !! mkPath r (rev rp) with
    | Some (File _) => true
    | Some Dir => false
    | None => below_file m r (tail rp)
    end.
Proof.
  destruct rp as [| c rp]; [| reflexivity].
  cbn [below_file tail].
  destruct (m !! mkPath r (rev [])) as [[data |] |] eqn:Hp;
    cbn [below_file]; now rewrite ?Hp.
Qed.

(** A regular file in the place of the directory: [os.mkdir] finds the
    path taken and [is_dir] is false, so the error is raised again. *)
Lemma mkdir_parents_taken (r : bool) (rp : list string) (ok : bool)
    (w : World) (data : string) :
  fs w !! mkPath r (rev rp) = Some (File data) →
  mkdir_parents r rp ok w
  = (Raise (OSError.EEXIST (to_str (mkPath r (rev rp)))), w).
Proof.
  intros Hp. rewrite mkdir_parents_unfold.
  unfold try_except, os_mkdir. run_monad. rewrite Hp. cbn.
  case_decide; [discriminate |]. cbn beta.
  unfold mkdir_oserror, is_dir. run_monad.
  rewrite bool_decide_eq_false_2 by (rewrite Hp; discriminate).
  now rewrite orb_true_r.
Qed.

(** A missing path below a regular file: [os.mkdir] fails at once, no
    parent is made. *)
Lemma os_mkdir_below_file (p : Path) (w : World) :
  fs w !! p = None →
  below_file (fs w) (rooted p) (rev (parts (parent p))) = true →
  os_mkdir p w = (Raise (OSError.ENOTDIR (to_str p)), w).
Proof.
  intros Hp Hbelow. unfold os_mkdir. bind_step. cbn [get_fs].
  rewrite Hp. pose proof Hbelow as Hup.
  change (rooted p) with (rooted (parent p)) in Hup.
  rewrite below_file_unfold, path_rev_rev in Hup.
  destruct (fs w !! parent p) as [[data |] |];
    [reflexivity | discriminate |].
  unfold no_entry. change (rooted (parent p)) with (rooted p).
  now rewrite Hbelow.
Qed.

Lemma mkdir_parents_below_file (r : bool) (rp : list string) (ok : bool)
    (w : World) :
  fs w !! mkPath r (rev rp) = None →
  below_file (fs w) r (tail rp) = true →
  mkdir_parents r rp ok w
  = (Raise (OSError.ENOTDIR (to_str (mkPath r (rev rp)))), w).
Proof.
  intros Hp Hbelow. rewrite mkdir_parents_unfold. unfold try_except.
  rewrite os_mkdir_below_file;
    [| exact Hp
     | rewrite parent_rev; cbn [rooted parts];
       now rewrite rev_involutive].
  cbn. case_decide; [discriminate |]. cbn beta.
  unfold mkdir_oserror, is_dir. run_monad.
  rewrite bool_decide_eq_false_2 by (rewrite Hp; discriminate).
  now rewrite orb_true_r.
Qed.

(** Where the root (or the working directory) exists, a path lies below
    a regular file or can be made. *)
Lemma below_file_or_makeable (m : gmap Path node) (r : bool)
    (rp : list string) :
  m !! mkPath r [] = Some Dir →
  below_file m r rp = true ∨ makeable m r rp.
Proof.
  intros Hroot. induction rp as [| c rp IH].
  - right. now apply makeable_dir.
  - rewrite below_file_unfold. cbn [tail].
    destruct (m !! mkPath r (rev (c :: rp))) as [[data |] |] eqn:Hself.
    + now left.
    + right. now apply makeable_dir.
    + destruct IH as [Hb | Hmk]; [now left | right; now apply makeable_new].
Qed.

(** The three fates of [output_dir.mkdir(parents=True, exist_ok=True)]. *)
Lemma resolve_output_dir_taken (input_dir o : Path) (w : World)
    (data : string) :
  fs w !! o = Some (File data) →
  resolve_output_dir input_dir (Some o) w
  = (Raise (OSError.EEXIST (to_str o)), w).
Proof.
  intros Ho. unfold resolve_output_dir, mkdir. bind_step.
  rewrite (mkdir_parents_taken _ _ _ _ data)
    by (now rewrite path_rev_rev).
  now rewrite path_rev_rev.
Qed.

Lemma resolve_output_dir_below_file (input_dir o : Path) (w : World) :
  fs w !! o = None →
  below_file (fs w) (rooted o) (rev (parts (parent o))) = true →
  resolve_output_dir input_dir (Some o) w
  = (Raise (OSError.ENOTDIR (to_str o)), w).
Proof.
  intros Ho Hbelow. unfold resolve_output_dir, mkdir. bind_step.
  rewrite mkdir_parents_below_file;
    [now rewrite path_rev_rev | now rewrite path_rev_rev
     | now rewrite <- rev_parent].
Qed.

Lemma resolve_output_dir_makeable (input_dir o : Path) (w : World) :
  makeable (fs w) (rooted o) (rev (parts o)) →
  ∃ w0, resolve_output_dir input_dir (Some o) w = (Ok o, w0)
        ∧ fs w0 !! o = Some Dir
        ∧ stdout w0 = stdout w
        ∧ grown (fs w) (fs w0).
Proof.
  intros Hmk. unfold resolve_output_dir, mkdir. bind_step.
  destruct (mkdir_parents_ok _ _ w Hmk) as (m' & Hrun & Hd & Hg).
  rewrite Hrun. rewrite path_rev_rev in Hd.
  eexists. split; [reflexivity |]. cbn. auto.
Qed.

(** *** Enumerating notebooks *)

Lemma glob_ipynb_run (d : Path) (recursive : bool) (w : World) :
  glob_ipynb d recursive w = (Ok (glob_list (fs w) d recursive), w).
Proof. reflexivity. Qed.

Lemma glob_match_spec (m : gmap Path node) (d : Path) (recursive : bool)
    (p : Path) :
  glob_match m d recursive p = true
  ↔ ∃ rest, p = mkPath (rooted d) (parts d ++ rest)
            ∧ glob_walk m d rest recursive = true.
Proof.
  unfold glob_match. rewrite !andb_true_iff, !bool_decide_eq_true.
  split.
  - intros [[Hroot Hpre] Hwalk].
    exists (drop (length (parts d)) (parts p)). split; [| exact Hwalk].
    destruct p as [r l]. cbn in *. subst r. f_equal.
    rewrite <- Hpre at 1. symmetry. apply take_drop.
  - intros [rest [-> Hwalk]]. cbn.
    rewrite take_app_length, drop_app_length. auto.
Qed.

(** Without [recursive], only the entries of the directory itself. *)
Lemma glob_walk_flat (m : gmap Path node) (d : Path) (rest : list string) :
  glob_walk m d rest false = true
  ↔ ∃ nm, rest = [nm] ∧ Str.endswith nm ".ipynb" = true.
Proof.
  destruct rest as [| x [| y l]]; cbn.
  - split; [discriminate | intros [nm [[=] _]]].
  - split; [eauto | now intros [nm [[= <-] Hnm]]].
  - split; [discriminate | intros [nm [[=] _]]].
Qed.

(** With [recursive], any depth, through directories only. *)
Lemma glob_walk_deep (m : gmap Path node) (d : Path) (ds : list string)
    (nm : string) :
  glob_walk m d (ds ++ [nm]) true = true
  ↔ Str.endswith nm ".ipynb" = true
    ∧ ∀ k, (k < length ds)%nat →
           m !! mkPath (rooted d) (parts d ++ take (S k) ds) = Some Dir.
Proof.
  revert d. induction ds as [| x ds IH]; intros d.
  - cbn. split; [intros Hnm; split; [exact Hnm | intros k Hk; lia] | tauto].
  - cbn [app glob_walk].
    destruct (ds ++ [nm])%list as [| y l] eqn:Hrest.
    { now destruct ds. }
    rewrite <- Hrest. setoid_rewrite <- Hrest in IH. cbn [andb].
    rewrite andb_true_iff, bool_decide_eq_true, IH.
    split.
    + intros [Hx [Hnm Hdirs]]. split; [exact Hnm |].
      intros [| k] Hk; cbn [take].
      * exact Hx.
      * cbn in Hk. specialize (Hdirs k ltac:(lia)).
        cbn in Hdirs. now rewrite <- app_assoc in Hdirs.
    + intros [Hnm Hdirs]. split; [| split; [exact Hnm |]].
      * exact (Hdirs 0%nat ltac:(cbn; lia)).
      * intros k Hk. specialize (Hdirs (S k) ltac:(cbn; lia)).
        cbn. now rewrite <- app_assoc.
Qed.

(** The enumeration holds exactly the entries that the pattern
    matches. *)
Lemma elem_of_scandir (m : gmap Path node) (d p : Path) :
  p ∈ scandir m d ↔ is_Some (m !! p) ∧ ∃ x, p = join_name d x.
Proof.
  unfold scandir. rewrite list_elem_of_filter, list_elem_of_fmap. split.
  - intros [[Hpar Hne] [[p' n] [-> Hin]]].
    apply elem_of_map_to_list in Hin. cbn in *. split; [eauto |].
    exists (name p'). subst d. destruct p' as [r l].
    unfold join_name, parent. cbn [rooted parts] in *. f_equal.
    exact (name_last (mkPath r l) Hne).
  - intros [[n Hn] [x ->]]. split.
    + split; [apply parent_join_name |]. cbn. now destruct (parts d).
    + exists (join_name d x, n). split; [reflexivity |].
      now apply elem_of_map_to_list.
Qed.

Lemma elem_of_select_ipynb (m : gmap Path node) (d p : Path) :
  p ∈ select_ipynb m d
  ↔ is_Some (m !! p)
    ∧ ∃ nm, p = join_name d nm ∧ Str.endswith nm ".ipynb" = true.
Proof.
  unfold select_ipynb. rewrite list_elem_of_filter, elem_of_scandir. split.
  - intros [Hnm [Hsome [x ->]]]. split; [exact Hsome |]. exists x.
    split; [reflexivity |]. unfold name in Hnm. cbn in Hnm.
    now rewrite last_last in Hnm.
  - intros [Hsome [nm [-> Hnm]]]. split; [| eauto].
    unfold name. cbn. now rewrite last_last.
Qed.

Lemma elem_of_iterate_directories (n : nat) (m : gmap Path node)
    (d c : Path) :
  c ∈ iterate_directories n m d
  ↔ ∃ ds, (length ds ≤ n)%nat
          ∧ c = mkPath (rooted d) (parts d ++ ds)
          ∧ ∀ k, (k < length ds)%nat →
                 m !! mkPath (rooted d) (parts d ++ take (S k) ds) = Some Dir.
Proof.
  revert d c. induction n as [| n IH]; intros d c.
  - cbn [iterate_directories]. rewrite list_elem_of_singleton. split.
    + intros ->. exists []. split; [cbn; lia |].
      split; [destruct d; cbn; now rewrite app_nil_r |].
      intros k Hk. cbn in Hk. lia.
    + intros (ds & Hlen & -> & _). destruct ds; [| cbn in Hlen; lia].
      destruct d. cbn. now rewrite app_nil_r.
  - cbn [iterate_directories]. rewrite elem_of_cons, list_elem_of_bind.
    split.
    + intros [-> | (c1 & Hc & Hc1)].
      * exists []. split; [cbn; lia |].
        split; [destruct d; cbn; now rewrite app_nil_r |].
        intros k Hk. cbn in Hk. lia.
      * apply elem_of_scandir in Hc1 as [_ [x ->]].
        case_bool_decide as Hdir; [| now apply elem_of_nil in Hc].
        apply IH in Hc as (ds & Hlen & -> & Hdirs).
        exists (x :: ds). split; [cbn; lia |]. cbn [join_name rooted parts].
        split; [now rewrite <- app_assoc |].
        intros [| k] Hk; [exact Hdir |].
        specialize (Hdirs k ltac:(cbn in Hk; lia)).
        cbn [join_name rooted parts] in Hdirs.
        now rewrite <- app_assoc in Hdirs.
    + intros (ds & Hlen & -> & Hdirs). destruct ds as [| x ds].
      * left. destruct d. cbn. now rewrite app_nil_r.
      * right. exists (join_name d x).
        pose proof (Hdirs 0%nat ltac:(cbn; lia)) as Hdir.
        change (m !! join_name d x = Some Dir) in Hdir.
        split; [| apply elem_of_scandir; split; [rewrite Hdir |]; eauto].
        rewrite bool_decide_eq_true_2 by exact Hdir.
        apply IH. exists ds. split; [cbn in Hlen; lia |].
        cbn [join_name rooted parts]. split; [now rewrite <- app_assoc |].
        intros k Hk. specialize (Hdirs (S k) ltac:(cbn; lia)).
        cbn [take] in Hdirs. now rewrite <- app_assoc.
Qed.

Lemma nesting_bound (m : gmap Path node) (p : Path) :
  is_Some (m !! p) → (length (parts p) ≤ nesting m)%nat.
Proof.
  intros [n Hn]. unfold nesting.
  assert (Hin : p ∈ (map_to_list m).*1).
  { apply list_elem_of_fmap. exists (p, n). split; [reflexivity |].
    now apply elem_of_map_to_list. }
  induction Hin as [p l | p q l _ IH]; rewrite fmap_cons; cbn [foldr].
  - apply Nat.le_max_l.
  - etrans; [exact (IH Hn) | apply Nat.le_max_r].
Qed.

Lemma elem_of_glob_list (m : gmap Path node) (d : Path) (recursive : bool)
    (p : Path) :
  p ∈ glob_list m d recursive
  ↔ is_Some (m !! p) ∧ glob_match m d recursive p = true.
Proof.
  rewrite glob_match_spec. unfold glob_list. destruct recursive.
  - rewrite list_elem_of_bind. split.
    + intros (c & Hp & Hc).
      apply elem_of_select_ipynb in Hp as [Hsome [nm [-> Hnm]]].
      apply elem_of_iterate_directories in Hc as (ds & _ & -> & Hdirs).
      split; [exact Hsome |]. exists (ds ++ [nm])%list.
      split; [unfold join_name; cbn [rooted parts];
              now rewrite <- app_assoc |].
      apply glob_walk_deep. auto.
    + intros [Hsome [rest [-> Hwalk]]].
      destruct rest as [| nm ds _] using rev_ind; [discriminate |].
      apply glob_walk_deep in Hwalk as [Hnm Hdirs].
      exists (mkPath (rooted d) (parts d ++ ds)). split.
      * apply elem_of_select_ipynb. split; [exact Hsome |].
        exists nm.
        split; [unfold join_name; cbn [rooted parts];
                now rewrite <- app_assoc | exact Hnm].
      * apply elem_of_iterate_directories. exists ds.
        split; [| split; [reflexivity | exact Hdirs]].
        apply nesting_bound in Hsome. cbn in Hsome.
        rewrite !length_app in Hsome. lia.
  - rewrite elem_of_select_ipynb. split.
    + intros [Hsome [nm [-> Hnm]]]. split; [exact Hsome |].
      exists [nm]. split; [reflexivity |]. apply glob_walk_flat. eauto.
    + intros [Hsome [rest [-> Hwalk]]]. split; [exact Hsome |].
      apply glob_walk_flat in Hwalk as [nm [-> Hnm]]. eauto.
Qed.

(** *** The batch loop *)

Lemma convert_loop_run self input_dir output_dir files acc w :
  ∃ oks bad w',
    convert_loop self input_dir output_dir files acc w
    = (Ok (acc ++ oks)%list, w')
    ∧ batch_run self input_dir output_dir files w oks bad w'
    ∧ (length oks + length bad = length files)%nat.
Proof.
  revert acc w. induction files as [| f files IH]; intros acc w.
  - exists [], [], w. rewrite app_nil_r.
    split; [reflexivity |]. split; [constructor | reflexivity].
  - cbn [convert_loop]. bind_step. unfold try_except. bind_step.
    destruct (convert_one self input_dir output_dir f w) as [[html | e] w1]
      eqn:Hone.
    + unfold mret at 1, M_ret.
      destruct (IH (acc ++ [html])%list w1) as (oks & bad & w' & Hrun & Hb & Hn).
      exists (html :: oks), bad, w'. rewrite Hrun, <- app_assoc.
      split; [reflexivity |]. split; [| cbn; lia].
      eapply batch_converted; eauto.
    + unfold skip_failed. run_monad.
      destruct (IH acc (mkWorld (fs w1)
                  (stdout w1 ++ ["Failed to convert " ++ to_str f ++ ": "
                                 ++ exc_str e])))
        as (oks & bad & w' & Hrun & Hb & Hn).
      exists oks, ((f, e) :: bad), w'. rewrite Hrun.
      split; [reflexivity |]. split; [| cbn; lia].
      eapply batch_failed; eauto.
Qed.

Lemma convert_found_run self input_dir output_dir recursive w :
  ∃ oks bad w',
    convert_found self input_dir output_dir recursive w = (Ok oks, w')
    ∧ batch_run self input_dir output_dir
        (glob_list (fs w) input_dir recursive)
        (announce_batch input_dir (glob_list (fs w) input_dir recursive) w)
        oks bad w'
    ∧ (length oks + length bad
       = length (glob_list (fs w) input_dir recursive))%nat.
Proof.
  unfold convert_found. bind_step. rewrite glob_ipynb_run.
  unfold announce_batch.
  destruct (glob_list (fs w) input_dir recursive) as [| f files] eqn:Hfiles.
  - run_monad. eexists [], [], _. split; [reflexivity |].
    split; [constructor | reflexivity].
  - bind_step. cbn [print].
    destruct (convert_loop_run self input_dir output_dir (f :: files) []
                (mkWorld (fs w)
                   (stdout w ++ ["Found " ++ pretty (length (f :: files))
                                 ++ " notebook(s) to convert"])))
      as (oks & bad & w' & Hrun & Hb & Hn).
    exists oks, bad, w'. split; [exact Hrun |]. split; assumption.
Qed.

(** Past the check of [input_dir], the call is the two remaining steps. *)
Lemma convert_directory_valid self input_dir output_dir recursive w :
  fs w !! input_dir = Some Dir →
  convert_directory self input_dir output_dir recursive w
  = (root ← resolve_output_dir input_dir output_dir;
     convert_found self input_dir root recursive) w.
Proof.
  intros Hd. unfold convert_directory.
  bind_step. rewrite exists_run. bind_step. rewrite is_dir_run.
  rewrite !bool_decide_eq_true_2 by (rewrite ?Hd; eauto).
  reflexivity.
Qed.

Lemma convert_directory_invalid self input_dir output_dir recursive w :
  fs w !! input_dir ≠ Some Dir →
  convert_directory self input_dir output_dir recursive w
  = (Raise (Exc NotADirectoryError
              ("Input directory not found: " ++ to_str input_dir)), w).
Proof.
  intros Hd. unfold convert_directory.
  bind_step. rewrite exists_run. bind_step. rewrite is_dir_run.
  rewrite (bool_decide_eq_false_2 (fs w !! input_dir = Some Dir)) by exact Hd.
  now rewrite orb_true_r.
Qed.

Lemma parent_mirrored (root : Path) (ds : list string) (base : string) :
  parent (mirrored root ds base) = mkPath (rooted root) (parts root ++ ds).
Proof.
  unfold parent, mirrored. cbn. f_equal.
  now rewrite app_assoc, removelast_last.
Qed.

Lemma output_file_run (input_dir root f : Path) (ds : list string)
    (base : string) (w : World) :
  rooted f = rooted input_dir →
  parts f = (parts input_dir ++ ds ++ [base +:+ ".ipynb"])%list →
  base ≠ "" →
  (relative_path ← relative_to f input_dir;
   html_name ← with_suffix relative_path ".html";
   mret (root // html_name)) w
  = (Ok (mirrored root ds base), w).
Proof.
  intros Hroot Hparts Hbase. bind_step. unfold relative_to.
  rewrite decide_True; [| now rewrite Hparts, take_app_length].
  unfold mret at 1, M_ret. bind_step.
  rewrite Hparts, drop_app_length.
  assert (Hname : name (mkPath false (ds ++ [base ++ ".ipynb"]))
                  = base ++ ".ipynb").
  { unfold name. cbn. now rewrite last_last. }
  destruct (NameFacts.suffix_ipynb _ base ".ipynb" Hname Hbase eq_refl)
    as [_ Hstem].
  rewrite with_suffix_run
    by (rewrite Hname; destruct base; [congruence | discriminate]).
  rewrite Hstem. cbn [rooted parts]. rewrite removelast_last.
  reflexivity.
Qed.

(** One turn of the loop, for any enumerated name, with the stem that
    [pathlib] gives it: the output path mirrors the place of the
    notebook, its directory is made, and the single-file conversion is
    called with that path. *)
Lemma stem_last (r : bool) (l : list string) (nm : string) :
  stem (mkPath r (l ++ [nm])) = stem (mkPath false [nm]).
Proof. unfold stem, name. cbn. now rewrite last_last. Qed.

Lemma output_file_any (input_dir root f : Path) (ds : list string)
    (nm : string) (w : World) :
  f = mkPath (rooted input_dir) (parts input_dir ++ ds ++ [nm]) →
  nm ≠ "" →
  (relative_path ← relative_to f input_dir;
   html_name ← with_suffix relative_path ".html";
   mret (root // html_name)) w
  = (Ok (mirrored root ds (stem f)), w).
Proof.
  intros -> Hnm. bind_step. unfold relative_to. cbn [rooted parts].
  rewrite decide_True by (now rewrite take_app_length).
  unfold mret at 1, M_ret. bind_step. rewrite drop_app_length.
  rewrite with_suffix_run by (unfold name; cbn; now rewrite last_last).
  cbn [rooted parts]. rewrite removelast_last, stem_last.
  rewrite (app_assoc (parts input_dir) ds [nm]), stem_last.
  reflexivity.
Qed.

Lemma convert_one_unfold self (input_dir root f : Path) (ds : list string)
    (nm : string) (w : World) :
  f = mkPath (rooted input_dir) (parts input_dir ++ ds ++ [nm]) →
  nm ≠ "" →
  convert_one self input_dir root f w
  = (mkdir (parent (mirrored root ds (stem f))) true true;;
     convert_single_file self (AsPath f)
       (Some (AsPath (mirrored root ds (stem f))))) w.
Proof.
  intros Hf Hnm.
  pose proof (output_file_any input_dir root f ds nm w Hf Hnm) as Hout.
  unfold convert_one. unfold mbind, M_bind in Hout |- *.
  destruct (relative_to f input_dir w) as [[rel | e] w0]; [| discriminate].
  destruct (with_suffix rel ".html" w0) as [[html | e] w0'];
    [| discriminate].
  injection Hout as -> ->. reflexivity.
Qed.

Lemma mirror_dir_made (root : Path) (ds : list string) (base : string)
    (w : World) :
  fs w !! root = Some Dir →
  (∀ k data,
     fs w !! mkPath (rooted root) (parts root ++ take k ds)
     ≠ Some (File data)) →
  ∃ w1,
    mkdir (parent (mirrored root ds base)) true true w = (Ok tt, w1)
    ∧ fs w1 !! parent (mirrored root ds base) = Some Dir
    ∧ stdout w1 = stdout w
    ∧ grown (fs w) (fs w1).
Proof.
  intros Hdir Hfree. rewrite parent_mirrored. unfold mkdir.
  cbn [rooted parts].
  destruct (mkdir_parents_ok (rooted root) (rev (parts root ++ ds)) w)
    as (m1 & Hrun & Hd & Hg).
  { apply makeable_below; [now destruct root | exact Hfree]. }
  rewrite Hrun. rewrite rev_involutive in Hd.
  eexists. split; [reflexivity |]. cbn. auto.
Qed.

Lemma endswith_nonempty (nm : string) :
  Str.endswith nm ".ipynb" = true → nm ≠ "".
Proof. intros Hnm ->. discriminate Hnm. Qed.

Lemma resolve_output_dir_returns (input_dir : Path) (output_dir : option Path)
    (root : Path) (w w0 : World) :
  fs w !! input_dir = Some Dir →
  resolve_output_dir input_dir output_dir w = (Ok root, w0) →
  root = default input_dir output_dir ∧ fs w0 !! root = Some Dir.
Proof.
  intros Hd. unfold resolve_output_dir. destruct output_dir as [o |].
  - bind_step.
    destruct (mkdir o true true w) as [[[] | e] w1] eqn:Hmk;
      [| discriminate].
    intros [= <- <-]. split; [reflexivity |].
    now apply mkdir_returns_dir in Hmk.
  - intros [= <- <-]. auto.
Qed.

(** What the enumeration holds: the entries whose name ends in
    [.ipynb], in [input_dir] itself and, with [recursive], in every
    directory reached through directories below it. *)
Lemma glob_list_spec (m : gmap Path node) (d : Path) (recursive : bool)
    (p : Path) :
  p ∈ glob_list m d recursive
  ↔ is_Some (m !! p)
    ∧ ∃ ds nm,
        p = mkPath (rooted d) (parts d ++ ds ++ [nm])
        ∧ Str.endswith nm ".ipynb" = true
        ∧ if recursive then
            ∀ k, (k < length ds)%nat →
                 m !! mkPath (rooted d) (parts d ++ take (S k) ds) = Some Dir
          else ds = [].
Proof.
  rewrite elem_of_glob_list, glob_match_spec.
  split; intros [Hsome Hrest]; (split; [exact Hsome |]).
  - destruct Hrest as [rest [-> Hwalk]].
    destruct recursive.
    + destruct rest as [| x rest] using rev_ind; [discriminate |].
      apply glob_walk_deep in Hwalk as [Hnm Hdirs].
      exists rest, x. auto.
    + apply glob_walk_flat in Hwalk as [nm [-> Hnm]].
      exists [], nm. auto.
  - destruct Hrest as (ds & nm & -> & Hnm & Hdirs).
    exists (ds ++ [nm])%list. split; [reflexivity |].
    destruct recursive.
    + apply glob_walk_deep. auto.
    + subst ds. apply glob_walk_flat. eauto.
Qed.

(** *** The claims of the specification *)

(** C1. [convert_single_file] on an input path that does not exist raises
    [FileNotFoundError]; on an existing path whose suffix, lower-cased,
    is not [.ipynb] it raises [ValueError]; in both cases the world is
    returned as it was: nothing is written and nothing printed. *)
Theorem convert_single_file_rejects (self : Converter) (input : PathArg)
    (output : option PathArg) (w : World) :
  (fs w !! input_of input = None →
     convert_single_file self input output w
     = (Raise (Exc FileNotFoundError
                 ("Input file not found: " ++ to_str (input_of input))), w))
  ∧ (is_Some (fs w !! input_of input) →
     Str.lower (suffix (input_of input)) ≠ ".ipynb" →
     convert_single_file self input output w
     = (Raise (Exc ValueError
                 ("Input file must be a .ipynb file: "
                  ++ to_str (input_of input))), w)).
Proof.
  split.
  - apply convert_single_file_missing.
  - apply convert_single_file_bad_suffix.
Qed.


(** C4. With no output path, a request that can be served produces one
    HTML file: the call returns the input path with [.ipynb] (in any
    letter case) replaced by [.html], that path holds the enhanced
    document, and every other path that changed lies in the side-car
    directory (none changes when there are no resources). *)
Theorem default_output_is_html_sibling self input w base ext src nb body
    items :
  name (input_of input) = base ++ ext →
  base ≠ "" →
  Str.lower ext = ".ipynb" →
  convertible self (input_of input) (html_sibling (input_of input) base) w
              src nb body items →
  let q := html_sibling (input_of input) base in
  parent q = parent (input_of input)
  ∧ name q = base ++ ".html"
  ∧ ∃ w',
      convert_single_file self input None w = (Ok q, w')
      ∧ fs w' !! q
        = Some (File (_enhance_html_output self body (input_of input)))
      ∧ ∀ r, r ≠ q →
             items = [] ∨ (r ≠ files_dir q ∧ parent r ≠ files_dir q) →
             fs w' !! r = fs w !! r.
Proof.
  intros Hname Hbase Hext Hc q.
  destruct (NameFacts.suffix_ipynb _ _ _ Hname Hbase Hext) as [Hsfx Hstem].
  pose proof (convertible_parts _ _ _ _ _ _ _ _ Hc) as Hparts.
  split; [| split].
  - unfold q, html_sibling, parent. cbn. now rewrite removelast_last.
  - unfold q, html_sibling, name. cbn. now rewrite last_last.
  - rewrite (convert_single_file_ok self input None q w src nb body items);
      [| now rewrite Hsfx | unfold resolved_output; cbn; now rewrite Hstem
       | exact Hc].
    eexists. split; [reflexivity |]. cbn [fs].
    destruct Hc as [_ _ _ _ _ _ Hitems]. split.
    + now apply written_html.
    + intros r Hr Hside. now apply written_frame.
Qed.

(** C5. When rendering yields resources, a request that can be served
    leaves them in the side-car directory: the directory sits next to
    the HTML file under the name [<stem>_files], and every resource of
    the mapping is a file in that directory, at the path
    [output_dir / filename], holding its payload. *)
Theorem resources_go_to_side_car self input output q w src nb body items :
  Str.lower (suffix (input_of input)) = ".ipynb" →
  resolved_output input output = inl q →
  convertible self (input_of input) q w src nb body items →
  items ≠ [] →
  NoDup (map (λ it, join_str (files_dir q) it.1) items) →
  ∃ w',
    convert_single_file self input output w = (Ok q, w')
    ∧ parent (files_dir q) = parent q
    ∧ name (files_dir q) = stem q ++ "_files"
    ∧ fs w' !! files_dir q = Some Dir
    ∧ ∀ filename data, (filename, data) ∈ items →
        parent (join_str (files_dir q) filename) = files_dir q
        ∧ fs w' !! join_str (files_dir q) filename = Some (File data).
Proof.
  intros Hsfx Hout Hc Hne Hnd.
  rewrite (convert_single_file_ok self input output q w src nb body items)
    by assumption.
  eexists. split; [reflexivity |].
  destruct Hc as [_ _ _ _ _ _ Hitems]. cbn [fs].
  split; [apply parent_files_dir |]. split.
  { unfold files_dir, join_name, name. cbn. now rewrite last_last. }
  split; [now apply written_files_dir |].
  intros filename data Hin. split.
  - rewrite Forall_forall in Hitems.
    destruct (Hitems _ Hin) as [Hplain _]. now apply parent_join_str.
  - rewrite lookup_written. destruct items as [| it items]; [congruence |].
    now apply last_write_hit.
Qed.

(** C6 (as the code has it). [convert_single_file] makes no directory for
    its output file: when the parent of an explicit output path is
    missing, the call raises and leaves the filesystem as it was; once
    the notebook is read and rendered the error is the one of opening
    the output file, [NotADirectoryError] when the missing parent lies
    below a regular file and [FileNotFoundError] otherwise. *)
Theorem missing_output_directory_is_not_created self input output q w :
  output_of output = Some (inl q) →
  fs w !! parent q = None →
  ∃ e w',
    convert_single_file self input output w = (Raise e, w')
    ∧ fs w' = fs w
    ∧ ∀ src nb body items,
        fs w !! input_of input = Some (File src) →
        Str.lower (suffix (input_of input)) = ".ipynb" →
        nbformat_read src = inr nb →
        from_notebook_node (html_exporter self)
                           (loaded self (input_of input) nb)
        = inr (body, items) →
        e = if below_file (fs w) (rooted q) (rev (parts (parent q)))
            then OSError.ENOTDIR (to_str q)
            else OSError.ENOENT (to_str q).
Proof.
  intros Hout Hpar.
  destruct (convert_without_parent_fails self input output q w Hout Hpar)
    as (e & w' & Hrun & Hfs).
  exists e, w'. split; [exact Hrun |]. split; [exact Hfs |].
  intros src nb body items Hfile Hsfx Hread Hrender.
  pose proof (convert_without_parent_error self input output q w src nb
                body items Hout Hpar Hfile Hsfx Hread Hrender) as Herr.
  rewrite Hrun in Herr. cbn [fst] in Herr. injection Herr as ->.
  reflexivity.
Qed.

(** C7 (as the code has it). An [input_dir] that is missing or is not a
    directory makes [convert_directory] raise [NotADirectoryError] with
    the world untouched.  For a valid [input_dir] the call raises only
    what the making of the supplied output directory raises, and then
    nothing is written: [FileExistsError] when [output_dir] is a regular
    file, [NotADirectoryError] when it is missing below a regular file.
    With no output directory, or with one that is a directory or can be
    made, the call returns.  Where the root (or the working directory)
    exists these cases are all there are. *)
Theorem batch_raises_only_for_directories self input_dir output_dir
    recursive w :
  (fs w !! input_dir ≠ Some Dir →
     convert_directory self input_dir output_dir recursive w
     = (Raise (Exc NotADirectoryError
                 ("Input directory not found: " ++ to_str input_dir)), w))
  ∧ (fs w !! input_dir = Some Dir →
     match resolve_output_dir input_dir output_dir w with
     | (Raise e, w0) =>
         output_dir ≠ None
         ∧ convert_directory self input_dir output_dir recursive w
           = (Raise e, w0)
     | (Ok root, w0) =>
         ∃ oks w',
           convert_directory self input_dir output_dir recursive w
           = (Ok oks, w')
     end)
  ∧ (fs w !! input_dir = Some Dir →
     ∀ o, output_dir = Some o →
       (∀ data, fs w !! o = Some (File data) →
          convert_directory self input_dir output_dir recursive w
          = (Raise (OSError.EEXIST (to_str o)), w))
       ∧ (fs w !! o = None →
          below_file (fs w) (rooted o) (rev (parts (parent o))) = true →
          convert_directory self input_dir output_dir recursive w
          = (Raise (OSError.ENOTDIR (to_str o)), w))
       ∧ (makeable (fs w) (rooted o) (rev (parts o)) →
          ∃ oks w',
            convert_directory self input_dir output_dir recursive w
            = (Ok oks, w'))
       ∧ (fs w !! mkPath (rooted o) [] = Some Dir →
          (∃ data, fs w !! o = Some (File data))
          ∨ (fs w !! o = None
             ∧ below_file (fs w) (rooted o) (rev (parts (parent o))) = true)
          ∨ makeable (fs w) (rooted o) (rev (parts o)))).
Proof.
  split; [| split].
  - apply convert_directory_invalid.
  - intros Hd. rewrite convert_directory_valid by exact Hd.
    unfold mbind, M_bind.
    destruct (resolve_output_dir input_dir output_dir w) as [[root | e] w0]
      eqn:Hroot.
    + destruct (convert_found_run self input_dir root recursive w0)
        as (oks & bad & w' & Hrun & _). eauto.
    + split; [| reflexivity]. intros ->. discriminate Hroot.
  - intros Hd o ->. rewrite convert_directory_valid by exact Hd.
    split; [| split; [| split]].
    + intros data Ho. bind_step.
      now rewrite (resolve_output_dir_taken input_dir o w data Ho).
    + intros Ho Hbelow. bind_step.
      now rewrite (resolve_output_dir_below_file input_dir o w Ho Hbelow).
    + intros Hmk. bind_step.
      destruct (resolve_output_dir_makeable input_dir o w Hmk)
        as (w0 & Hroot & _).
      rewrite Hroot.
      destruct (convert_found_run self input_dir o recursive w0)
        as (oks & bad & w' & Hrun & _). eauto.
    + intros Hroot.
      destruct (below_file_or_makeable (fs w) (rooted o) (rev (parts o))
                  Hroot) as [Hbelow | Hmk]; [| auto].
      rewrite below_file_unfold, path_rev_rev, <- rev_parent in Hbelow.
      destruct (fs w !! o) as [[data |] |]; [eauto | discriminate | auto].
Qed.

(** C8. A batch whose output directory is resolved to [root] runs its
    loop over the enumerated notebooks: the entries of [input_dir] whose
    name ends in [.ipynb], and with [recursive] (only then) those of the
    directories below it.  The turn of a notebook found [ds] levels
    below [input_dir] makes the directory [root/ds], with its parents,
    and converts the notebook to [root/ds/<stem>.html]: its path
    relative to [input_dir] under [root], the suffix of the name
    replaced by [.html].  [root] is the output directory, or [input_dir]
    when none is given. *)
Theorem batch_mirrors_the_tree self input_dir output_dir recursive root
    w w0 :
  fs w !! input_dir = Some Dir →
  resolve_output_dir input_dir output_dir w = (Ok root, w0) →
  let files := glob_list (fs w0) input_dir recursive in
  root = default input_dir output_dir
  ∧ fs w0 !! root = Some Dir
  ∧ (∃ oks bad w',
       convert_directory self input_dir output_dir recursive w = (Ok oks, w')
       ∧ batch_run self input_dir root files
           (announce_batch input_dir files w0) oks bad w')
  ∧ (∀ p, p ∈ files
          ↔ is_Some (fs w0 !! p)
            ∧ ∃ ds nm,
                p = mkPath (rooted input_dir) (parts input_dir ++ ds ++ [nm])
                ∧ Str.endswith nm ".ipynb" = true
                ∧ if recursive then
                    ∀ k, (k < length ds)%nat →
                         fs w0 !! mkPath (rooted input_dir)
                                         (parts input_dir ++ take (S k) ds)
                         = Some Dir
                  else ds = [])
  ∧ (∀ f, f ∈ files →
       ∃ ds,
         f = mkPath (rooted input_dir) (parts input_dir ++ ds ++ [name f])
         ∧ name f = stem f ++ suffix f
         ∧ parent (mirrored root ds (stem f))
           = mkPath (rooted root) (parts root ++ ds)
         ∧ name (mirrored root ds (stem f)) = stem f ++ ".html"
         ∧ (∀ w1,
              convert_one self input_dir root f w1
              = (mkdir (parent (mirrored root ds (stem f))) true true;;
                 convert_single_file self (AsPath f)
                   (Some (AsPath (mirrored root ds (stem f))))) w1)
         ∧ (∀ w1,
              fs w1 !! root = Some Dir →
              (∀ k data,
                 fs w1 !! mkPath (rooted root) (parts root ++ take k ds)
                 ≠ Some (File data)) →
              ∃ w2,
                mkdir (parent (mirrored root ds (stem f))) true true w1
                = (Ok tt, w2)
                ∧ fs w2 !! parent (mirrored root ds (stem f)) = Some Dir
                ∧ stdout w2 = stdout w1
                ∧ grown (fs w1) (fs w2))).
Proof.
  intros Hd Hroot files.
  destruct (resolve_output_dir_returns _ _ _ _ _ Hd Hroot) as [Hdef Hdir].
  split; [exact Hdef |]. split; [exact Hdir |]. split; [| split].
  - rewrite convert_directory_valid by exact Hd.
    bind_step. rewrite Hroot.
    destruct (convert_found_run self input_dir root recursive w0)
      as (oks & bad & w' & Hrun & Hbatch & _).
    exists oks, bad, w'. split; [exact Hrun | exact Hbatch].
  - intros p. apply glob_list_spec.
  - intros f Hf. apply glob_list_spec in Hf as (_ & ds & nm & Hf & Hnm & _).
    assert (Hname : name f = nm).
    { rewrite Hf. unfold name. cbn [parts].
      now rewrite app_assoc, last_last. }
    exists ds. rewrite Hname.
    split; [exact Hf |]. split; [rewrite <- Hname; apply NameFacts.name_split |].
    split; [apply parent_mirrored |]. split.
    { unfold mirrored, name. cbn [parts]. now rewrite app_assoc, last_last. }
    split.
    + intros w1. apply (convert_one_unfold self input_dir root f ds nm w1 Hf).
      now apply endswith_nonempty.
    + intros w1. apply mirror_dir_made.
Qed.

(** C9. Without notebook execution, converting a notebook again with the
    same configuration gives the same bytes: after a conversion that
    went through, and with the notebook file as it was, the second call
    returns the same path and leaves every file, the HTML file
    included, exactly as the first call left it. *)
Theorem conversion_is_repeatable self input output q w src nb body items :
  execute_notebook self = false →
  Str.lower (suffix (input_of input)) = ".ipynb" →
  resolved_output input output = inl q →
  convertible self (input_of input) q w src nb body items →
  fs (convert_single_file self input output w).2 !! input_of input
  = fs w !! input_of input →
  ∃ w1 w2,
    convert_single_file self input output w = (Ok q, w1)
    ∧ convert_single_file self input output w1 = (Ok q, w2)
    ∧ fs w1 !! q
      = Some (File (_enhance_html_output self body (input_of input)))
    ∧ fs w2 = fs w1.
Proof.
  intros _ Hsfx Hout Hc Hkept.
  pose proof (convertible_parts _ _ _ _ _ _ _ _ Hc) as Hparts.
  rewrite (convert_single_file_ok self input output q w src nb body items)
    in * by assumption.
  cbn [snd fs] in Hkept.
  eexists _, _. split; [reflexivity |].
  assert (Hagain :
    convertible self (input_of input) q
      (mkWorld (written q (_enhance_html_output self body (input_of input))
                        items (fs w))
               (stdout w)) src nb body items).
  { eapply convertible_after; [exact Hc | reflexivity |].
    rewrite Hkept. now destruct Hc. }
  split.
  - apply (convert_single_file_ok self input output q _ src nb body items);
      [exact Hsfx | exact Hout |].
    destruct Hagain. now constructor.
  - cbn [fs]. split.
    + destruct Hc as [_ _ _ _ _ _ Hitems]. now apply written_html.
    + apply written_idempotent.
Qed.

(** C10. The extension check ignores letter case: for an existing input
    whose name is a non-empty base followed by any spelling of [.ipynb]
    ([.IPYNB], [.Ipynb], ...), the call is not refused: it prints
    ["Converting: ..."] and runs the conversion block, with the default
    output next to the input under the name [base.html]. *)
Theorem extension_check_ignores_case (self : Converter) (input : PathArg)
    (output : option PathArg) (w : World) (base ext : string) :
  is_Some (fs w !! input_of input) →
  name (input_of input) = base ++ ext →
  base ≠ "" →
  Str.lower ext = ".ipynb" →
  convert_single_file self input output w
  = try_except
      (convert_body self (input_of input)
         (match output_of output with
          | None => inl (html_sibling (input_of input) base)
          | Some o => o
          end))
      (report_error (input_of input))
      (announced (input_of input) w).
Proof.
  intros Hsome Hname Hbase Hext.
  destruct (NameFacts.suffix_ipynb _ _ _ Hname Hbase Hext) as [Hsfx Hstem].
  rewrite convert_single_file_accepted; [| exact Hsome | now rewrite Hsfx].
  now rewrite Hstem.
Qed.

End WithCollaborators.
End Facts.

(** * Further properties of the service *)

Module MoreFacts.
Import PurePath PathOps NotebookToHTMLConverter Effects Conduct Facts.

Section WithCollaborators.
Context `{Collaborators}.

(** *** Nothing is removed *)

Lemma keeps_refl (m : gmap Path node) : keeps m m.
Proof. intros p. destruct (m !! p) as [[data |] |]; eauto. Qed.

Lemma keeps_trans (m1 m2 m3 : gmap Path node) :
  keeps m1 m2 → keeps m2 m3 → keeps m1 m3.
Proof.
  intros H12 H23 p. specialize (H12 p). specialize (H23 p).
  destruct (m1 !! p) as [[data |] |]; [| | exact I].
  - destruct H12 as [data' H12]. now rewrite H12 in H23.
  - now rewrite H12 in H23.
Qed.

Lemma keeps_insert_file (m : gmap Path node) (p : Path) (data : string) :
  m !! p ≠ Some Dir → keeps m (<[p := File data]> m).
Proof.
  intros Hp r. destruct (decide (p = r)) as [<- | Hne].
  - rewrite lookup_insert_eq. destruct (m !! p) as [[old |] |]; eauto.
    congruence.
  - rewrite lookup_insert_ne by exact Hne.
    destruct (m !! r) as [[old |] |]; eauto.
Qed.

Lemma keeps_insert_new (m : gmap Path node) (p : Path) (n : node) :
  m !! p = None → keeps m (<[p := n]> m).
Proof.
  intros Hp r. destruct (decide (p = r)) as [<- | Hne].
  - now rewrite Hp.
  - rewrite lookup_insert_ne by exact Hne.
    destruct (m !! r) as [[old |] |]; eauto.
Qed.

Lemma read_only_careful {A} (c : M A) : read_only c → careful c.
Proof. intros Hc w. rewrite Hc. apply keeps_refl. Qed.

Lemma careful_bind {A B} (c : M A) (k : A → M B) :
  careful c → (∀ a, careful (k a)) → careful (c ≫= k).
Proof.
  intros Hc Hk w. unfold mbind, M_bind. specialize (Hc w).
  destruct (c w) as [[a | e] w1]; cbn in Hc |- *; [| exact Hc].
  eapply keeps_trans; [exact Hc | apply Hk].
Qed.

Lemma careful_try {A} (c : M A) (h : Exception → M A) :
  careful c → (∀ e, careful (h e)) → careful (try_except c h).
Proof.
  intros Hc Hh w. unfold try_except. specialize (Hc w).
  destruct (c w) as [[a | e] w1]; cbn in Hc |- *; [exact Hc |].
  eapply keeps_trans; [exact Hc | apply Hh].
Qed.

Lemma read_only_bind {A B} (c : M A) (k : A → M B) :
  read_only c → (∀ a, read_only (k a)) → read_only (c ≫= k).
Proof.
  intros Hc Hk w. unfold mbind, M_bind. specialize (Hc w).
  destruct (c w) as [[a | e] w1]; cbn in Hc |- *; [| exact Hc].
  now rewrite Hk.
Qed.

Lemma read_only_ret {A} (a : A) : read_only (mret a).
Proof. intros w. reflexivity. Qed.

Lemma read_only_raise {A} (e : Exception) : read_only (@raise A e).
Proof. intros w. reflexivity. Qed.

Lemma read_only_print (line : string) : read_only (print line).
Proof. intros w. reflexivity. Qed.

Lemma read_only_lift {A} (r : Exception + A) : read_only (lift r).
Proof. intros w. now destruct r. Qed.

Lemma read_only_with_suffix (p : Path) (sfx : string) :
  read_only (with_suffix p sfx).
Proof. intros w. unfold with_suffix. now case_decide. Qed.

Lemma read_only_relative_to (p other : Path) : read_only (relative_to p other).
Proof. intros w. unfold relative_to. now case_decide. Qed.

Lemma read_only_load_notebook (self : Converter) (p : Path) :
  read_only (load_notebook self p).
Proof. intros w. apply load_notebook_fs. Qed.

Lemma careful_open_write (p : Path) (data : string) :
  careful (open_write p data).
Proof.
  intros w. unfold open_write. run_monad.
  destruct (fs w !! parent p) as [[d |] |]; cbn; try apply keeps_refl.
  destruct (fs w !! p) as [[old |] |] eqn:Hp; cbn; try apply keeps_refl.
  - apply keeps_insert_file. congruence.
  - now apply keeps_insert_new.
Qed.

Lemma careful_os_mkdir (p : Path) : careful (os_mkdir p).
Proof.
  intros w. unfold os_mkdir. run_monad.
  destruct (fs w !! p) as [n |] eqn:Hp; cbn; [apply keeps_refl |].
  destruct (fs w !! parent p) as [[d |] |]; cbn; try apply keeps_refl.
  now apply keeps_insert_new.
Qed.

Lemma read_only_mkdir_oserror (p : Path) (ok : bool) (e : Exception) :
  read_only (mkdir_oserror p ok e).
Proof.
  intros w. unfold mkdir_oserror, is_dir. run_monad.
  now destruct (negb ok || negb (bool_decide (fs w !! p = Some Dir))).
Qed.

Lemma careful_mkdir_flat (p : Path) (ok : bool) : careful (mkdir_flat p ok).
Proof.
  apply careful_try; [apply careful_os_mkdir |].
  intros e. case_decide.
  - apply read_only_careful, read_only_raise.
  - apply read_only_careful, read_only_mkdir_oserror.
Qed.

Lemma careful_mkdir_parents (r : bool) (rp : list string) (ok : bool) :
  careful (mkdir_parents r rp ok).
Proof.
  revert ok. induction rp as [| c rp IH]; intros ok;
    rewrite mkdir_parents_unfold;
    (apply careful_try; [apply careful_os_mkdir |]);
    intros e; case_decide;
    try apply read_only_careful, read_only_mkdir_oserror.
  - apply read_only_careful, read_only_raise.
  - apply careful_bind; [apply IH |]. intros _. apply careful_mkdir_flat.
Qed.

Lemma careful_mkdir (p : Path) (parents ok : bool) :
  careful (mkdir p parents ok).
Proof.
  unfold mkdir. destruct parents;
    [apply careful_mkdir_parents | apply careful_mkdir_flat].
Qed.

Lemma careful_write_outputs (d : Path) (items : list (string * string)) :
  careful (write_outputs d items).
Proof.
  induction items as [| [filename data] items IH]; cbn [write_outputs].
  - apply read_only_careful, read_only_ret.
  - apply careful_bind; [apply careful_open_write | intros _; exact IH].
Qed.

Lemma careful_convert_body (self : Converter) (p : Path) (o : Path + unit) :
  careful (convert_body self p o).
Proof.
  unfold convert_body.
  apply careful_bind;
    [apply read_only_careful, read_only_load_notebook | intros nb].
  apply careful_bind; [apply read_only_careful, read_only_lift |].
  intros [body items]. destruct o as [q | []].
  2: apply read_only_careful, read_only_raise.
  apply careful_bind; [apply careful_open_write | intros _].
  apply careful_bind.
  - destruct items as [| it items].
    + apply read_only_careful, read_only_ret.
    + apply careful_bind; [apply careful_mkdir | intros _].
      apply careful_write_outputs.
  - intros _. apply read_only_careful.
    apply read_only_bind; [apply read_only_print | intros _].
    apply read_only_ret.
Qed.

Lemma read_only_report_error (p : Path) (e : Exception) :
  read_only (report_error p e).
Proof.
  apply read_only_bind; [apply read_only_print | intros _].
  apply read_only_raise.
Qed.

Lemma careful_convert_single_file (self : Converter) (input : PathArg)
    (output : option PathArg) :
  careful (convert_single_file self input output).
Proof.
  unfold convert_single_file.
  apply careful_bind; [apply read_only_careful; now intros w |].
  intros ex. destruct (negb ex); [apply read_only_careful, read_only_raise |].
  destruct (negb _); [apply read_only_careful, read_only_raise |].
  apply careful_bind; [apply read_only_careful, read_only_print | intros _].
  apply careful_bind.
  - apply read_only_careful. destruct (output_of output).
    + apply read_only_ret.
    + apply read_only_bind; [apply read_only_with_suffix | intros q].
      apply read_only_ret.
  - intros o. apply careful_try; [apply careful_convert_body |].
    intros e. apply read_only_careful, read_only_report_error.
Qed.

Lemma careful_convert_one (self : Converter) (input_dir output_dir f : Path) :
  careful (convert_one self input_dir output_dir f).
Proof.
  unfold convert_one.
  apply careful_bind;
    [apply read_only_careful, read_only_relative_to | intros rel].
  apply careful_bind;
    [apply read_only_careful, read_only_with_suffix | intros html].
  apply careful_bind; [apply careful_mkdir | intros _].
  apply careful_convert_single_file.
Qed.

Lemma careful_convert_loop (self : Converter) (input_dir output_dir : Path)
    (files acc : list Path) :
  careful (convert_loop self input_dir output_dir files acc).
Proof.
  revert acc. induction files as [| f files IH]; intros acc;
    cbn [convert_loop].
  - apply read_only_careful, read_only_ret.
  - apply careful_bind; [| intros acc'; apply IH].
    apply careful_try.
    + apply careful_bind; [apply careful_convert_one | intros html].
      apply read_only_careful, read_only_ret.
    + intros e. apply read_only_careful. unfold skip_failed.
      apply read_only_bind; [apply read_only_print | intros _].
      apply read_only_ret.
Qed.

Lemma careful_convert_directory (self : Converter) (input_dir : Path)
    (output_dir : option Path) (recursive : bool) :
  careful (convert_directory self input_dir output_dir recursive).
Proof.
  unfold convert_directory.
  apply careful_bind; [apply read_only_careful; now intros w | intros ex].
  apply careful_bind; [apply read_only_careful; now intros w | intros d].
  destruct (negb ex || negb d);
    [apply read_only_careful, read_only_raise |].
  apply careful_bind.
  - unfold resolve_output_dir. destruct output_dir as [o |].
    + apply careful_bind; [apply careful_mkdir | intros _].
      apply read_only_careful, read_only_ret.
    + apply read_only_careful, read_only_ret.
  - intros root. unfold convert_found.
    apply careful_bind; [apply read_only_careful; now intros w |].
    intros files. destruct files as [| f files].
    + apply read_only_careful.
      apply read_only_bind; [apply read_only_print | intros _].
      apply read_only_ret.
    + apply careful_bind;
        [apply read_only_careful, read_only_print | intros _].
      apply careful_convert_loop.
Qed.

(** X1. Whatever its outcome, a single-file conversion removes nothing:
    every directory is still a directory and every regular file still a
    regular file afterwards. *)
Theorem single_conversion_keeps_entries (self : Converter) (input : PathArg)
    (output : option PathArg) (w : World) (p : Path) (n : node) :
  fs w !! p = Some n →
  ∃ n', fs (convert_single_file self input output w).2 !! p = Some n'
        ∧ (n = Dir ↔ n' = Dir).
Proof.
  intros Hp. pose proof (careful_convert_single_file self input output w p)
    as Hk.
  rewrite Hp in Hk. destruct n as [data |].
  - destruct Hk as [data' Hk]. exists (File data').
    split; [exact Hk | split; discriminate].
  - exists Dir. split; [exact Hk | tauto].
Qed.

(** X2. Whatever its outcome (raised for the root, or returned with some
    files failed), a batch conversion removes nothing: every directory
    is still a directory and every regular file still a regular file. *)
Theorem batch_conversion_keeps_entries (self : Converter) (input_dir : Path)
    (output_dir : option Path) (recursive : bool) (w : World) (p : Path)
    (n : node) :
  fs w !! p = Some n →
  ∃ n', fs (convert_directory self input_dir output_dir recursive w).2 !! p
        = Some n'
        ∧ (n = Dir ↔ n' = Dir).
Proof.
  intros Hp.
  pose proof (careful_convert_directory self input_dir output_dir recursive
                w p) as Hk.
  rewrite Hp in Hk. destruct n as [data |].
  - destruct Hk as [data' Hk]. exists (File data').
    split; [exact Hk | split; discriminate].
  - exists Dir. split; [exact Hk | tauto].
Qed.

(** *** What a returned or raised call tells *)

Lemma bind_ok_inv {A B} (c : M A) (k : A → M B) (w w' : World) (b : B) :
  (c ≫= k) w = (Ok b, w') → ∃ a w1, c w = (Ok a, w1) ∧ k a w1 = (Ok b, w').
Proof.
  unfold mbind, M_bind. destruct (c w) as [[a | e] w1]; [eauto | discriminate].
Qed.

Lemma open_write_returns (p : Path) (data : string) (w w' : World) :
  open_write p data w = (Ok tt, w') →
  fs w' = <[p := File data]> (fs w) ∧ stdout w' = stdout w.
Proof.
  unfold open_write. run_monad.
  destruct (fs w !! parent p) as [[d |] |]; try discriminate.
  destruct (fs w !! p) as [[old |] |]; try discriminate;
    intros [= <-]; auto.
Qed.

(** When the [try] block returns, it returns the output path, a regular
    file is there, and the success line is the last one printed. *)
Lemma convert_body_returns (self : Converter) (p : Path) (o : Path + unit)
    (q : Path) (w w' : World) :
  convert_body self p o w = (Ok q, w') →
  o = inl q
  ∧ (∃ data, fs w' !! q = Some (File data))
  ∧ last_line w' = Some ("✓ Converted successfully: " ++ to_str q).
Proof.
  unfold convert_body. intros Hrun.
  apply bind_ok_inv in Hrun as (nb & w1 & _ & Hrun).
  apply bind_ok_inv in Hrun as ([body items] & w2 & _ & Hrun).
  destruct o as [q0 | []]; [| discriminate].
  apply bind_ok_inv in Hrun as ([] & w3 & Hwrite & Hrun).
  apply bind_ok_inv in Hrun as ([] & w4 & Hside & Hrun).
  apply open_write_returns in Hwrite as [Hfs _].
  assert (Hkeep : keeps (fs w3) (fs w4)).
  { destruct items as [| it items].
    - injection Hside as <-. apply keeps_refl.
    - pose proof (careful_bind (mkdir (files_dir q0) false true)
                    (λ _, write_outputs (files_dir q0) (it :: items))
                    (careful_mkdir _ _ _)
                    (λ _, careful_write_outputs _ _) w3) as Hk.
      now rewrite Hside in Hk. }
  run_monad. injection Hrun as <- <-. split; [reflexivity |]. split.
  - specialize (Hkeep q0). rewrite Hfs, lookup_insert_eq in Hkeep. exact Hkeep.
  - unfold last_line. cbn. apply last_snoc.
Qed.

Lemma convert_single_file_returns (self : Converter) (input : PathArg)
    (output : option PathArg) (q : Path) (w w' : World) :
  convert_single_file self input output w = (Ok q, w') →
  is_Some (fs w !! input_of input)
  ∧ Str.lower (suffix (input_of input)) = ".ipynb"
  ∧ resolved_output input output = inl q
  ∧ (∃ data, fs w' !! q = Some (File data))
  ∧ last_line w' = Some ("✓ Converted successfully: " ++ to_str q).
Proof.
  intros Hrun.
  destruct (fs w !! input_of input) as [n |] eqn:Hin.
  2: { rewrite convert_single_file_missing in Hrun by exact Hin.
       discriminate. }
  destruct (decide (Str.lower (suffix (input_of input)) = ".ipynb"))
    as [Hsfx | Hsfx].
  2: { rewrite convert_single_file_bad_suffix in Hrun
         by (rewrite ?Hin; eauto).
       discriminate. }
  rewrite convert_single_file_accepted in Hrun by (rewrite ?Hin; eauto).
  fold (resolved_output input output) in Hrun. unfold try_except in Hrun.
  destruct (convert_body self (input_of input) (resolved_output input output)
              (announced (input_of input) w)) as [[q0 | e] w1] eqn:Hbody.
  - injection Hrun as <- <-.
    apply convert_body_returns in Hbody as (Ho & Hfile & Hline). eauto 6.
  - unfold report_error in Hrun. run_monad. discriminate.
Qed.

(** X3. A call of [convert_single_file] that returns has returned its
    output path (the one supplied, or the default next to the input),
    and a regular file exists at that path. *)
Theorem returned_path_is_the_output_file (self : Converter) (input : PathArg)
    (output : option PathArg) (q : Path) (w w' : World) :
  convert_single_file self input output w = (Ok q, w') →
  resolved_output input output = inl q
  ∧ ∃ data, fs w' !! q = Some (File data).
Proof.
  intros Hrun.
  apply convert_single_file_returns in Hrun as (_ & _ & Hout & Hfile & _).
  auto.
Qed.

(** X4. Past the two guards, every call ends on one status line: the
    success line with the returned path, or the error line with the
    message of the exception that is raised. *)
Theorem call_ends_on_a_status_line (self : Converter) (input : PathArg)
    (output : option PathArg) (w : World) :
  is_Some (fs w !! input_of input) →
  Str.lower (suffix (input_of input)) = ".ipynb" →
  last_line (convert_single_file self input output w).2
  = Some match (convert_single_file self input output w).1 with
         | Ok q => "✓ Converted successfully: " ++ to_str q
         | Raise e =>
             "✗ Error converting " ++ to_str (input_of input) ++ ": "
             ++ exc_str e
         end.
Proof.
  intros Hin Hsfx.
  destruct (convert_single_file self input output w) as [[q | e] w'] eqn:Hrun.
  - now apply convert_single_file_returns in Hrun as (_ & _ & _ & _ & Hline).
  - rewrite convert_single_file_accepted in Hrun by assumption.
    unfold try_except in Hrun.
    destruct (convert_body _ _ _ _) as [[q0 | e0] w1]; [discriminate |].
    unfold report_error in Hrun. run_monad. injection Hrun as <- <-.
    unfold last_line. cbn. apply last_snoc.
Qed.

(** X5. A notebook that cannot be parsed, or cannot be rendered, makes
    the call raise the library's exception as it is, and nothing is
    written: the failure comes before the HTML file is opened. *)
Theorem failure_before_writing_changes_nothing (self : Converter)
    (input : PathArg) (output : option PathArg) (w : World) (src : string)
    (e : Exception) :
  fs w !! input_of input = Some (File src) →
  Str.lower (suffix (input_of input)) = ".ipynb" →
  (nbformat_read src = inl e
   ∨ ∃ nb, nbformat_read src = inr nb
           ∧ from_notebook_node (html_exporter self)
                                (loaded self (input_of input) nb) = inl e) →
  ∃ w', convert_single_file self input output w = (Raise e, w')
        ∧ fs w' = fs w.
Proof.
  intros Hfile Hsfx Hfail.
  rewrite convert_single_file_accepted by (rewrite ?Hfile; eauto).
  unfold try_except, convert_body. bind_step.
  destruct Hfail as [Hread | (nb & Hread & Hrender)].
  - assert (Hload : ∃ w1, load_notebook self (input_of input)
                            (announced (input_of input) w) = (Raise e, w1)
                          ∧ fs w1 = fs w).
    { unfold load_notebook, _execute_notebook.
      destruct (execute_notebook self).
      - bind_step. cbn [print]. bind_step.
        rewrite (open_read_file _ src) by exact Hfile.
        bind_step. rewrite Hread. cbn. eauto.
      - bind_step. rewrite (open_read_file _ src) by exact Hfile.
        rewrite Hread. cbn. eauto. }
    destruct Hload as (w1 & -> & Hfs).
    unfold report_error. run_monad. cbn. eauto.
  - rewrite (load_run self _ src nb) by assumption.
    bind_step. rewrite Hrender. cbn [lift].
    unfold report_error. run_monad. cbn. eauto.
Qed.

(** X6. An empty string as output path is not taken as "no output path":
    the call never returns, it writes nothing, and once the notebook is
    read and rendered the error is the [FileNotFoundError] of opening
    ['']. *)
Theorem empty_output_string_fails (self : Converter) (input : PathArg)
    (w : World) :
  ∃ e w',
    convert_single_file self input (Some (AsStr "")) w = (Raise e, w')
    ∧ fs w' = fs w
    ∧ ∀ src nb body items,
        fs w !! input_of input = Some (File src) →
        Str.lower (suffix (input_of input)) = ".ipynb" →
        nbformat_read src = inr nb →
        from_notebook_node (html_exporter self)
                           (loaded self (input_of input) nb)
        = inr (body, items) →
        e = OSError.ENOENT "".
Proof.
  destruct (convert_single_file self input (Some (AsStr "")) w)
    as [[q | e] w'] eqn:Hrun.
  { apply convert_single_file_returns in Hrun as (_ & _ & Hout & _).
    discriminate Hout. }
  exists e, w'. split; [reflexivity |].
  destruct (fs w !! input_of input) as [n |] eqn:Hin.
  2: { rewrite convert_single_file_missing in Hrun by exact Hin.
       injection Hrun as <- <-. split; [reflexivity |]. discriminate. }
  destruct (decide (Str.lower (suffix (input_of input)) = ".ipynb"))
    as [Hsfx | Hsfx].
  2: { rewrite convert_single_file_bad_suffix in Hrun
         by (rewrite ?Hin; eauto).
       injection Hrun as <- <-. split; [reflexivity |]. intros; congruence. }
  rewrite convert_single_file_accepted in Hrun by (rewrite ?Hin; eauto).
  cbn [output_of] in Hrun. rewrite decide_True in Hrun by reflexivity.
  unfold try_except, convert_body in Hrun.
  unfold mbind at 1, M_bind in Hrun.
  pose proof (load_notebook_fs self (input_of input)
                (announced (input_of input) w)) as Hfs.
  split.
  - destruct (load_notebook self (input_of input)
                (announced (input_of input) w)) as [[nb | e1] w1];
      cbn in Hfs.
    + unfold mbind at 1, M_bind in Hrun.
      destruct (from_notebook_node (html_exporter self) nb)
        as [e2 | [body items]];
        unfold report_error in Hrun; run_monad;
        injection Hrun as <- <-; exact Hfs.
    + unfold report_error in Hrun. run_monad.
      injection Hrun as <- <-. exact Hfs.
  - intros src nb body items Hfile _ Hread Hrender.
    rewrite (load_run self _ src nb) in Hrun by (cbn; congruence).
    unfold mbind at 1, M_bind in Hrun. rewrite Hrender in Hrun.
    unfold report_error in Hrun. run_monad. now injection Hrun as <- _.
Qed.

(** X7. The resource step comes after the HTML file: when the side-car
    name is taken by a regular file and there are resources to write,
    the call raises [FileExistsError], and the HTML file it has already
    written stays. *)
Theorem side_car_failure_leaves_the_html (self : Converter) (input : PathArg)
    (output : option PathArg) (q : Path) (w : World) (src : string)
    (nb : Notebook) (body : string) (items : list (string * string))
    (taken : string) :
  fs w !! input_of input = Some (File src) →
  Str.lower (suffix (input_of input)) = ".ipynb" →
  resolved_output input output = inl q →
  nbformat_read src = inr nb →
  from_notebook_node (html_exporter self) (loaded self (input_of input) nb)
  = inr (body, items) →
  items ≠ [] →
  fs w !! parent q = Some Dir →
  fs w !! q ≠ Some Dir →
  fs w !! files_dir q = Some (File taken) →
  ∃ w',
    convert_single_file self input output w
    = (Raise (OSError.EEXIST (to_str (files_dir q))), w')
    ∧ fs w'
      = <[q := File (_enhance_html_output self body (input_of input))]> (fs w).
Proof.
  intros Hfile Hsfx Hout Hread Hrender Hne Hpar Hq Hside.
  rewrite convert_single_file_accepted by (rewrite ?Hfile; eauto).
  fold (resolved_output input output). rewrite Hout.
  unfold try_except, convert_body. bind_step.
  rewrite (load_run self _ src nb) by assumption.
  bind_step. rewrite Hrender. cbn [lift]. unfold mret at 1, M_ret.
  bind_step. rewrite open_write_ok by assumption.
  destruct items as [| it items]; [congruence |].
  bind_step. bind_step.
  assert (Hparts : parts q ≠ []).
  { intros Hnil. apply Hq. rewrite <- (parent_self q Hnil) at 1. exact Hpar. }
  assert (Hmk : ∀ w0, fs w0 !! files_dir q = Some (File taken) →
            mkdir (files_dir q) false true w0
            = (Raise (OSError.EEXIST (to_str (files_dir q))), w0)).
  { intros w0 Hw0. unfold mkdir, mkdir_flat, try_except, os_mkdir,
      mkdir_oserror, is_dir.
    run_monad. rewrite Hw0. cbn. case_decide; [discriminate |]. cbn beta.
    now rewrite bool_decide_eq_false_2 by (rewrite Hw0; discriminate). }
  rewrite Hmk.
  - unfold report_error. run_monad. cbn. eauto.
  - cbn. rewrite lookup_insert_ne by (apply not_eq_sym, files_dir_neq, Hparts).
    exact Hside.
Qed.

Lemma name_html_sibling (p : Path) (base : string) :
  name (html_sibling p base) = base ++ ".html".
Proof. unfold html_sibling, name. cbn. now rewrite last_last. Qed.

Lemma parent_html_sibling (p : Path) (base : string) :
  parent (html_sibling p base) = parent p.
Proof. unfold html_sibling, parent. cbn. now rewrite removelast_last. Qed.

(** X8. With the default output path, a conversion that can be served
    leaves the notebook file itself as it was: neither the HTML file nor
    a side-car resource is written over it. *)
Theorem notebook_is_left_untouched (self : Converter) (input : PathArg)
    (w : World) (base ext src : string) (nb : Notebook) (body : string)
    (items : list (string * string)) :
  name (input_of input) = base ++ ext →
  base ≠ "" →
  Str.lower ext = ".ipynb" →
  convertible self (input_of input) (html_sibling (input_of input) base) w
              src nb body items →
  fs (convert_single_file self input None w).2 !! input_of input
  = Some (File src).
Proof.
  intros Hname Hbase Hext Hc.
  destruct (NameFacts.suffix_ipynb _ _ _ Hname Hbase Hext) as [Hsfx Hstem].
  rewrite (convert_single_file_ok self input None
             (html_sibling (input_of input) base) w src nb body items);
    [| now rewrite Hsfx | unfold resolved_output; cbn; now rewrite Hstem
     | exact Hc].
  cbn [snd fs]. destruct Hc as [Hfile _ _ _ _ Hside Hitems].
  rewrite written_frame; [exact Hfile | exact Hitems | |].
  - intros Heq. apply (f_equal name) in Heq.
    rewrite name_html_sibling, Hname in Heq.
    apply NameFacts.app_inv_head in Heq. rewrite Heq in Hext.
    vm_compute in Hext. discriminate Hext.
  - right. split.
    + intros Heq. apply (Hside src). now rewrite <- Heq.
    + rewrite <- (parent_html_sibling (input_of input) base).
      apply parent_neq_files_dir.
Qed.

(** *** More on batches *)

(** The shape of an enumerated notebook: [ds] levels below the directory
    (none without [recursive]), under a name ending in [.ipynb]. *)
Lemma glob_list_shape (m : gmap Path node) (d : Path) (recursive : bool)
    (f : Path) :
  f ∈ glob_list m d recursive →
  is_Some (m !! f)
  ∧ ∃ ds nm, f = mkPath (rooted d) (parts d ++ ds ++ [nm])
             ∧ Str.endswith nm ".ipynb" = true
             ∧ (recursive = false → ds = []).
Proof.
  rewrite elem_of_glob_list, glob_match_spec.
  intros [Hsome [rest [-> Hwalk]]]. split; [exact Hsome |].
  destruct recursive.
  - destruct rest as [| x rest] using rev_ind; [discriminate |].
    apply glob_walk_deep in Hwalk as [Hnm _].
    exists rest, x. split; [reflexivity |]. split; [exact Hnm | discriminate].
  - apply glob_walk_flat in Hwalk as [nm [-> Hnm]].
    exists [], nm. auto.
Qed.

(** X9. A directory in which no entry has a name ending in [.ipynb]
    (at the depths the enumeration reaches) gives an empty batch: the
    call returns the empty list and prints the one line that says so.
    The output directory has been made all the same, and nothing else
    is written.  Names in another letter case, such as [X.IPYNB], do not
    count. *)
Theorem batch_without_notebooks (self : Converter) (input_dir : Path)
    (output_dir : option Path) (recursive : bool) (root : Path)
    (w w0 : World) :
  fs w !! input_dir = Some Dir →
  resolve_output_dir input_dir output_dir w = (Ok root, w0) →
  (∀ ds nm,
     (recursive = false → ds = []) →
     Str.endswith nm ".ipynb" = true →
     fs w0 !! mkPath (rooted input_dir) (parts input_dir ++ ds ++ [nm])
     = None) →
  convert_directory self input_dir output_dir recursive w
  = (Ok [],
     mkWorld (fs w0)
       (stdout w0 ++ ["No .ipynb files found in " ++ to_str input_dir]))
  ∧ fs w0 !! root = Some Dir.
Proof.
  intros Hd Hroot Hnone. split.
  - rewrite convert_directory_valid by exact Hd.
    bind_step. rewrite Hroot.
    unfold convert_found. bind_step. rewrite glob_ipynb_run.
    destruct (glob_list (fs w0) input_dir recursive) as [| f files]
      eqn:Hfiles; [reflexivity |].
    exfalso.
    assert (Hin : f ∈ glob_list (fs w0) input_dir recursive)
      by (rewrite Hfiles; apply list_elem_of_here).
    apply glob_list_shape in Hin as [[n Hn] (ds & nm & -> & Hnm & Hflat)].
    rewrite (Hnone ds nm Hflat Hnm) in Hn. discriminate.
  - unfold resolve_output_dir in Hroot. destruct output_dir as [o |].
    + apply bind_ok_inv in Hroot as ([] & w1 & Hmk & Hroot).
      injection Hroot as <- <-. now apply mkdir_returns_dir in Hmk.
    + now injection Hroot as <- <-.
Qed.

Lemma batch_run_keeps (self : Converter) (input_dir root : Path)
    (files : list Path) (w w' : World) (oks : list Path)
    (bad : list (Path * Exception)) :
  batch_run self input_dir root files w oks bad w' → keeps (fs w) (fs w').
Proof.
  induction 1 as [w | f rest w html w1 oks bad w2 Hone _ IH
                    | f rest w e w1 oks bad w2 Hone _ IH].
  - apply keeps_refl.
  - eapply keeps_trans; [| exact IH].
    pose proof (careful_convert_one self input_dir root f w) as Hk.
    now rewrite Hone in Hk.
  - eapply keeps_trans; [| exact IH].
    pose proof (careful_convert_one self input_dir root f w) as Hk.
    now rewrite Hone in Hk.
Qed.

(** A turn that returns has returned the computed output file of its
    notebook, and that file is there. *)
Lemma convert_one_returns (self : Converter) (input_dir root f html : Path)
    (ds : list string) (nm : string) (w w1 : World) :
  f = mkPath (rooted input_dir) (parts input_dir ++ ds ++ [nm]) →
  nm ≠ "" →
  convert_one self input_dir root f w = (Ok html, w1) →
  html = mkPath (rooted root)
                (parts root ++ ds ++ [stem (mkPath false [nm]) ++ ".html"])
  ∧ ∃ data, fs w1 !! html = Some (File data).
Proof.
  intros -> Hnm Hrun. unfold convert_one in Hrun.
  apply bind_ok_inv in Hrun as (rel & w2 & Hrel & Hrun).
  apply bind_ok_inv in Hrun as (hname & w3 & Hname & Hrun).
  apply bind_ok_inv in Hrun as ([] & w4 & _ & Hrun).
  unfold relative_to in Hrel. cbn [rooted parts] in Hrel.
  rewrite decide_True in Hrel by (now rewrite take_app_length).
  rewrite drop_app_length in Hrel. injection Hrel as <- <-.
  rewrite with_suffix_run in Hname
    by (unfold name; cbn; now rewrite last_last).
  injection Hname as <- <-. cbn [rooted parts] in Hrun.
  rewrite removelast_last in Hrun.
  apply convert_single_file_returns in Hrun as (_ & _ & Hout & Hfile & _).
  unfold resolved_output in Hout. cbn in Hout. injection Hout as <-.
  assert (Hstem : stem (mkPath false (ds ++ [nm])) = stem (mkPath false [nm])).
  { unfold stem, name. cbn. now rewrite last_last. }
  rewrite Hstem in Hfile |- *.
  split; [reflexivity | exact Hfile].
Qed.

Lemma batch_run_results (self : Converter) (input_dir root : Path)
    (recursive : bool) (files : list Path) (w w' : World) (oks : list Path)
    (bad : list (Path * Exception)) :
  batch_run self input_dir root files w oks bad w' →
  Forall (λ f, ∃ ds nm,
            f = mkPath (rooted input_dir) (parts input_dir ++ ds ++ [nm])
            ∧ Str.endswith nm ".ipynb" = true
            ∧ (recursive = false → ds = [])) files →
  ∀ html, html ∈ oks →
    (∃ data, fs w' !! html = Some (File data))
    ∧ ∃ ds nm,
        mkPath (rooted input_dir) (parts input_dir ++ ds ++ [nm]) ∈ files
        ∧ Str.endswith nm ".ipynb" = true
        ∧ (recursive = false → ds = [])
        ∧ html = mkPath (rooted root)
                   (parts root ++ ds ++ [stem (mkPath false [nm]) ++ ".html"]).
Proof.
  induction 1 as [w | f rest w html0 w1 oks bad w2 Hone Hrest IH
                    | f rest w e w1 oks bad w2 Hone Hrest IH];
    intros Hshape html Hin.
  - now apply elem_of_nil in Hin.
  - apply Forall_cons in Hshape as [(ds & nm & Hf & Hnm & Hflat) Hshape].
    apply elem_of_cons in Hin as [-> | Hin].
    + destruct (convert_one_returns self input_dir root f html0 ds nm w w1 Hf
                  (endswith_nonempty nm Hnm) Hone) as [Heq [data Hfile]].
      split.
      * pose proof (batch_run_keeps _ _ _ _ _ _ _ _ Hrest html0) as Hk.
        now rewrite Hfile in Hk.
      * exists ds, nm. rewrite <- Hf.
        split; [apply list_elem_of_here | auto].
    + destruct (IH Hshape html Hin) as [Hfile (ds' & nm' & Hin' & Hrest')].
      split; [exact Hfile |]. exists ds', nm'.
      split; [now apply list_elem_of_further | exact Hrest'].
  - apply Forall_cons in Hshape as [_ Hshape].
    destruct (IH Hshape html Hin) as [Hfile (ds' & nm' & Hin' & Hrest')].
    split; [exact Hfile |]. exists ds', nm'.
    split; [now apply list_elem_of_further | exact Hrest'].
Qed.

(** X10. Every path that a batch returns is a regular file when the call
    returns, and it is the mirror of a notebook of the enumeration (the
    one made once the output directory is resolved): under the output
    directory (or [input_dir] when none is given), at the same depth,
    with the name's suffix replaced by [.html]; without [recursive] all
    of them lie directly in that directory. *)
Theorem batch_results_are_mirrored_files (self : Converter) (input_dir : Path)
    (output_dir : option Path) (recursive : bool) (w w' : World)
    (oks : list Path) :
  convert_directory self input_dir output_dir recursive w = (Ok oks, w') →
  ∃ w0,
    resolve_output_dir input_dir output_dir w
    = (Ok (default input_dir output_dir), w0)
    ∧ ∀ html, html ∈ oks →
        (∃ data, fs w' !! html = Some (File data))
        ∧ ∃ ds nm,
            mkPath (rooted input_dir) (parts input_dir ++ ds ++ [nm])
            ∈ glob_list (fs w0) input_dir recursive
            ∧ Str.endswith nm ".ipynb" = true
            ∧ (recursive = false → ds = [])
            ∧ html = mkPath (rooted (default input_dir output_dir))
                       (parts (default input_dir output_dir) ++ ds
                        ++ [stem (mkPath false [nm]) ++ ".html"]).
Proof.
  intros Hrun.
  destruct (decide (fs w !! input_dir = Some Dir)) as [Hd | Hd].
  2: { rewrite convert_directory_invalid in Hrun by exact Hd. discriminate. }
  rewrite convert_directory_valid in Hrun by exact Hd.
  apply bind_ok_inv in Hrun as (root & w0 & Hroot & Hrun).
  destruct (resolve_output_dir_returns _ _ _ _ _ Hd Hroot) as [Hdef _].
  subst root. exists w0. split; [exact Hroot |].
  destruct (convert_found_run self input_dir (default input_dir output_dir)
              recursive w0) as (oks' & bad & w'' & Hrun' & Hbatch & _).
  rewrite Hrun in Hrun'. injection Hrun' as <- <-.
  eapply batch_run_results; [exact Hbatch |].
  apply Forall_forall. intros f Hf.
  now apply glob_list_shape in Hf as [_ Hshape].
Qed.

Lemma convert_single_file_same_output (self : Converter) (input : PathArg)
    (o1 o2 : option PathArg) (w : World) :
  (Str.lower (suffix (input_of input)) = ".ipynb" →
   resolved_output input o1 = resolved_output input o2) →
  convert_single_file self input o1 w = convert_single_file self input o2 w.
Proof.
  intros Hsame.
  destruct (fs w !! input_of input) as [n |] eqn:Hin.
  2: { now rewrite !convert_single_file_missing by exact Hin. }
  destruct (decide (Str.lower (suffix (input_of input)) = ".ipynb"))
    as [Hsfx | Hsfx].
  2: { now rewrite !convert_single_file_bad_suffix by (rewrite ?Hin; eauto). }
  rewrite !convert_single_file_accepted by (rewrite ?Hin; eauto).
  fold (resolved_output input o1). fold (resolved_output input o2).
  now rewrite Hsame.
Qed.

(** X11. A batch with no output directory treats each notebook as the
    single-file conversion does by default: for a notebook whose
    directory exists, the turn of the loop is the call of
    [convert_single_file] with no output path. *)
Theorem in_place_turn_is_default_conversion (self : Converter)
    (input_dir f : Path) (ds : list string) (base : string) (w : World) :
  rooted f = rooted input_dir →
  parts f = (parts input_dir ++ ds ++ [base +:+ ".ipynb"])%list →
  base ≠ "" →
  fs w !! parent f = Some Dir →
  convert_one self input_dir input_dir f w
  = convert_single_file self (AsPath f) None w.
Proof.
  intros Hroot Hparts Hbase Hpar.
  pose proof (output_file_run input_dir input_dir f ds base w Hroot Hparts
                Hbase) as Hout.
  unfold convert_one. unfold mbind, M_bind in Hout |- *.
  destruct (relative_to f input_dir w) as [[rel | e] w0]; [| discriminate].
  destruct (with_suffix rel ".html" w0) as [[html | e] w0'];
    [| discriminate].
  injection Hout as -> ->.
  assert (Hparent : parent (mirrored input_dir ds base) = parent f).
  { rewrite parent_mirrored. unfold parent. rewrite Hparts, <- Hroot.
    f_equal. now rewrite app_assoc, removelast_last. }
  rewrite Hparent. unfold mkdir.
  rewrite mkdir_parents_present
    by (rewrite rev_involutive; now destruct (parent f)).
  apply convert_single_file_same_output. intros _.
  unfold resolved_output. cbn. f_equal.
  assert (Hname : name f = base ++ ".ipynb").
  { unfold name. rewrite Hparts, app_assoc. apply last_last. }
  destruct (NameFacts.suffix_ipynb f base ".ipynb" Hname Hbase eq_refl)
    as [_ ->].
  unfold mirrored, html_sibling. rewrite Hparts, <- Hroot. f_equal.
  now rewrite (app_assoc (parts input_dir) ds [base +:+ ".ipynb"]),
    removelast_last, <- app_assoc.
Qed.

(** *** What is printed *)

Lemma silent_ret {A} (a : A) : silent (mret a).
Proof. intros w. reflexivity. Qed.

Lemma silent_raise {A} (e : Exception) : silent (@raise A e).
Proof. intros w. reflexivity. Qed.

Lemma silent_lift {A} (r : Exception + A) : silent (lift r).
Proof. intros w. now destruct r. Qed.

Lemma silent_bind {A B} (c : M A) (k : A → M B) :
  silent c → (∀ a, silent (k a)) → silent (c ≫= k).
Proof.
  intros Hc Hk w. unfold mbind, M_bind. specialize (Hc w).
  destruct (c w) as [[a | e] w1]; cbn in Hc |- *; [| exact Hc].
  now rewrite Hk.
Qed.

Lemma silent_try {A} (c : M A) (h : Exception → M A) :
  silent c → (∀ e, silent (h e)) → silent (try_except c h).
Proof.
  intros Hc Hh w. unfold try_except. specialize (Hc w).
  destruct (c w) as [[a | e] w1]; cbn in Hc |- *; [exact Hc |].
  now rewrite Hh.
Qed.

Lemma silent_with_suffix (p : Path) (sfx : string) : silent (with_suffix p sfx).
Proof. intros w. unfold with_suffix. now case_decide. Qed.

Lemma silent_relative_to (p other : Path) : silent (relative_to p other).
Proof. intros w. unfold relative_to. now case_decide. Qed.

Lemma silent_open_read (p : Path) : silent (open_read p).
Proof.
  intros w. unfold open_read. run_monad.
  now destruct (fs w !! p) as [[data |] |].
Qed.

Lemma silent_open_write (p : Path) (data : string) :
  silent (open_write p data).
Proof.
  intros w. unfold open_write. run_monad.
  destruct (fs w !! parent p) as [[d |] |]; try reflexivity.
  now destruct (fs w !! p) as [[old |] |].
Qed.

Lemma silent_os_mkdir (p : Path) : silent (os_mkdir p).
Proof.
  intros w. unfold os_mkdir. run_monad.
  destruct (fs w !! p) as [n |]; [reflexivity |].
  now destruct (fs w !! parent p) as [[d |] |].
Qed.

Lemma silent_mkdir_oserror (p : Path) (ok : bool) (e : Exception) :
  silent (mkdir_oserror p ok e).
Proof.
  intros w. unfold mkdir_oserror, is_dir. run_monad.
  now destruct (negb ok || negb (bool_decide (fs w !! p = Some Dir))).
Qed.

Lemma silent_mkdir_flat (p : Path) (ok : bool) : silent (mkdir_flat p ok).
Proof.
  apply silent_try; [apply silent_os_mkdir |].
  intros e. case_decide; [apply silent_raise | apply silent_mkdir_oserror].
Qed.

Lemma silent_mkdir_parents (r : bool) (rp : list string) (ok : bool) :
  silent (mkdir_parents r rp ok).
Proof.
  revert ok. induction rp as [| c rp IH]; intros ok;
    rewrite mkdir_parents_unfold;
    (apply silent_try; [apply silent_os_mkdir |]);
    intros e; case_decide; try apply silent_mkdir_oserror.
  - apply silent_raise.
  - apply silent_bind; [apply IH | intros _; apply silent_mkdir_flat].
Qed.

Lemma silent_mkdir (p : Path) (parents ok : bool) :
  silent (mkdir p parents ok).
Proof.
  unfold mkdir. destruct parents;
    [apply silent_mkdir_parents | apply silent_mkdir_flat].
Qed.

Lemma silent_write_outputs (d : Path) (items : list (string * string)) :
  silent (write_outputs d items).
Proof.
  induction items as [| [filename data] items IH]; cbn [write_outputs].
  - apply silent_ret.
  - apply silent_bind; [apply silent_open_write | intros _; exact IH].
Qed.

Lemma prints_only_silent (P : string → Prop) {A} (c : M A) :
  silent c → prints_only P c.
Proof.
  intros Hc w. exists []. rewrite Hc, app_nil_r. split; [reflexivity | constructor].
Qed.

Lemma prints_only_print (P : string → Prop) (line : string) :
  P line → prints_only P (print line).
Proof. intros Hl w. exists [line]. split; [reflexivity | now repeat constructor]. Qed.

Lemma prints_only_bind (P : string → Prop) {A B} (c : M A) (k : A → M B) :
  prints_only P c → (∀ a, prints_only P (k a)) → prints_only P (c ≫= k).
Proof.
  intros Hc Hk w. unfold mbind, M_bind. destruct (Hc w) as (l1 & H1 & HP1).
  destruct (c w) as [[a | e] w1]; cbn in H1 |- *; [| eauto].
  destruct (Hk a w1) as (l2 & H2 & HP2). exists (l1 ++ l2)%list.
  rewrite H2, H1, app_assoc. split; [reflexivity | now apply Forall_app].
Qed.

Lemma prints_only_try (P : string → Prop) {A} (c : M A)
    (h : Exception → M A) :
  prints_only P c → (∀ e, prints_only P (h e)) → prints_only P (try_except c h).
Proof.
  intros Hc Hh w. unfold try_except. destruct (Hc w) as (l1 & H1 & HP1).
  destruct (c w) as [[a | e] w1]; cbn in H1 |- *; [eauto |].
  destruct (Hh e w1) as (l2 & H2 & HP2). exists (l1 ++ l2)%list.
  rewrite H2, H1, app_assoc. split; [reflexivity | now apply Forall_app].
Qed.

(** No line of a single-file conversion can be taken for the line that
    reports a skipped file. *)
Lemma ordinary_load_notebook (self : Converter) (p : Path) :
  prints_only ordinary (load_notebook self p).
Proof.
  unfold load_notebook, _execute_notebook. destruct (execute_notebook self).
  - apply prints_only_bind; [apply prints_only_print; reflexivity | intros _].
    apply prints_only_bind;
      [apply prints_only_silent, silent_open_read | intros content].
    apply prints_only_bind;
      [apply prints_only_silent, silent_lift | intros nb].
    destruct (ep_preprocess (to_str (parent p)) nb) as [nb' failure].
    apply prints_only_try.
    + apply prints_only_silent.
      destruct failure; [apply silent_raise | apply silent_ret].
    + intros e.
      apply prints_only_bind; [apply prints_only_print; reflexivity | intros _].
      apply prints_only_bind; [apply prints_only_print; reflexivity | intros _].
      apply prints_only_silent, silent_ret.
  - apply prints_only_silent.
    apply silent_bind; [apply silent_open_read | intros c; apply silent_lift].
Qed.

Lemma ordinary_convert_single_file (self : Converter) (input : PathArg)
    (output : option PathArg) :
  prints_only ordinary (convert_single_file self input output).
Proof.
  unfold convert_single_file.
  apply prints_only_bind; [apply prints_only_silent; now intros w |].
  intros ex. destruct (negb ex); [apply prints_only_silent, silent_raise |].
  destruct (negb _); [apply prints_only_silent, silent_raise |].
  apply prints_only_bind; [apply prints_only_print; reflexivity | intros _].
  apply prints_only_bind.
  - apply prints_only_silent. destruct (output_of output).
    + apply silent_ret.
    + apply silent_bind; [apply silent_with_suffix | intros q].
      apply silent_ret.
  - intros o. apply prints_only_try.
    + unfold convert_body.
      apply prints_only_bind; [apply ordinary_load_notebook | intros nb].
      apply prints_only_bind;
        [apply prints_only_silent, silent_lift | intros [body items]].
      destruct o as [q | []]; [| apply prints_only_silent, silent_raise].
      apply prints_only_bind;
        [apply prints_only_silent, silent_open_write | intros _].
      apply prints_only_bind.
      * apply prints_only_silent. destruct items as [| it items].
        -- apply silent_ret.
        -- apply silent_bind; [apply silent_mkdir | intros _].
           apply silent_write_outputs.
      * intros _.
        apply prints_only_bind; [apply prints_only_print; reflexivity | intros _].
        apply prints_only_silent, silent_ret.
    + intros e. unfold report_error.
      apply prints_only_bind; [apply prints_only_print; reflexivity | intros _].
      apply prints_only_silent, silent_raise.
Qed.

Lemma ordinary_convert_one (self : Converter) (input_dir root f : Path) :
  prints_only ordinary (convert_one self input_dir root f).
Proof.
  unfold convert_one.
  apply prints_only_bind;
    [apply prints_only_silent, silent_relative_to | intros rel].
  apply prints_only_bind;
    [apply prints_only_silent, silent_with_suffix | intros html].
  apply prints_only_bind; [apply prints_only_silent, silent_mkdir | intros _].
  apply ordinary_convert_single_file.
Qed.

Lemma startswith_app (s t : string) : Str.startswith (s ++ t) s = true.
Proof.
  unfold Str.startswith. induction s as [| c s IH].
  - now destruct t.
  - rewrite NameFacts.app_cons. cbn [String.prefix].
    now destruct (ascii_dec c c).
Qed.

Lemma filter_ordinary (ls : list string) :
  Forall ordinary ls → filter (λ l, failure_line l = true) ls = [].
Proof.
  induction 1 as [| l ls Hl _ IH]; [reflexivity |].
  unfold ordinary in Hl.
  rewrite filter_cons_False by (rewrite Hl; discriminate). exact IH.
Qed.

Lemma batch_run_lines (self : Converter) (input_dir root : Path)
    (files : list Path) (w w' : World) (oks : list Path)
    (bad : list (Path * Exception)) :
  batch_run self input_dir root files w oks bad w' →
  ∃ ls, stdout w' = (stdout w ++ ls)%list
        ∧ length (filter (λ l, failure_line l = true) ls) = length bad.
Proof.
  induction 1 as [w | f rest w html w1 oks bad w2 Hone _ IH
                    | f rest w e w1 oks bad w2 Hone _ IH].
  - exists []. now rewrite app_nil_r.
  - destruct (ordinary_convert_one self input_dir root f w)
      as (l1 & H1 & HP1).
    rewrite Hone in H1. cbn in H1. destruct IH as (l2 & H2 & Hn).
    exists (l1 ++ l2)%list. rewrite H2, H1, app_assoc.
    split; [reflexivity |].
    now rewrite filter_app, (filter_ordinary l1 HP1).
  - destruct (ordinary_convert_one self input_dir root f w)
      as (l1 & H1 & HP1).
    rewrite Hone in H1. cbn in H1. destruct IH as (l2 & H2 & Hn).
    cbn [stdout] in H2.
    exists (l1 ++ ["Failed to convert " +:+ to_str f +:+ ": " +:+ exc_str e]
            ++ l2)%list.
    rewrite H2, H1, <- !app_assoc. split; [reflexivity |].
    rewrite !filter_app, (filter_ordinary l1 HP1).
    rewrite filter_cons_True by apply startswith_app. cbn. now rewrite Hn.
Qed.

(** X12. The failures of a batch can be counted on its output: among the
    lines that a batch prints, those that open with
    ["Failed to convert "] are as many as the enumerated files that are
    missing from the returned list; no line of a conversion itself can
    be taken for one. *)
Theorem batch_prints_one_line_per_failure (self : Converter)
    (input_dir : Path) (output_dir : option Path) (recursive : bool)
    (root : Path) (w w0 : World) :
  fs w !! input_dir = Some Dir →
  resolve_output_dir input_dir output_dir w = (Ok root, w0) →
  ∃ oks w' ls,
    convert_directory self input_dir output_dir recursive w = (Ok oks, w')
    ∧ stdout w' = (stdout w ++ ls)%list
    ∧ (length oks + length (filter (λ l, failure_line l = true) ls)
       = length (glob_list (fs w0) input_dir recursive))%nat.
Proof.
  intros Hd Hroot. rewrite convert_directory_valid by exact Hd.
  bind_step. rewrite Hroot.
  destruct (convert_found_run self input_dir root recursive w0)
    as (oks & bad & w' & Hrun & Hbatch & Hn).
  apply batch_run_lines in Hbatch as (ls & Hls & Hbad).
  assert (Hw0 : stdout w0 = stdout w).
  { unfold resolve_output_dir in Hroot. destruct output_dir as [o |].
    - pose proof (silent_mkdir o true true w) as Hs.
      apply bind_ok_inv in Hroot as ([] & w1 & Hmk & Hroot).
      rewrite Hmk in Hs. now injection Hroot as _ <-.
    - now injection Hroot as _ <-. }
  eexists oks, w', (_ :: ls). split; [exact Hrun |]. split.
  - rewrite Hls. unfold announce_batch. cbn [stdout].
    rewrite Hw0, <- app_assoc. reflexivity.
  - rewrite filter_cons_False.
    + now rewrite Hbad.
    + destruct (glob_list (fs w0) input_dir recursive); discriminate.
Qed.

(** X13. A directory whose name ends in [.ipynb] passes both guards of
    [convert_single_file]; the call fails when it opens the notebook,
    with [IsADirectoryError], and nothing is written. *)
Theorem directory_named_like_a_notebook (self : Converter) (input : PathArg)
    (output : option PathArg) (w : World) :
  fs w !! input_of input = Some Dir →
  Str.lower (suffix (input_of input)) = ".ipynb" →
  ∃ w',
    convert_single_file self input output w
    = (Raise (OSError.EISDIR (to_str (input_of input))), w')
    ∧ fs w' = fs w.
Proof.
  intros Hdir Hsfx.
  rewrite convert_single_file_accepted by (rewrite ?Hdir; eauto).
  unfold try_except, convert_body. bind_step.
  assert (Hload : ∃ w1,
            load_notebook self (input_of input) (announced (input_of input) w)
            = (Raise (OSError.EISDIR (to_str (input_of input))), w1)
            ∧ fs w1 = fs w).
  { unfold load_notebook, _execute_notebook, open_read.
    destruct (execute_notebook self); run_monad; cbn; rewrite Hdir; eauto. }
  destruct Hload as (w1 & -> & Hfs).
  unfold report_error. run_monad. cbn. eauto.
Qed.

(** *** The command line *)

Lemma is_file_run (p : Path) (w : World) :
  CLI.is_file p w
  = (Ok match fs w !! p with Some (File _) => true | _ => false end, w).
Proof. reflexivity. Qed.

(** X14. The command line turns a bad input away: a path that does not
    exist, or a regular file whose suffix is not [.ipynb], gives exit
    status 1 and one line that names the path; nothing is written. *)
Theorem cli_rejects_bad_input (args : Args) (w : World) :
  (fs w !! of_str (arg_input args) = None →
     CLI.main args w
     = (1%nat,
        mkWorld (fs w)
          (stdout w ++ ["Error: Input path not found: "
                        +:+ to_str (of_str (arg_input args))])))
  ∧ (∀ src,
       fs w !! of_str (arg_input args) = Some (File src) →
       Str.lower (suffix (of_str (arg_input args))) ≠ ".ipynb" →
       CLI.main args w
       = (1%nat,
          mkWorld (fs w)
            (stdout w ++ ["Error: Input file must be a .ipynb file: "
                          +:+ to_str (of_str (arg_input args))]))).
Proof.
  split.
  - intros Hnone. unfold CLI.main, try_except, CLI.main_try.
    bind_step. rewrite is_file_run, Hnone.
    bind_step. rewrite is_dir_run, Hnone.
    now rewrite bool_decide_eq_false_2 by discriminate.
  - intros src Hfile Hsfx. unfold CLI.main, try_except, CLI.main_try.
    bind_step. rewrite is_file_run, Hfile. bind_step.
    rewrite convert_single_file_bad_suffix; [reflexivity | | exact Hsfx].
    cbn [input_of]. rewrite Hfile. eauto.
Qed.

(** X15. In directory mode the exit status does not depend on the
    notebooks: once the root is a directory and the output directory is
    made, [main] exits with 0 and its last line counts the conversions
    that returned, however many files failed. *)
Theorem cli_directory_mode_exits_zero (args : Args) (root : Path)
    (w w0 : World) :
  fs w !! of_str (arg_input args) = Some Dir →
  resolve_output_dir (of_str (arg_input args)) (CLI.output_path_of args) w
  = (Ok root, w0) →
  ∃ oks w1,
    convert_directory (CLI.converter_of args) (of_str (arg_input args))
      (CLI.output_path_of args) (arg_recursive args) w = (Ok oks, w1)
    ∧ CLI.main args w
      = (0%nat,
         mkWorld (fs w1)
           (stdout w1 ++ [CLI.nl +:+ "✓ Successfully converted "
                          +:+ pretty (length oks) +:+ " notebook(s)"])).
Proof.
  intros Hd Hroot.
  assert (Hrun : ∃ oks w1,
    convert_directory (CLI.converter_of args) (of_str (arg_input args))
      (CLI.output_path_of args) (arg_recursive args) w = (Ok oks, w1)).
  { rewrite convert_directory_valid by exact Hd. bind_step. rewrite Hroot.
    destruct (convert_found_run (CLI.converter_of args)
                (of_str (arg_input args)) root (arg_recursive args) w0)
      as (oks & bad & w1 & Hrun & _). eauto. }
  destruct Hrun as (oks & w1 & Hrun). exists oks, w1.
  split; [exact Hrun |].
  unfold CLI.main, try_except, CLI.main_try.
  bind_step. rewrite is_file_run, Hd.
  bind_step. rewrite is_dir_run.
  rewrite bool_decide_eq_true_2 by exact Hd.
  bind_step. now rewrite Hrun.
Qed.

(** X16. [main] hands [-o] to [convert_single_file] as it is: for a
    notebook file and an output path whose directory does not exist,
    the exit status is 1 and nothing is written or made. *)
Theorem cli_needs_the_output_directory (args : Args) (w : World)
    (src out : string) :
  fs w !! of_str (arg_input args) = Some (File src) →
  arg_output args = Some out →
  out ≠ "" →
  fs w !! parent (of_str out) = None →
  (CLI.main args w).1 = 1%nat ∧ fs (CLI.main args w).2 = fs w.
Proof.
  intros Hfile Hout Hne Hpar.
  assert (Hmain : ∃ w1, CLI.main args w = (1%nat, w1) ∧ fs w1 = fs w).
  { unfold CLI.main, try_except, CLI.main_try.
    bind_step. rewrite is_file_run, Hfile. bind_step.
    unfold CLI.output_path_of. rewrite Hout, decide_False by exact Hne.
    cbn [fmap option_fmap option_map].
    destruct (convert_without_parent_fails (CLI.converter_of args)
                (AsPath (of_str (arg_input args)))
                (Some (AsPath (of_str out))) (of_str out) w eq_refl Hpar)
      as (e & w' & Hrun & Hfs).
    rewrite Hrun. cbn. eauto. }
  destruct Hmain as (w1 & -> & Hfs). auto.
Qed.

(** X17. For a request that can be served, [main] exits with 0 and the
    HTML file is at the output path: the one given with [-o], or the
    default next to the notebook. *)
Theorem cli_converts_a_notebook (args : Args) (q : Path) (w : World)
    (src : string) (nb : Notebook) (body : string)
    (items : list (string * string)) :
  Str.lower (suffix (of_str (arg_input args))) = ".ipynb" →
  q = default (html_sibling (of_str (arg_input args))
                 (stem (of_str (arg_input args))))
              (CLI.output_path_of args) →
  convertible (CLI.converter_of args) (of_str (arg_input args)) q w
              src nb body items →
  (CLI.main args w).1 = 0%nat
  ∧ fs (CLI.main args w).2 !! q
    = Some (File (_enhance_html_output (CLI.converter_of args) body
                    (of_str (arg_input args)))).
Proof.
  intros Hsfx Hq Hc.
  pose proof (convertible_parts _ _ _ _ _ _ _ _ Hc) as Hparts.
  assert (Hmain : ∃ w1,
            CLI.main args w = (0%nat, w1)
            ∧ fs w1 = written q (_enhance_html_output (CLI.converter_of args)
                                   body (of_str (arg_input args)))
                        items (fs w)).
  { unfold CLI.main, try_except, CLI.main_try.
    bind_step. rewrite is_file_run.
    rewrite (cv_file _ _ _ _ _ _ _ _ Hc). bind_step.
    rewrite (convert_single_file_ok (CLI.converter_of args)
               (AsPath (of_str (arg_input args)))
               (AsPath <$> CLI.output_path_of args) q w src nb body items);
      [cbn; eauto | exact Hsfx | | exact Hc].
    rewrite Hq. unfold resolved_output.
    now destruct (CLI.output_path_of args). }
  destruct Hmain as (w1 & -> & Hfs). cbn. split; [reflexivity |].
  rewrite Hfs. destruct Hc as [_ _ _ _ _ _ Hitems]. now apply written_html.
Qed.

(** *** The Tk worker *)

Lemma careful_convert_selected (converter : Converter)
    (output_path : option Path) (f : Path) (pr : Progress) :
  careful (TkWorker.convert_selected converter output_path f pr).
Proof.
  unfold TkWorker.convert_selected. apply careful_try.
  - apply careful_bind.
    + unfold TkWorker.html_file_for. destruct output_path as [o |].
      * apply careful_bind; [apply careful_mkdir | intros _].
        apply read_only_careful, read_only_ret.
      * apply read_only_careful, read_only_ret.
    + intros html. apply careful_bind;
        [apply careful_convert_single_file | intros q].
      apply read_only_careful, read_only_ret.
  - intros e. apply read_only_careful, read_only_ret.
Qed.

(** One turn of the worker's loop returns, and adds one entry: a
    result, which is the target of the file and a regular file by now,
    or an error message. *)
Lemma convert_selected_run (converter : Converter) (output_path : option Path)
    (f : Path) (pr : Progress) (w : World) :
  ∃ pr' w',
    TkWorker.convert_selected converter output_path f pr w = (Ok pr', w')
    ∧ keeps (fs w) (fs w')
    ∧ ((converted_files pr' = (converted_files pr ++ [tk_target output_path f])%list
        ∧ errors pr' = errors pr
        ∧ ∃ data, fs w' !! tk_target output_path f = Some (File data))
       ∨ (converted_files pr' = converted_files pr
          ∧ ∃ msg, errors pr' = (errors pr ++ [msg])%list)).
Proof.
  pose proof (careful_convert_selected converter output_path f pr w) as Hk.
  unfold TkWorker.convert_selected in Hk |- *. unfold try_except in Hk |- *.
  destruct ((TkWorker.html_file_for output_path f ≫= _) w)
    as [[pr' | e] w'] eqn:Hrun; cbn in Hk.
  - exists pr', w'. split; [reflexivity |]. split; [exact Hk |]. left.
    apply bind_ok_inv in Hrun as (html & w1 & Hhtml & Hrun).
    apply bind_ok_inv in Hrun as (q & w2 & Hconv & Hrun).
    injection Hrun as <- <-. cbn.
    apply convert_single_file_returns in Hconv as (_ & _ & Hout & Hfile & _).
    assert (Hq : q = tk_target output_path f).
    { unfold TkWorker.html_file_for in Hhtml. destruct output_path as [o |].
      - apply bind_ok_inv in Hhtml as ([] & w3 & _ & Hhtml).
        injection Hhtml as <- _. unfold resolved_output in Hout. cbn in Hout.
        now injection Hout as <-.
      - injection Hhtml as <- _. unfold resolved_output in Hout. cbn in Hout.
        now injection Hout as <-. }
    subst q. auto.
  - eexists _, w'. split; [reflexivity |]. split; [exact Hk |]. right.
    cbn. eauto.
Qed.

Lemma convert_each_run (converter : Converter) (output_path : option Path)
    (selected : list Path) (pr : Progress) (w : World) :
  ∃ pr' w',
    TkWorker.convert_each converter output_path selected pr w = (Ok pr', w')
    ∧ keeps (fs w) (fs w')
    ∧ (length (converted_files pr') + length (errors pr')
       = length (converted_files pr) + length (errors pr) + length selected)%nat
    ∧ ∀ q, q ∈ converted_files pr' →
           q ∈ converted_files pr
           ∨ ((∃ data, fs w' !! q = Some (File data))
              ∧ ∃ f, f ∈ selected ∧ q = tk_target output_path f).
Proof.
  revert pr w. induction selected as [| f rest IH]; intros pr w.
  - exists pr, w. split; [reflexivity |]. split; [apply keeps_refl |].
    split; [cbn; lia | auto].
  - cbn [TkWorker.convert_each]. bind_step.
    destruct (convert_selected_run converter output_path f pr w)
      as (pr1 & w1 & Hrun1 & Hk1 & Hstep).
    rewrite Hrun1.
    destruct (IH pr1 w1) as (pr2 & w2 & Hrun2 & Hk2 & Hlen & Hin).
    exists pr2, w2. split; [exact Hrun2 |].
    split; [eapply keeps_trans; eauto |]. split.
    + destruct Hstep as [(Hc & He & _) | (Hc & msg & He)];
        rewrite Hlen, Hc, He, ?length_app; cbn; lia.
    + intros q Hq. destruct (Hin q Hq) as [Hold | (Hfile & f' & Hf' & Heq)].
      * destruct Hstep as [(Hc & _ & data & Hfile) | (Hc & _)].
        -- rewrite Hc in Hold. apply elem_of_app in Hold as [Hold | Hnew];
             [now left |].
           apply list_elem_of_singleton in Hnew. subst q. right. split.
           ++ specialize (Hk2 (tk_target output_path f)).
              now rewrite Hfile in Hk2.
           ++ exists f. split; [apply list_elem_of_here | reflexivity].
        -- rewrite Hc in Hold. now left.
      * right. split; [exact Hfile |]. exists f'.
        split; [now apply list_elem_of_further | exact Heq].
Qed.

(** Each turn of the worker queues two messages: the file it starts
    on, and how that went. *)
Lemma convert_selected_queue (converter : Converter)
    (output_path : option Path) (f : Path) (pr pr' : Progress) (w w' : World) :
  TkWorker.convert_selected converter output_path f pr w = (Ok pr', w') →
  ∃ outcome_line,
    queued pr'
    = (queued pr ++ ["Converting: " +:+ name f; outcome_line])%list.
Proof.
  unfold TkWorker.convert_selected, try_except.
  destruct ((TkWorker.html_file_for output_path f ≫= _) w)
    as [[pr1 | e] w1] eqn:Hrun.
  - apply bind_ok_inv in Hrun as (html & w2 & _ & Hrun).
    apply bind_ok_inv in Hrun as (q & w3 & _ & Hrun).
    injection Hrun as <- _. intros [= <- _]. cbn.
    rewrite <- app_assoc. eauto.
  - intros [= <- _]. cbn. rewrite <- app_assoc. eauto.
Qed.

Lemma convert_each_queue (converter : Converter) (output_path : option Path)
    (selected : list Path) (pr pr' : Progress) (w w' : World) :
  TkWorker.convert_each converter output_path selected pr w = (Ok pr', w') →
  ∃ msgs,
    queued pr' = (queued pr ++ msgs)%list
    ∧ length msgs = (2 * length selected)%nat.
Proof.
  revert pr w. induction selected as [| f rest IH]; intros pr w.
  - intros [= <- _]. exists []. now rewrite app_nil_r.
  - cbn [TkWorker.convert_each]. intros Hrun.
    apply bind_ok_inv in Hrun as (pr1 & w1 & Hone & Hrun).
    apply convert_selected_queue in Hone as [line Hone].
    apply IH in Hrun as (msgs & Hq & Hlen).
    exists (["Converting: " +:+ name f; line] ++ msgs)%list.
    rewrite Hq, Hone, <- app_assoc. split; [reflexivity |].
    rewrite length_app, Hlen. cbn. lia.
Qed.

(** X18. The worker of the Tk front-ends accounts for every selected
    file: it always runs to its end, each file ends up either among the
    converted files or among the errors, and after the two messages of
    each file the queue is closed by the summary and then by
    ["ENABLE_BUTTON"], which the [finally] block queues last. *)
Theorem tk_worker_accounts_for_every_file (settings : Settings)
    (selected : list Path) (queue : list string) (w : World) :
  ∃ pr w' msgs,
    TkWorker.convert_files settings selected queue w = (Ok pr, w')
    ∧ (length (converted_files pr) + length (errors pr)
       = length selected)%nat
    ∧ queued pr
      = (queue ++ msgs
         ++ [TkWorker.summary (TkWorker.output_path_of settings) pr;
             "ENABLE_BUTTON"])%list
    ∧ length msgs = (2 * length selected)%nat
    ∧ last (queued pr) = Some "ENABLE_BUTTON".
Proof.
  unfold TkWorker.convert_files, try_except. bind_step. bind_step.
  destruct (convert_each_run (TkWorker.converter_of settings)
              (TkWorker.output_path_of settings) selected
              (mkProgress [] [] queue) w)
    as (pr & w' & Hrun & _ & Hlen & _).
  rewrite Hrun.
  apply convert_each_queue in Hrun as (msgs & Hq & Hmsgs).
  eexists _, w', msgs. split; [reflexivity |]. cbn.
  assert (Hqueue :
    ((queued pr ++ [TkWorker.summary (TkWorker.output_path_of settings) pr])
     ++ ["ENABLE_BUTTON"]
     = queue ++ msgs
       ++ [TkWorker.summary (TkWorker.output_path_of settings) pr;
           "ENABLE_BUTTON"])%list).
  { rewrite Hq. cbn [queued]. now rewrite <- !app_assoc. }
  split; [exact Hlen |]. split; [exact Hqueue |]. split; [exact Hmsgs |].
  apply last_snoc.
Qed.

(** X19. With an output directory set, the worker puts every HTML file
    directly into that directory under the stem of its notebook (the
    folders of the notebooks are not mirrored); with none, next to the
    notebook.  Every converted file it reports is a regular file when
    the worker ends. *)
Theorem tk_worker_targets (settings : Settings) (selected : list Path)
    (queue : list string) (w w' : World) (pr : Progress) :
  TkWorker.convert_files settings selected queue w = (Ok pr, w') →
  ∀ q, q ∈ converted_files pr →
    (∃ data, fs w' !! q = Some (File data))
    ∧ ∃ f, f ∈ selected
           ∧ q = match TkWorker.output_path_of settings with
                 | Some o => join_str o (stem f +:+ ".html")
                 | None => html_sibling f (stem f)
                 end.
Proof.
  unfold TkWorker.convert_files, try_except.
  unfold mbind at 1, M_bind. unfold mbind at 1, M_bind.
  destruct (convert_each_run (TkWorker.converter_of settings)
              (TkWorker.output_path_of settings) selected
              (mkProgress [] [] queue) w)
    as (pr1 & w1 & Hrun & _ & _ & Hin).
  rewrite Hrun. intros [= <- <-] q Hq. cbn in Hq.
  destruct (Hin q Hq) as [Hold | Hnew].
  - now apply elem_of_nil in Hold.
  - exact Hnew.
Qed.

(** X20. With [execute_notebook] set, a kernel run that raises does not
    stop the call: for a request that can otherwise be served, the two
    warning lines are printed, the notebook as the failed run left it
    ([nb'], not the stored [nb]) is rendered, the HTML file is written
    and the output path returned. *)
Theorem execution_failure_is_not_fatal self input output q w src nb nb' e
    body items :
  execute_notebook self = true →
  ep_preprocess (to_str (parent (input_of input))) nb = (nb', Some e) →
  Str.lower (suffix (input_of input)) = ".ipynb" →
  resolved_output input output = inl q →
  convertible self (input_of input) q w src nb body items →
  ∃ w',
    convert_single_file self input output w = (Ok q, w')
    ∧ from_notebook_node (html_exporter self) nb' = inr (body, items)
    ∧ fs w' !! q
      = Some (File (_enhance_html_output self body (input_of input)))
    ∧ stdout w'
      = (stdout w
         ++ ["Converting: " +:+ to_str (input_of input);
             "Executing notebook: " +:+ to_str (input_of input);
             "Warning: Failed to execute notebook: " +:+ exc_str e;
             "Proceeding with existing outputs...";
             "✓ Converted successfully: " +:+ to_str q])%list.
Proof.
  intros Hexec Hrun Hsfx Hout Hc.
  rewrite (convert_single_file_ok self input output q w src nb body items)
    by assumption.
  eexists. split; [reflexivity |].
  pose proof (convertible_parts _ _ _ _ _ _ _ _ Hc) as Hparts.
  destruct Hc as [_ _ Hrender _ _ _ Hitems].
  unfold loaded in Hrender. rewrite Hexec, Hrun in Hrender.
  split; [exact Hrender |]. cbn [fs stdout]. split.
  - now apply written_html.
  - unfold success_lines, execution_lines. now rewrite Hexec, Hrun.
Qed.

End WithCollaborators.
End MoreFacts.

(** ** The theorems at work in the sample world *)

Module Witness.
Import PurePath PathOps NotebookToHTMLConverter Effects Facts Sample.

(** [nb/a.ipynb] as the request of the examples. *)
Lemma a_convertible (self : Converter) (items : list (string * string)) :
  execute_notebook self = false →
  items = (if embed_images self then [] else [("output_0_0.png", "PNG")]) →
  convertible self (rel ["nb"; "a.ipynb"]) (rel ["nb"; "a.html"]) world
    "{a}" "{a}" "<html><head></head>{a}</html>" items.
Proof.
  intros Hexec ->. constructor.
  - reflexivity.
  - reflexivity.
  - unfold loaded. rewrite Hexec. cbn. now destruct (embed_images self).
  - reflexivity.
  - vm_compute. discriminate.
  - intros data. vm_compute. discriminate.
  - destruct (embed_images self); repeat constructor.
    vm_compute. discriminate.
Qed.

End Witness.

(** C1 at work: a missing path and a text file, in the sample world. *)
Lemma convert_single_file_rejects_witness :
  NotebookToHTMLConverter.convert_single_file Sample.plain
    (AsStr "nb/missing.ipynb") None Sample.world
  = (Raise (Exc FileNotFoundError "Input file not found: nb/missing.ipynb"),
     Sample.world)
  ∧ NotebookToHTMLConverter.convert_single_file Sample.plain
      (AsStr "nb/notes.txt") None Sample.world
    = (Raise (Exc ValueError "Input file must be a .ipynb file: nb/notes.txt"),
       Sample.world).
Proof.
  split.
  - apply (Facts.convert_single_file_rejects Sample.plain
             (AsStr "nb/missing.ipynb") None Sample.world).
    vm_compute. reflexivity.
  - apply (Facts.convert_single_file_rejects Sample.plain
             (AsStr "nb/notes.txt") None Sample.world).
    + vm_compute. eauto.
    + vm_compute. discriminate.
Defined.


(** C3 at the failing input.  The stored notebook [nb/sub/c.ipynb] fails
    in the kernel after one cell has run.  The call is not stopped and
    prints that it proceeds with the existing outputs; yet the HTML it
    writes is rendered from the notebook as the failed run left it, not
    from the stored one, whose rendering is what the same converter
    writes without execution. *)
Lemma execution_failure_renders_the_failed_run :
  let r := NotebookToHTMLConverter.convert_single_file Sample.executing
             (AsStr "nb/sub/c.ipynb") None Sample.world in
  let stored := NotebookToHTMLConverter.convert_single_file
                  (mkConverter true true false "lab")
                  (AsStr "nb/sub/c.ipynb") None Sample.world in
  fs Sample.world !! Sample.rel ["nb"; "sub"; "c.ipynb"]
  = Some (File "{c boom}")
  ∧ r.1 = Ok (Sample.rel ["nb"; "sub"; "c.html"])
  ∧ stdout r.2
    = ["Converting: nb/sub/c.ipynb";
       "Executing notebook: nb/sub/c.ipynb";
       "Warning: Failed to execute notebook: An error occurred while executing";
       "Proceeding with existing outputs...";
       "✓ Converted successfully: nb/sub/c.html"]
  ∧ fs r.2 !! Sample.rel ["nb"; "sub"; "c.html"]
    = Some (File "<style/><html><head></head>{c boom}[1]</html>")
  ∧ fs stored.2 !! Sample.rel ["nb"; "sub"; "c.html"]
    = Some (File "<style/><html><head></head>{c boom}</html>").
Proof. vm_compute. repeat split. Qed.

(** C4 at work: [nb/a.ipynb] goes to [nb/a.html]. *)
Lemma default_output_is_html_sibling_witness :
  ∃ w',
    NotebookToHTMLConverter.convert_single_file Sample.plain
      (AsStr "nb/a.ipynb") None Sample.world
    = (Ok (Sample.rel ["nb"; "a.html"]), w')
    ∧ fs w' !! Sample.rel ["nb"; "a.html"]
      = Some (File "<style/><html><head></head>{a}</html>").
Proof.
  destruct (Facts.default_output_is_html_sibling (H := Sample.libs) Sample.plain
              (AsStr "nb/a.ipynb") Sample.world "a" ".ipynb" "{a}" "{a}"
              "<html><head></head>{a}</html>" [])
    as (_ & _ & w' & Hrun & Hfile & _).
  - reflexivity.
  - discriminate.
  - reflexivity.
  - now apply Witness.a_convertible.
  - exists w'. split; [exact Hrun | exact Hfile].
Defined.

(** C5 at work: with images not embedded, [output_0_0.png] lands in
    [nb/a_files]. *)
Lemma resources_go_to_side_car_witness :
  ∃ w',
    NotebookToHTMLConverter.convert_single_file Sample.side_car
      (AsStr "nb/a.ipynb") None Sample.world
    = (Ok (Sample.rel ["nb"; "a.html"]), w')
    ∧ fs w' !! Sample.rel ["nb"; "a_files"] = Some Dir
    ∧ fs w' !! Sample.rel ["nb"; "a_files"; "output_0_0.png"]
      = Some (File "PNG").
Proof.
  destruct (Facts.resources_go_to_side_car (H := Sample.libs) Sample.side_car
              (AsStr "nb/a.ipynb") None (Sample.rel ["nb"; "a.html"])
              Sample.world "{a}" "{a}" "<html><head></head>{a}</html>"
              [("output_0_0.png", "PNG")])
    as (w' & Hrun & _ & _ & Hdir & Hfiles).
  - reflexivity.
  - reflexivity.
  - now apply Witness.a_convertible.
  - discriminate.
  - apply NoDup_singleton.
  - exists w'. split; [exact Hrun |]. split; [exact Hdir |].
    apply (Hfiles "output_0_0.png" "PNG"). apply list_elem_of_here.
Defined.

(** C6 at work: [out] does not exist and is not made; below the
    regular file [nb/notes.txt] the error is [NotADirectoryError]. *)
Lemma missing_output_directory_is_not_created_witness :
  (∃ w',
     NotebookToHTMLConverter.convert_single_file Sample.plain
       (AsStr "nb/a.ipynb") (Some (AsStr "out/a.html")) Sample.world
     = (Raise (OSError.ENOENT "out/a.html"), w')
     ∧ fs w' = fs Sample.world)
  ∧ (∃ w',
       NotebookToHTMLConverter.convert_single_file Sample.plain
         (AsStr "nb/a.ipynb") (Some (AsStr "nb/notes.txt/x/a.html"))
         Sample.world
       = (Raise (OSError.ENOTDIR "nb/notes.txt/x/a.html"), w')
       ∧ fs w' = fs Sample.world).
Proof.
  split.
  - destruct (Facts.missing_output_directory_is_not_created Sample.plain
                (AsStr "nb/a.ipynb") (Some (AsStr "out/a.html"))
                (Sample.rel ["out"; "a.html"]) Sample.world)
      as (e & w' & Hrun & Hfs & Herr).
    + reflexivity.
    + reflexivity.
    + rewrite (Herr "{a}" "{a}" "<html><head></head>{a}</html>" []
                 eq_refl eq_refl eq_refl eq_refl) in Hrun.
      exists w'. split; [exact Hrun | exact Hfs].
  - destruct (Facts.missing_output_directory_is_not_created Sample.plain
                (AsStr "nb/a.ipynb") (Some (AsStr "nb/notes.txt/x/a.html"))
                (Sample.rel ["nb"; "notes.txt"; "x"; "a.html"]) Sample.world)
      as (e & w' & Hrun & Hfs & Herr).
    + reflexivity.
    + reflexivity.
    + rewrite (Herr "{a}" "{a}" "<html><head></head>{a}</html>" []
                 eq_refl eq_refl eq_refl eq_refl) in Hrun.
      exists w'. split; [exact Hrun | exact Hfs].
Defined.

(** C6 as it was claimed fails here: the notebook is valid (it converts
    to its default place), yet with the output under the missing
    directory [out] the call raises, and [out] is still missing. *)
Lemma missing_output_directory_counterexample :
  fs Sample.world !! Sample.rel ["out"] = None
  ∧ (NotebookToHTMLConverter.convert_single_file Sample.plain
       (AsStr "nb/a.ipynb") None Sample.world).1
    = Ok (Sample.rel ["nb"; "a.html"])
  ∧ (NotebookToHTMLConverter.convert_single_file Sample.plain
       (AsStr "nb/a.ipynb") (Some (AsStr "out/a.html")) Sample.world).1
    = Raise (OSError.ENOENT "out/a.html")
  ∧ fs (NotebookToHTMLConverter.convert_single_file Sample.plain
          (AsStr "nb/a.ipynb") (Some (AsStr "out/a.html")) Sample.world).2
       !! Sample.rel ["out"] = None.
Proof. vm_compute. repeat split. Qed.

(** C7 at work: a regular file as [input_dir]; a valid [input_dir]
    with no output directory; with a regular file as output directory;
    with an output directory below a regular file; and with one that is
    made, parents included. *)
Lemma batch_raises_only_for_directories_witness :
  NotebookToHTMLConverter.convert_directory Sample.plain
    (Sample.rel ["nb"; "notes.txt"]) None false Sample.world
  = (Raise (Exc NotADirectoryError "Input directory not found: nb/notes.txt"),
     Sample.world)
  ∧ (∃ oks w',
       NotebookToHTMLConverter.convert_directory Sample.plain
         (Sample.rel ["nb"]) None false Sample.world = (Ok oks, w'))
  ∧ NotebookToHTMLConverter.convert_directory Sample.plain
      (Sample.rel ["nb"]) (Some (Sample.rel ["nb"; "notes.txt"])) false
      Sample.world
    = (Raise (OSError.EEXIST "nb/notes.txt"), Sample.world)
  ∧ NotebookToHTMLConverter.convert_directory Sample.plain
      (Sample.rel ["nb"]) (Some (Sample.rel ["nb"; "notes.txt"; "x"; "out"]))
      false Sample.world
    = (Raise (OSError.ENOTDIR "nb/notes.txt/x/out"), Sample.world)
  ∧ ∃ oks w',
      NotebookToHTMLConverter.convert_directory Sample.plain
        (Sample.rel ["nb"]) (Some (Sample.rel ["out"; "deep"])) false
        Sample.world = (Ok oks, w').
Proof.
  assert (Hvalid : fs Sample.world !! Sample.rel ["nb"] = Some Dir)
    by reflexivity.
  split; [| split; [| split; [| split]]].
  - apply (Facts.batch_raises_only_for_directories Sample.plain
             (Sample.rel ["nb"; "notes.txt"]) None false Sample.world).
    vm_compute. discriminate.
  - exact (proj1 (proj2 (Facts.batch_raises_only_for_directories Sample.plain
                           (Sample.rel ["nb"]) None false Sample.world))
             Hvalid).
  - destruct (proj2 (proj2 (Facts.batch_raises_only_for_directories
                              Sample.plain (Sample.rel ["nb"])
                              (Some (Sample.rel ["nb"; "notes.txt"])) false
                              Sample.world))
                Hvalid (Sample.rel ["nb"; "notes.txt"]) eq_refl)
      as (Htaken & _).
    exact (Htaken "text" eq_refl).
  - destruct (proj2 (proj2 (Facts.batch_raises_only_for_directories
                              Sample.plain (Sample.rel ["nb"])
                              (Some (Sample.rel ["nb"; "notes.txt"; "x"; "out"]))
                              false Sample.world))
                Hvalid (Sample.rel ["nb"; "notes.txt"; "x"; "out"]) eq_refl)
      as (_ & Hbelow & _).
    exact (Hbelow eq_refl eq_refl).
  - destruct (proj2 (proj2 (Facts.batch_raises_only_for_directories
                              Sample.plain (Sample.rel ["nb"])
                              (Some (Sample.rel ["out"; "deep"])) false
                              Sample.world))
                Hvalid (Sample.rel ["out"; "deep"]) eq_refl)
      as (_ & _ & Hmade & _).
    apply Hmade. cbn [rooted parts rev app Sample.rel].
    apply Effects.makeable_new; [reflexivity |].
    apply Effects.makeable_new; [reflexivity |].
    apply Effects.makeable_dir. reflexivity.
Defined.

(** C7 as it was claimed fails here: [nb] is a directory, yet the call
    raises [NotADirectoryError], because the output directory is asked
    for below the regular file [nb/notes.txt]. *)
Lemma batch_not_a_directory_counterexample :
  fs Sample.world !! Sample.rel ["nb"] = Some Dir
  ∧ (NotebookToHTMLConverter.convert_directory Sample.plain (Sample.rel ["nb"])
       (Some (Sample.rel ["nb"; "notes.txt"; "out"])) false Sample.world).1
    = Raise (Exc NotADirectoryError
               "[Errno 20] Not a directory: 'nb/notes.txt/out'").
Proof. vm_compute. split; reflexivity. Qed.

(** C8 at work: the batch from [nb] into the new directory [out].  With
    [recursive] the enumeration holds [nb/sub/c.ipynb], without it does
    not; the turn of that notebook makes [out/sub] and converts to
    [out/sub/c.html]. *)
Lemma batch_mirrors_the_tree_witness :
  let w0 := mkWorld (<[Sample.rel ["out"] := Dir]> Sample.tree) [] in
  let f := Sample.rel ["nb"; "sub"; "c.ipynb"] in
  f ∈ PathOps.glob_list (fs w0) (Sample.rel ["nb"]) true
  ∧ (f ∉ PathOps.glob_list (fs w0) (Sample.rel ["nb"]) false)
  ∧ ∃ w2,
      NotebookToHTMLConverter.convert_one Sample.plain (Sample.rel ["nb"])
        (Sample.rel ["out"]) f w0
      = NotebookToHTMLConverter.convert_single_file Sample.plain (AsPath f)
          (Some (AsPath (Sample.rel ["out"; "sub"; "c.html"]))) w2
      ∧ fs w2 !! Sample.rel ["out"; "sub"] = Some Dir.
Proof.
  intros w0 f.
  assert (Hvalid : fs Sample.world !! Sample.rel ["nb"] = Some Dir)
    by reflexivity.
  assert (Hroot :
    NotebookToHTMLConverter.resolve_output_dir (Sample.rel ["nb"])
      (Some (Sample.rel ["out"])) Sample.world
    = (Ok (Sample.rel ["out"]), w0)) by (vm_compute; reflexivity).
  destruct (Facts.batch_mirrors_the_tree Sample.plain (Sample.rel ["nb"])
              (Some (Sample.rel ["out"])) true (Sample.rel ["out"])
              Sample.world w0 Hvalid Hroot)
    as (_ & _ & _ & Hdeep & Hturn).
  destruct (Facts.batch_mirrors_the_tree Sample.plain (Sample.rel ["nb"])
              (Some (Sample.rel ["out"])) false (Sample.rel ["out"])
              Sample.world w0 Hvalid Hroot)
    as (_ & _ & _ & Hflat & _).
  assert (Hf : f ∈ PathOps.glob_list (fs w0) (Sample.rel ["nb"]) true).
  { apply Hdeep. split; [vm_compute; eauto |].
    exists ["sub"], "c.ipynb". split; [reflexivity |].
    split; [reflexivity |].
    intros [| k] Hk; [reflexivity | cbn in Hk; lia]. }
  split; [exact Hf |]. split.
  - intros Hin. apply Hflat in Hin as (_ & ds & nm & Heq & _ & ->).
    discriminate Heq.
  - destruct (Hturn f Hf) as (ds & Heq & _ & _ & _ & Hone & Hmade).
    assert (Hds : ds = ["sub"]).
    { injection Heq as Heq. destruct ds as [| d [| d' ds]]; try discriminate.
      - now injection Heq as ->.
      - injection Heq as _ Heq. now destruct ds. }
    subst ds.
    destruct (Hmade w0) as (w2 & Hmk & Hdir & _).
    + reflexivity.
    + intros [| [| k]] data; vm_compute; discriminate.
    + exists w2. split; [| exact Hdir].
      rewrite Hone. unfold mbind, M_bind. now rewrite Hmk.
Defined.

(** C9 at work: [nb/a.ipynb] converted twice, resources included. *)
Lemma conversion_is_repeatable_witness :
  ∃ w1 w2,
    NotebookToHTMLConverter.convert_single_file Sample.side_car
      (AsStr "nb/a.ipynb") None Sample.world
    = (Ok (Sample.rel ["nb"; "a.html"]), w1)
    ∧ NotebookToHTMLConverter.convert_single_file Sample.side_car
        (AsStr "nb/a.ipynb") None w1
      = (Ok (Sample.rel ["nb"; "a.html"]), w2)
    ∧ fs w2 = fs w1.
Proof.
  destruct (Facts.conversion_is_repeatable (H := Sample.libs) Sample.side_car
              (AsStr "nb/a.ipynb") None (Sample.rel ["nb"; "a.html"])
              Sample.world "{a}" "{a}" "<html><head></head>{a}</html>"
              [("output_0_0.png", "PNG")])
    as (w1 & w2 & Hrun1 & Hrun2 & _ & Hsame).
  - reflexivity.
  - reflexivity.
  - reflexivity.
  - now apply Witness.a_convertible.
  - vm_compute. reflexivity.
  - exists w1, w2. split; [exact Hrun1 |]. split; [exact Hrun2 | exact Hsame].
Defined.

(** C10 at work: [UP.IPYNB] is converted to [UP.html]. *)
Lemma extension_check_ignores_case_witness :
  NotebookToHTMLConverter.convert_single_file Sample.plain
    (AsStr "nb/UP.IPYNB") None Sample.world
  = (Ok (Sample.rel ["nb"; "UP.html"]),
     mkWorld (<[Sample.rel ["nb"; "UP.html"] :=
                File "<style/><html><head></head>{up}</html>"]> Sample.tree)
             ["Converting: nb/UP.IPYNB";
              "✓ Converted successfully: nb/UP.html"]).
Proof.
  rewrite (Facts.extension_check_ignores_case Sample.plain
             (AsStr "nb/UP.IPYNB") None Sample.world "UP" ".IPYNB").
  - vm_compute. reflexivity.
  - vm_compute. eauto.
  - reflexivity.
  - discriminate.
  - reflexivity.
Defined.

(** Two valid notebooks and a malformed one: two results, and the one
    failure on a line of its own. *)
Example batch_two_valid_one_malformed :
  let r := NotebookToHTMLConverter.convert_directory Sample.plain
             (Sample.rel ["nb"]) None true Sample.world in
  r.1 = Ok [Sample.rel ["nb"; "a.html"]; Sample.rel ["nb"; "sub"; "c.html"]]
  ∧ filter (λ line, Str.startswith line "Failed to convert " = true)
           (stdout r.2)
    = ["Failed to convert nb/bad.ipynb: Notebook does not appear to be JSON"].
Proof. vm_compute. split; reflexivity. Qed.

(** ** The further properties at work *)

(** X1 at work: [nb/notes.txt] outlives a conversion. *)
Lemma single_conversion_keeps_entries_witness :
  ∃ n',
    fs (NotebookToHTMLConverter.convert_single_file Sample.side_car
          (AsStr "nb/a.ipynb") None Sample.world).2
       !! Sample.rel ["nb"; "notes.txt"] = Some n'
    ∧ (File "text" = Dir ↔ n' = Dir).
Proof.
  apply (MoreFacts.single_conversion_keeps_entries (H := Sample.libs)
           Sample.side_car (AsStr "nb/a.ipynb") None Sample.world
           (Sample.rel ["nb"; "notes.txt"]) (File "text")).
  reflexivity.
Defined.

(** X2 at work: the malformed notebook outlives the batch that skips it. *)
Lemma batch_conversion_keeps_entries_witness :
  ∃ n',
    fs (NotebookToHTMLConverter.convert_directory Sample.plain
          (Sample.rel ["nb"]) (Some (Sample.rel ["out"])) true Sample.world).2
       !! Sample.rel ["nb"; "bad.ipynb"] = Some n'
    ∧ (File "not a notebook" = Dir ↔ n' = Dir).
Proof.
  apply (MoreFacts.batch_conversion_keeps_entries (H := Sample.libs)
           Sample.plain (Sample.rel ["nb"]) (Some (Sample.rel ["out"])) true
           Sample.world (Sample.rel ["nb"; "bad.ipynb"])
           (File "not a notebook")).
  reflexivity.
Defined.

(** X3 at work: an explicit output path is what comes back. *)
Lemma returned_path_is_the_output_file_witness :
  ∃ data,
    fs (NotebookToHTMLConverter.convert_single_file Sample.plain
          (AsStr "nb/a.ipynb") (Some (AsStr "nb/report.html")) Sample.world).2
       !! Sample.rel ["nb"; "report.html"] = Some (File data).
Proof.
  apply (MoreFacts.returned_path_is_the_output_file (H := Sample.libs)
           Sample.plain (AsStr "nb/a.ipynb") (Some (AsStr "nb/report.html"))
           (Sample.rel ["nb"; "report.html"]) Sample.world).
  vm_compute. reflexivity.
Defined.

(** X4 at work: the malformed notebook ends on the error line. *)
Lemma call_ends_on_a_status_line_witness :
  Conduct.last_line
    (NotebookToHTMLConverter.convert_single_file Sample.plain
       (AsStr "nb/bad.ipynb") None Sample.world).2
  = Some "✗ Error converting nb/bad.ipynb: Notebook does not appear to be JSON".
Proof.
  rewrite (MoreFacts.call_ends_on_a_status_line (H := Sample.libs)
             Sample.plain (AsStr "nb/bad.ipynb") None Sample.world).
  - reflexivity.
  - vm_compute. eauto.
  - reflexivity.
Defined.

(** X5 at work: the malformed notebook, with the kernel asked for. *)
Lemma failure_before_writing_changes_nothing_witness :
  ∃ w',
    NotebookToHTMLConverter.convert_single_file Sample.executing
      (AsStr "nb/bad.ipynb") None Sample.world
    = (Raise Sample.not_json, w')
    ∧ fs w' = fs Sample.world.
Proof.
  apply (MoreFacts.failure_before_writing_changes_nothing (H := Sample.libs)
           Sample.executing (AsStr "nb/bad.ipynb") None Sample.world
           "not a notebook" Sample.not_json).
  - reflexivity.
  - reflexivity.
  - left. reflexivity.
Defined.

(** X6 at work: [''] as output of a valid notebook. *)
Lemma empty_output_string_fails_witness :
  ∃ w',
    NotebookToHTMLConverter.convert_single_file Sample.plain
      (AsStr "nb/a.ipynb") (Some (AsStr "")) Sample.world
    = (Raise (OSError.ENOENT ""), w')
    ∧ fs w' = fs Sample.world.
Proof.
  destruct (MoreFacts.empty_output_string_fails (H := Sample.libs)
              Sample.plain (AsStr "nb/a.ipynb") Sample.world)
    as (e & w' & Hrun & Hfs & He).
  rewrite (He "{a}" "{a}" "<html><head></head>{a}</html>" []) in Hrun;
    [| reflexivity ..].
  exists w'. split; [exact Hrun | exact Hfs].
Defined.

(** X7 at work: [nb/a_files] is a regular file. *)
Lemma side_car_failure_leaves_the_html_witness :
  ∃ w',
    NotebookToHTMLConverter.convert_single_file Sample.side_car
      (AsStr "nb/a.ipynb") None MoreSample.taken_world
    = (Raise (OSError.EEXIST "nb/a_files"), w')
    ∧ fs w' !! Sample.rel ["nb"; "a.html"]
      = Some (File "<style/><html><head></head>{a}</html>").
Proof.
  destruct (MoreFacts.side_car_failure_leaves_the_html (H := Sample.libs)
              Sample.side_car (AsStr "nb/a.ipynb") None
              (Sample.rel ["nb"; "a.html"]) MoreSample.taken_world
              "{a}" "{a}" "<html><head></head>{a}</html>"
              [("output_0_0.png", "PNG")] "not a directory")
    as (w' & Hrun & Hfs).
  - reflexivity.
  - reflexivity.
  - reflexivity.
  - reflexivity.
  - reflexivity.
  - discriminate.
  - reflexivity.
  - vm_compute. discriminate.
  - reflexivity.
  - exists w'. split; [exact Hrun |]. rewrite Hfs. apply lookup_insert_eq.
Defined.

(** X8 at work: [nb/a.ipynb] after its conversion with resources. *)
Lemma notebook_is_left_untouched_witness :
  fs (NotebookToHTMLConverter.convert_single_file Sample.side_car
        (AsStr "nb/a.ipynb") None Sample.world).2
     !! Sample.rel ["nb"; "a.ipynb"] = Some (File "{a}").
Proof.
  apply (MoreFacts.notebook_is_left_untouched (H := Sample.libs)
           Sample.side_car (AsStr "nb/a.ipynb") Sample.world "a" ".ipynb"
           "{a}" "{a}" "<html><head></head>{a}</html>"
           [("output_0_0.png", "PNG")]).
  - reflexivity.
  - discriminate.
  - reflexivity.
  - now apply Witness.a_convertible.
Defined.

(** X9 at work: the working directory holds [nb] and nothing else, and
    [out] is made although there is nothing to convert. *)
Lemma batch_without_notebooks_witness :
  NotebookToHTMLConverter.convert_directory Sample.plain (Sample.rel [])
    (Some (Sample.rel ["out"])) false Sample.world
  = (Ok [],
     mkWorld (<[Sample.rel ["out"] := Dir]> Sample.tree)
             ["No .ipynb files found in ."])
  ∧ <[Sample.rel ["out"] := Dir]> Sample.tree !! Sample.rel ["out"]
    = Some Dir.
Proof.
  assert (Hmade :
    PathOps.mkdir (Sample.rel ["out"]) true true Sample.world
    = (Ok tt, mkWorld (<[Sample.rel ["out"] := Dir]> Sample.tree) []))
    by (vm_compute; reflexivity).
  assert (Hnames : ∀ ds nm,
    (false = false → ds = []) →
    Str.endswith nm ".ipynb" = true →
    <[Sample.rel ["out"] := Dir]> Sample.tree !! Sample.rel (ds ++ [nm])
    = None).
  { intros ds nm Hds Hnm. rewrite (Hds eq_refl). cbn [app].
    destruct (<[Sample.rel ["out"] := Dir]> Sample.tree !! Sample.rel [nm])
      as [n |] eqn:Hn; [| reflexivity].
    exfalso. apply elem_of_map_to_list in Hn. vm_compute in Hn.
    repeat (apply elem_of_cons in Hn as [Hn | Hn];
            [try discriminate Hn;
             try (injection Hn as -> _; vm_compute in Hnm; discriminate Hnm)
            |]).
    now apply elem_of_nil in Hn. }
  exact (MoreFacts.batch_without_notebooks (H := Sample.libs) Sample.plain
           (Sample.rel []) (Some (Sample.rel ["out"])) false
           (Sample.rel ["out"]) Sample.world
           (mkWorld (<[Sample.rel ["out"] := Dir]> Sample.tree) [])
           eq_refl
           (f_equal (λ r, match r with
                          | (Ok _, w0) => (Ok (Sample.rel ["out"]), w0)
                          | (Raise e, w0) => (Raise e, w0)
                          end) Hmade)
           Hnames).
Defined.

(** X10 at work: a recursive batch into [out]; the result
    [out/sub/c.html] is a file and mirrors a notebook of the
    enumeration. *)
Lemma batch_results_are_mirrored_files_witness :
  let r := NotebookToHTMLConverter.convert_directory Sample.plain
             (Sample.rel ["nb"]) (Some (Sample.rel ["out"])) true
             Sample.world in
  (∃ data, fs r.2 !! Sample.rel ["out"; "sub"; "c.html"] = Some (File data))
  ∧ ∃ w0 ds nm,
      mkPath false (["nb"] ++ ds ++ [nm])
      ∈ PathOps.glob_list (fs w0) (Sample.rel ["nb"]) true
      ∧ Sample.rel ["out"; "sub"; "c.html"]
        = mkPath false
            (["out"] ++ ds ++ [PurePath.stem (mkPath false [nm]) +:+ ".html"]).
Proof.
  intros r.
  assert (Hrun :
    NotebookToHTMLConverter.convert_directory Sample.plain
      (Sample.rel ["nb"]) (Some (Sample.rel ["out"])) true Sample.world
    = (Ok [Sample.rel ["out"; "a.html"]; Sample.rel ["out"; "sub"; "c.html"]],
       r.2)) by (vm_compute; reflexivity).
  destruct (MoreFacts.batch_results_are_mirrored_files (H := Sample.libs)
              Sample.plain (Sample.rel ["nb"]) (Some (Sample.rel ["out"])) true
              Sample.world r.2
              [Sample.rel ["out"; "a.html"];
               Sample.rel ["out"; "sub"; "c.html"]] Hrun)
    as (w0 & _ & Hall).
  destruct (Hall (Sample.rel ["out"; "sub"; "c.html"]))
    as [Hfile (ds & nm & Hin & _ & _ & Heq)].
  - apply list_elem_of_further, list_elem_of_here.
  - split; [exact Hfile |]. exists w0, ds, nm.
    split; [exact Hin | exact Heq].
Defined.

(** X11 at work: [nb/a.ipynb] in a batch over [nb] with no output
    directory. *)
Lemma in_place_turn_is_default_conversion_witness :
  NotebookToHTMLConverter.convert_one Sample.plain (Sample.rel ["nb"])
    (Sample.rel ["nb"]) (Sample.rel ["nb"; "a.ipynb"]) Sample.world
  = NotebookToHTMLConverter.convert_single_file Sample.plain
      (AsPath (Sample.rel ["nb"; "a.ipynb"])) None Sample.world.
Proof.
  apply (MoreFacts.in_place_turn_is_default_conversion (H := Sample.libs)
           Sample.plain (Sample.rel ["nb"]) (Sample.rel ["nb"; "a.ipynb"])
           [] "a" Sample.world).
  - reflexivity.
  - reflexivity.
  - discriminate.
  - reflexivity.
Defined.

(** X14 at work: a missing path and a text file on the command line. *)
Lemma cli_rejects_bad_input_witness :
  CLI.main (MoreSample.cli "nope" None false) Sample.world
  = (1%nat, mkWorld Sample.tree ["Error: Input path not found: nope"])
  ∧ CLI.main (MoreSample.cli "nb/notes.txt" None false) Sample.world
    = (1%nat,
       mkWorld Sample.tree
         ["Error: Input file must be a .ipynb file: nb/notes.txt"]).
Proof.
  split.
  - apply (MoreFacts.cli_rejects_bad_input (H := Sample.libs)
             (MoreSample.cli "nope" None false) Sample.world).
    reflexivity.
  - apply (proj2 (MoreFacts.cli_rejects_bad_input (H := Sample.libs)
                    (MoreSample.cli "nb/notes.txt" None false) Sample.world)
             "text").
    + reflexivity.
    + vm_compute. discriminate.
Defined.

(** X15 at work: [nb] holds a malformed notebook, and the status is 0. *)
Lemma cli_directory_mode_exits_zero_witness :
  (CLI.main (MoreSample.cli "nb" None false) Sample.world).1 = 0%nat.
Proof.
  destruct (MoreFacts.cli_directory_mode_exits_zero (H := Sample.libs)
              (MoreSample.cli "nb" None false) (Sample.rel ["nb"])
              Sample.world Sample.world)
    as (oks & w1 & _ & Hmain).
  - reflexivity.
  - reflexivity.
  - now rewrite Hmain.
Defined.

(** X16 at work: [-o out/a.html] with no [out]. *)
Lemma cli_needs_the_output_directory_witness :
  (CLI.main (MoreSample.cli "nb/a.ipynb" (Some "out/a.html") false)
     Sample.world).1 = 1%nat
  ∧ fs (CLI.main (MoreSample.cli "nb/a.ipynb" (Some "out/a.html") false)
          Sample.world).2 = fs Sample.world.
Proof.
  apply (MoreFacts.cli_needs_the_output_directory (H := Sample.libs)
           (MoreSample.cli "nb/a.ipynb" (Some "out/a.html") false)
           Sample.world "{a}" "out/a.html").
  - reflexivity.
  - reflexivity.
  - discriminate.
  - reflexivity.
Defined.

(** X17 at work: [nb/a.ipynb] on the command line. *)
Lemma cli_converts_a_notebook_witness :
  (CLI.main (MoreSample.cli "nb/a.ipynb" None false) Sample.world).1 = 0%nat
  ∧ fs (CLI.main (MoreSample.cli "nb/a.ipynb" None false) Sample.world).2
       !! Sample.rel ["nb"; "a.html"]
    = Some (File "<style/><html><head></head>{a}</html>").
Proof.
  apply (MoreFacts.cli_converts_a_notebook (H := Sample.libs)
           (MoreSample.cli "nb/a.ipynb" None false)
           (Sample.rel ["nb"; "a.html"]) Sample.world "{a}" "{a}"
           "<html><head></head>{a}</html>" []).
  - reflexivity.
  - reflexivity.
  - now apply (Witness.a_convertible Sample.plain).
Defined.

(** X19 at work: notebooks from [nb] and [nb/sub] land side by side in
    [out/x]. *)
Lemma tk_worker_targets_witness :
  ∃ data,
    fs (TkWorker.convert_files (MoreSample.tk_settings "out/x")
          [Sample.rel ["nb"; "a.ipynb"]; Sample.rel ["nb"; "sub"; "c.ipynb"]]
          [] Sample.world).2
       !! Sample.rel ["out"; "x"; "c.html"] = Some (File data).
Proof.
  destruct (TkWorker.convert_files (MoreSample.tk_settings "out/x")
              [Sample.rel ["nb"; "a.ipynb"];
               Sample.rel ["nb"; "sub"; "c.ipynb"]] [] Sample.world)
    as [[pr | e] w'] eqn:Hrun.
  - apply (MoreFacts.tk_worker_targets (H := Sample.libs) _ _ _ _ _ _ Hrun).
    vm_compute in Hrun. injection Hrun as <- _. cbn.
    apply list_elem_of_further, list_elem_of_here.
  - vm_compute in Hrun. discriminate Hrun.
Defined.

(** X12 at work: the batch over [nb], with its one malformed notebook. *)
Lemma batch_prints_one_line_per_failure_witness :
  ∃ oks w' ls,
    NotebookToHTMLConverter.convert_directory Sample.plain (Sample.rel ["nb"])
      None false Sample.world = (Ok oks, w')
    ∧ stdout w' = (stdout Sample.world ++ ls)%list
    ∧ (length oks
       + length (filter (λ l, Conduct.failure_line l = true) ls) = 2)%nat.
Proof.
  apply (MoreFacts.batch_prints_one_line_per_failure (H := Sample.libs)
           Sample.plain (Sample.rel ["nb"]) None false (Sample.rel ["nb"])
           Sample.world Sample.world).
  - reflexivity.
  - reflexivity.
Defined.

(** X13 at work: [nb/archive.ipynb] is a directory. *)
Lemma directory_named_like_a_notebook_witness :
  ∃ w',
    NotebookToHTMLConverter.convert_single_file Sample.plain
      (AsStr "nb/archive.ipynb") None MoreSample.dir_world
    = (Raise (OSError.EISDIR "nb/archive.ipynb"), w')
    ∧ fs w' = fs MoreSample.dir_world.
Proof.
  apply (MoreFacts.directory_named_like_a_notebook (H := Sample.libs)
           Sample.plain (AsStr "nb/archive.ipynb") None MoreSample.dir_world).
  - reflexivity.
  - reflexivity.
Defined.

(** X18 at work: one notebook converts, one is malformed; the queue ends
    on the summary and ["ENABLE_BUTTON"]. *)
Lemma tk_worker_accounts_for_every_file_witness :
  ∃ pr w',
    TkWorker.convert_files (MoreSample.tk_settings "")
      [Sample.rel ["nb"; "a.ipynb"]; Sample.rel ["nb"; "bad.ipynb"]] []
      Sample.world = (Ok pr, w')
    ∧ (length (converted_files pr) + length (errors pr) = 2)%nat
    ∧ last (queued pr) = Some "ENABLE_BUTTON"
    ∧ length (queued pr) = 6%nat.
Proof.
  destruct (MoreFacts.tk_worker_accounts_for_every_file (H := Sample.libs)
              (MoreSample.tk_settings "")
              [Sample.rel ["nb"; "a.ipynb"]; Sample.rel ["nb"; "bad.ipynb"]]
              [] Sample.world)
    as (pr & w' & msgs & Hrun & Hlen & Hq & Hmsgs & Hlast).
  exists pr, w'. split; [exact Hrun |]. split; [exact Hlen |].
  split; [exact Hlast |].
  rewrite Hq, !length_app, Hmsgs. reflexivity.
Defined.

(** X20 at work: the kernel fails on [nb/sub/c.ipynb]. *)
Lemma execution_failure_is_not_fatal_witness :
  ∃ w',
    NotebookToHTMLConverter.convert_single_file Sample.executing
      (AsStr "nb/sub/c.ipynb") None Sample.world
    = (Ok (Sample.rel ["nb"; "sub"; "c.html"]), w')
    ∧ fs w' !! Sample.rel ["nb"; "sub"; "c.html"]
      = Some (File "<style/><html><head></head>{c boom}[1]</html>").
Proof.
  destruct (MoreFacts.execution_failure_is_not_fatal (H := Sample.libs) Sample.executing
              (AsStr "nb/sub/c.ipynb") None (Sample.rel ["nb"; "sub"; "c.html"])
              Sample.world "{c boom}" "{c boom}" "{c boom}[1]"
              Sample.cell_error "<html><head></head>{c boom}[1]</html>" [])
    as (w' & Hrun & _ & Hfile & _).
  - reflexivity.
  - reflexivity.
  - reflexivity.
  - reflexivity.
  - constructor; try reflexivity.
    + vm_compute. discriminate.
    + intros data. vm_compute. discriminate.
    + constructor.
  - exists w'. split; [exact Hrun | exact Hfile].
Defined.
